(** * Bekuto3D: the packaged-manufacturing (3MF) exporters

    A shallow embedding of [src/composables/3mf-exporter.ts] (the
    BambuStudio-compatible exporter), of the merged single-object exporter
    ([createModelXML] / [processObject]) and of the legacy text-templated
    exporter, together with the part of three.js and of the JavaScript
    number model that these functions call.

    JavaScript numbers that hold colours and coordinates are IEEE 754
    doubles: they are Rocq's primitive floats, and [===] is [PrimFloat.eqb].
    Numbers that hold counts, identifiers and indices are integers: they
    are [Z].  Arrays are lists, grown at the end by [push]. *)

From Stdlib Require Import ZArith String Ascii Bool List Lia Floats QArith.
From Stdlib Require Import DecimalString HexadecimalString DecimalN.
From Stdlib Require DecimalZ DecimalPos HexadecimalZ HexadecimalPos.
Close Scope Q_scope.
Import ListNotations.

Set Implicit Arguments.
Set Warnings "-register-all,-inexact-float".

(* ================================================================= *)
(** ** JavaScript: completion of a call, numbers, strings *)

Module JS.

Inductive error := TypeError.

(** How a call ends: it returns, it throws, or the model's recursion
    budget is exhausted (never the case for the budgets used below). *)
Inductive outcome (A : Type) : Type :=
| Ok (a : A)
| Throw (e : error)
| OutOfFuel.
Arguments Ok {A} a.
Arguments Throw {A} e.
Arguments OutOfFuel {A}.

Definition bind {A B} (m : outcome A) (k : A -> outcome B) : outcome B :=
  match m with
  | Ok a => k a
  | Throw e => Throw e
  | OutOfFuel => OutOfFuel
  end.

(** A number read from an index stream or computed from one: an integer,
    [undefined] (a read past the end of a typed array) or [NaN]
    (arithmetic on [undefined]). *)
Inductive value := Num (n : Z) | Undefined | NaN.

(** [a + v] for an integer [a]. *)
Definition add (a : Z) (v : value) : value :=
  match v with
  | Num n => Num (a + n)
  | Undefined | NaN => NaN
  end.

(** [array[i]] on a typed array. *)
Definition get (a : list Z) (i : nat) : value :=
  match nth_error a i with
  | Some n => Num n
  | None => Undefined
  end.

(** [a.length] as a number. *)
Definition len {A} (a : list A) : Z := Z.of_nat (length a).

(** [n.toString()] and template interpolation of an integer. *)
Definition toString (n : Z) : string :=
  DecimalString.NilZero.string_of_int (Z.to_int n).

(** Truthiness of a string. *)
Definition truthy (s : string) : bool :=
  match s with EmptyString => false | _ => true end.

(** [s.padStart(n, '0')]. *)
Definition padStart0 (n : nat) (s : string) : string :=
  (String.concat "" (repeat "0" (n - String.length s)) ++ s)%string.

(** The result of [Math.round]: an integer-valued double, or not a
    finite number. *)
Inductive rounded := RInt (n : Z) | RNaN | RInfinity (negative : bool).

(** [Math.round(x)]: the integer nearest to [x], the larger one on a tie. *)
Definition Math_round (x : float) : rounded :=
  match Prim2SF x with
  | S754_zero _ => RInt 0
  | S754_nan => RNaN
  | S754_infinity s => RInfinity s
  | S754_finite s m e =>
      let v := if s then Z.neg m else Z.pos m in
      RInt (if (0 <=? e)%Z then v * 2 ^ e
            else (2 * v + 2 ^ (- e)) / 2 ^ (- e + 1))
  end.

(** [n.toString(16)] for the result of [Math.round]. *)
Definition toString16 (n : rounded) : string :=
  match n with
  | RInt n => HexadecimalString.NilZero.string_of_int (Z.to_hex_int n)
  | RNaN => "NaN"
  | RInfinity false => "Infinity"
  | RInfinity true => "-Infinity"
  end.

(** The first [k] characters of [s] and the others. *)
Fixpoint splitAt (k : nat) (s : string) : string * string :=
  match k, s with
  | O, _ => (EmptyString, s)
  | S _, EmptyString => (EmptyString, EmptyString)
  | S k', String c rest =>
      let '(a, b) := splitAt k' rest in (String c a, b)
  end.

(** The digits of [x.toFixed(f)] for a non-negative integer [n] of units
    of [10^-f]: at least [f + 1] digits, a point before the last [f]. *)
Definition fixedDigits (f : nat) (n : Z) : string :=
  let m := padStart0 (f + 1)
               (DecimalString.NilZero.string_of_uint (N.to_uint (Z.to_N n))) in
  let k := String.length m in
  let '(a, b) := splitAt (k - f) m in
  (a ++ "." ++ b)%string.

(** The integer [n] for which [n / 10^f - m * 2^e] is closest to zero,
    the larger one when there are two. *)
Definition nearestFixed (f : nat) (m : positive) (e : Z) : Z :=
  if (0 <=? e)%Z then Z.pos m * 2 ^ e * 10 ^ Z.of_nat f
  else (2 * Z.pos m * 10 ^ Z.of_nat f + 2 ^ (- e)) / 2 ^ (- e + 1).

(** [m * 2^e >= 10^21]. *)
Definition atLeast1e21 (m : positive) (e : Z) : bool :=
  if (0 <=? e)%Z then (10 ^ 21 <=? Z.pos m * 2 ^ e)%Z
  else (10 ^ 21 * 2 ^ (- e) <=? Z.pos m)%Z.

(** [x.toFixed(f)] for [1 <= f <= 100] (ECMA-262, 21.1.3.3): a number
    that is not finite is written by [Number::toString]; otherwise the
    sign, and for a magnitude of [10^21] or more [Number::toString] of the
    magnitude (given as [numberToString]), else the fixed-point digits. *)
Definition toFixed (numberToString : float -> string) (f : nat) (x : float)
  : string :=
  match Prim2SF x with
  | S754_nan => "NaN"
  | S754_infinity false => "Infinity"
  | S754_infinity true => "-Infinity"
  | S754_zero _ => fixedDigits f 0
  | S754_finite s m e =>
      ((if s then "-" else "")
       ++ (if atLeast1e21 m e then numberToString (abs x)
           else fixedDigits f (nearestFixed f m e)))%string
  end.

End JS.
Import JS.

Declare Scope js_scope.
Notation "x <- m ;; k" := (bind m (fun x => k))
  (at level 61, m at next level, right associativity) : js_scope.
Notation "' p <- m ;; k" := (bind m (fun x => let p := x in k))
  (at level 61, p pattern, m at next level, right associativity) : js_scope.
Open Scope js_scope.

(** [array.forEach] over a list of objects, each of which the callback may
    update in place; the callback may throw. *)
Fixpoint forEach {A S} (f : A -> S -> outcome (A * S)) (l : list A) (st : S)
  : outcome (list A * S) :=
  match l with
  | [] => Ok ([], st)
  | a :: l' =>
      '(a', st1) <- f a st ;;
      '(l'', st2) <- forEach f l' st1 ;;
      Ok (a' :: l'', st2)
  end.

(** A sequence of calls over read-only items. *)
Fixpoint foldM {A S} (f : A -> S -> outcome S) (l : list A) (st : S)
  : outcome S :=
  match l with
  | [] => Ok st
  | a :: l' => st1 <- f a st ;; foldM f l' st1
  end.

(** The values of [i] that [for (let i = 0; i < count; i += 3)] visits. *)
Fixpoint forBy3 (fuel i count : nat) : list nat :=
  match fuel with
  | O => []
  | S fuel' => if i <? count then i :: forBy3 fuel' (i + 3) count else []
  end.

Definition steps3 (count : nat) : list nat := forBy3 count 0 count.

(* ================================================================= *)
(** ** three.js: the classes and methods the exporters call *)

(** The library is not part of the repository; what follows is the
    behaviour of the methods the exporters call, taken from the library's
    sources: [Object3D.updateMatrixWorld], [Matrix4.multiplyMatrices],
    [Vector3.applyMatrix4] and [Color.set] (with the library's colour
    management, which is on unless the application turns it off; no file of
    the repository does).  A transform composed from position, quaternion
    and scale is kept as the matrix it composes to. *)

Module Three.

Local Open Scope float_scope.

Record Color := mkColor { r : float; g : float; b : float }.

Record Vector3 := mkVector3 { x : float; y : float; z : float }.

(** [Matrix4.elements], column-major. *)
Record Matrix4 := mkMatrix4 {
  e0 : float; e1 : float; e2 : float; e3 : float;
  e4 : float; e5 : float; e6 : float; e7 : float;
  e8 : float; e9 : float; e10 : float; e11 : float;
  e12 : float; e13 : float; e14 : float; e15 : float }.

Definition identity : Matrix4 :=
  mkMatrix4 1 0 0 0  0 1 0 0  0 0 1 0  0 0 0 1.

(** [Matrix4.multiplyMatrices(a, b)]. *)
Definition multiplyMatrices (a b : Matrix4) : Matrix4 :=
  let a11 := e0 a in let a12 := e4 a in let a13 := e8 a in let a14 := e12 a in
  let a21 := e1 a in let a22 := e5 a in let a23 := e9 a in let a24 := e13 a in
  let a31 := e2 a in let a32 := e6 a in let a33 := e10 a in let a34 := e14 a in
  let a41 := e3 a in let a42 := e7 a in let a43 := e11 a in let a44 := e15 a in
  let b11 := e0 b in let b12 := e4 b in let b13 := e8 b in let b14 := e12 b in
  let b21 := e1 b in let b22 := e5 b in let b23 := e9 b in let b24 := e13 b in
  let b31 := e2 b in let b32 := e6 b in let b33 := e10 b in let b34 := e14 b in
  let b41 := e3 b in let b42 := e7 b in let b43 := e11 b in let b44 := e15 b in
  {| e0 := a11 * b11 + a12 * b21 + a13 * b31 + a14 * b41;
     e4 := a11 * b12 + a12 * b22 + a13 * b32 + a14 * b42;
     e8 := a11 * b13 + a12 * b23 + a13 * b33 + a14 * b43;
     e12 := a11 * b14 + a12 * b24 + a13 * b34 + a14 * b44;
     e1 := a21 * b11 + a22 * b21 + a23 * b31 + a24 * b41;
     e5 := a21 * b12 + a22 * b22 + a23 * b32 + a24 * b42;
     e9 := a21 * b13 + a22 * b23 + a23 * b33 + a24 * b43;
     e13 := a21 * b14 + a22 * b24 + a23 * b34 + a24 * b44;
     e2 := a31 * b11 + a32 * b21 + a33 * b31 + a34 * b41;
     e6 := a31 * b12 + a32 * b22 + a33 * b32 + a34 * b42;
     e10 := a31 * b13 + a32 * b23 + a33 * b33 + a34 * b43;
     e14 := a31 * b14 + a32 * b24 + a33 * b34 + a34 * b44;
     e3 := a41 * b11 + a42 * b21 + a43 * b31 + a44 * b41;
     e7 := a41 * b12 + a42 * b22 + a43 * b32 + a44 * b42;
     e11 := a41 * b13 + a42 * b23 + a43 * b33 + a44 * b43;
     e15 := a41 * b14 + a42 * b24 + a43 * b34 + a44 * b44 |}.

(** [new Vector3().fromBufferAttribute(attr, i).applyMatrix4(m)]: the
    result is a new vector, the attribute is not written. *)
Definition applyMatrix4 (v : Vector3) (m : Matrix4) : Vector3 :=
  let w := 1 / (e3 m * x v + e7 m * y v + e11 m * z v + e15 m) in
  {| x := (e0 m * x v + e4 m * y v + e8 m * z v + e12 m) * w;
     y := (e1 m * x v + e5 m * y v + e9 m * z v + e13 m) * w;
     z := (e2 m * x v + e6 m * y v + e10 m * z v + e14 m) * w |}.

(** [SRGBToLinear(c)] of the library's colour management:
    [c < 0.04045 ? c * 0.0773993808
                 : Math.pow(c * 0.9478672986 + 0.0521327014, 2.4)].
    [pow] is [Math.pow], whose last digits ECMA-262 leaves to the
    engine. *)
Definition SRGBToLinear (pow : float -> float -> float) (c : float) : float :=
  if c <? 0.04045 then c * 0.0773993808
  else pow (c * 0.9478672986 + 0.0521327014) 2.4.

(** [new Color().set(hex)] for a numeric [hex], and [setStyle] for a
    string [#rrggbb]; both are [setHex(hex)]: the channels as fractions of
    255, taken from sRGB to the linear working colour space. *)
Definition Color_set (pow : float -> float -> float) (hex : Z) : Color :=
  let channel (n : Z) := SRGBToLinear pow (of_uint63 (Uint63.of_Z n) / 255) in
  {| r := channel (Z.land (Z.shiftr hex 16) 255);
     g := channel (Z.land (Z.shiftr hex 8) 255);
     b := channel (Z.land hex 255) |}.

(** [mesh.material] when it is set: an object with a truthy [color]
    property, or one without (a material array, a shader material, ...). *)
Inductive Material :=
| WithColor (color : Color)
| Colorless.

(** [BufferGeometry]: [attributes.position] (absent, or one vector per
    vertex, so that [count] is the length) and [index] (absent, or the
    index stream). *)
Record BufferGeometry := mkGeometry {
  position : option (list Vector3);
  index : option (list Z) }.

(** What [object.type] distinguishes: a ['Mesh'] carries a geometry and a
    material slot (that may be empty), anything else carries neither. *)
Inductive Kind :=
| Mesh (geometry : BufferGeometry) (material : option Material)
| Group.

(** [Object3D].  [local] is the transform composed from [position],
    [quaternion] and [scale]; [matrix] and [matrixWorld] are the caches
    that [updateMatrix] and [updateMatrixWorld] write. *)
Inductive Object3D := mkObject3D {
  name : string;
  kind : Kind;
  local : Matrix4;
  matrixAutoUpdate : bool;
  matrix : Matrix4;
  matrixWorld : Matrix4;
  matrixWorldNeedsUpdate : bool;
  children : list Object3D }.

(** [object.updateMatrixWorld(force)], given [object.parent.matrixWorld]
    ([None] when [object.parent === null]). *)
Fixpoint updateMatrixWorld (parentWorld : option Matrix4) (force : bool)
    (object : Object3D) : Object3D :=
  let m := if matrixAutoUpdate object then local object else matrix object in
  let needs := if matrixAutoUpdate object then true
               else matrixWorldNeedsUpdate object in
  let update := needs || force in
  let mw := if update
            then match parentWorld with
                 | None => m
                 | Some p => multiplyMatrices p m
                 end
            else matrixWorld object in
  {| name := name object;
     kind := kind object;
     local := local object;
     matrixAutoUpdate := matrixAutoUpdate object;
     matrix := m;
     matrixWorld := mw;
     matrixWorldNeedsUpdate := if update then false else needs;
     children := map (updateMatrixWorld (Some mw) update) (children object) |}.

Definition set_children (o : Object3D) (cs : list Object3D) : Object3D :=
  {| name := name o; kind := kind o; local := local o;
     matrixAutoUpdate := matrixAutoUpdate o; matrix := matrix o;
     matrixWorld := matrixWorld o;
     matrixWorldNeedsUpdate := matrixWorldNeedsUpdate o;
     children := cs |}.

(** Depth of the tree, the recursion budget of a traversal. *)
Fixpoint height (o : Object3D) : nat :=
  S (fold_right (fun c h => Nat.max (height c) h) 0%nat (children o)).

(** All nodes, parents before children, children in stored order. *)
Fixpoint preorder (o : Object3D) : list Object3D :=
  o :: flat_map preorder (children o).

End Three.
Import Three.

(* ================================================================= *)
(** ** [3mf-exporter.ts]: collecting components and materials *)

Record Triangle := mkTriangle { v1 : value; v2 : value; v3 : value }.

Record MaterialInfo := mkMaterialInfo {
  mi_id : Z;
  mi_color : Color;
  mi_name : string;
  mi_extruder : Z }.

Record ComponentInfo := mkComponentInfo {
  ci_id : Z;
  ci_vertices : list Vector3;
  ci_triangles : list Triangle;
  ci_material : option MaterialInfo;
  ci_name : string }.

(** [a.r === c.r && a.g === c.g && a.b === c.b]. *)
Definition sameColor (a c : Color) : bool :=
  PrimFloat.eqb (r a) (r c) && PrimFloat.eqb (g a) (g c)
  && PrimFloat.eqb (b a) (b c).

(** The colour that [color.set(0x808080)] leaves (line 88).  Its channels
    are not 128/255: the library stores [SRGBToLinear(128/255)], which is
    [Math.pow(0.5279249140305882, 2.4)], in double arithmetic
    0.21586050010324417 (lemma [defaultGray_is_set]). *)
Definition defaultGray : Color :=
  mkColor 0.21586050010324417 0.21586050010324417 0.21586050010324417.

(** The colour taken from a material that is set: a copy of its [color],
    or the default gray when it has none. *)
Definition materialColor (m : Material) : Color :=
  match m with
  | WithColor c => c
  | Colorless => defaultGray
  end.

Module Exporter.

Definition State : Type := list ComponentInfo * list MaterialInfo.

(** Lines 91-108: look the colour up, append a new entry when it is not
    found.  Returns the entry and the table. *)
Definition registerMaterial (meshName : string) (color : Color)
    (materials : list MaterialInfo) : MaterialInfo * list MaterialInfo :=
  match find (fun m => sameColor (mi_color m) color) materials with
  | Some existingMaterial => (existingMaterial, materials)
  | None =>
      let extruder := (len materials + 1)%Z in
      let materialInfo :=
        {| mi_id := len materials;
           mi_color := color;
           mi_name := if truthy meshName
                      then (meshName ++ "_material")%string
                      else ("material_" ++ toString (len materials))%string;
           mi_extruder := extruder |} in
      (materialInfo, materials ++ [materialInfo])
  end.

Definition indexedTriangles (indexAttr : list Z) : list Triangle :=
  map (fun i => {| v1 := get indexAttr i;
                   v2 := get indexAttr (i + 1);
                   v3 := get indexAttr (i + 2) |})
      (steps3 (length indexAttr)).

Definition sequentialTriangles (count : nat) : list Triangle :=
  map (fun i => {| v1 := Num (Z.of_nat i);
                   v2 := Num (Z.of_nat i + 1);
                   v3 := Num (Z.of_nat i + 2) |})
      (steps3 count).

(** The body of [if (object.type === 'Mesh')], lines 72-157, for a mesh
    with the given [name], [matrixWorld], [geometry] and [material].
    Reading [count] of an absent position attribute throws. *)
Definition collectMesh (meshName : string) (worldMatrix : Matrix4)
    (geometry : BufferGeometry) (material : option Material) (st : State)
  : outcome State :=
  let '(components, materials) := st in
  let '(materialInfo, materials1) :=
    match material with
    | Some m =>
        let '(mi, ms) := registerMaterial meshName (materialColor m) materials in
        (Some mi, ms)
    | None => (None, materials)
    end in
  let componentId := (100 + len components)%Z in
  match position geometry with
  | None => Throw TypeError
  | Some positionAttr =>
      let component :=
        {| ci_id := componentId;
           ci_vertices := map (fun v => applyMatrix4 v worldMatrix) positionAttr;
           ci_triangles :=
             match index geometry with
             | Some indexAttr => indexedTriangles indexAttr
             | None => sequentialTriangles (length positionAttr)
             end;
           ci_material := materialInfo;
           ci_name := if truthy meshName then meshName
                      else ("Default-" ++ toString componentId)%string |} in
      Ok (components ++ [component], materials1)
  end.

Definition collectNode (object : Object3D) (st : State) : outcome State :=
  match kind object with
  | Mesh geometry material =>
      collectMesh (name object) (matrixWorld object) geometry material st
  | Group => Ok st
  end.

(** [collectComponents(object, components, materials)].  The scene is
    threaded through: the call returns the object as
    [updateMatrixWorld] and the calls on its children left it. *)
Fixpoint collectComponents (fuel : nat) (parentWorld : option Matrix4)
    (object : Object3D) (st : State) : outcome (Object3D * State) :=
  match fuel with
  | O => OutOfFuel
  | S fuel' =>
      let object1 := updateMatrixWorld parentWorld true object in
      st1 <- collectNode object1 st ;;
      '(children1, st2) <-
        forEach (collectComponents fuel' (Some (matrixWorld object1)))
                (children object1) st1 ;;
      Ok (set_children object1 children1, st2)
  end.

End Exporter.

(* ================================================================= *)
(** ** The merged exporter: [createModelXML] and [processObject] *)

Module Merged.

Record MaterialInfo := mkMaterialInfo {
  id : Z;
  color : Color;
  mname : string }.

(** A triangle of the merged mesh, with the optional [pid]. *)
Record Triangle := mkTriangle {
  v1 : value; v2 : value; v3 : value; pid : option Z }.

Definition State : Type :=
  list Vector3 * list Triangle * list MaterialInfo.

(** Lines 146-161: the id of the colour, appended when it is new. *)
Definition registerMaterial (meshName : string) (c : Color)
    (materials : list MaterialInfo) : Z * list MaterialInfo :=
  match find (fun m => sameColor (color m) c) materials with
  | Some existingMaterial => (id existingMaterial, materials)
  | None =>
      let materialId := len materials in
      let materialName :=
        if truthy meshName then (meshName ++ "_material")%string
        else ("material_" ++ toString materialId)%string in
      (materialId,
       materials ++ [ {| id := materialId; color := c; mname := materialName |} ])
  end.

(** Lines 177-199: the triangles of one mesh, re-based by [vertexOffset];
    [count] is [positionAttr.count]. *)
Definition meshTriangles (vertexOffset : Z) (indexAttr : option (list Z))
    (count : nat) (materialId : option Z) : list Triangle :=
  match indexAttr with
  | Some indexAttr =>
      map (fun i => {| v1 := add vertexOffset (get indexAttr i);
                       v2 := add vertexOffset (get indexAttr (i + 1));
                       v3 := add vertexOffset (get indexAttr (i + 2));
                       pid := materialId |})
          (steps3 (length indexAttr))
  | None =>
      map (fun i => {| v1 := Num (vertexOffset + Z.of_nat i);
                       v2 := Num (vertexOffset + Z.of_nat i + 1);
                       v3 := Num (vertexOffset + Z.of_nat i + 2);
                       pid := materialId |})
          (steps3 count)
  end.

(** The body of [if (object.type === 'Mesh')], lines 126-200. *)
Definition processMesh (meshName : string) (worldMatrix : Matrix4)
    (geometry : BufferGeometry) (material : option Material) (st : State)
  : outcome State :=
  let '(vertices, triangles, materials) := st in
  let vertexOffset := len vertices in
  let '(materialId, materials1) :=
    match material with
    | Some m =>
        let '(i, ms) := registerMaterial meshName (materialColor m) materials in
        (Some i, ms)
    | None => (None, materials)
    end in
  match position geometry with
  | None => Throw TypeError
  | Some positionAttr =>
      let vertices1 :=
        vertices ++ map (fun v => applyMatrix4 v worldMatrix) positionAttr in
      let added :=
        meshTriangles vertexOffset (index geometry) (length positionAttr)
                      materialId in
      Ok (vertices1, triangles ++ added, materials1)
  end.

Definition processNode (object : Object3D) (st : State) : outcome State :=
  match kind object with
  | Mesh geometry material =>
      processMesh (name object) (matrixWorld object) geometry material st
  | Group => Ok st
  end.

(** [processObject(object, vertices, triangles, materials)]. *)
Fixpoint processObject (fuel : nat) (parentWorld : option Matrix4)
    (object : Object3D) (st : State) : outcome (Object3D * State) :=
  match fuel with
  | O => OutOfFuel
  | S fuel' =>
      let object1 := updateMatrixWorld parentWorld true object in
      st1 <- processNode object1 st ;;
      '(children1, st2) <-
        forEach (processObject fuel' (Some (matrixWorld object1)))
                (children object1) st1 ;;
      Ok (set_children object1 children1, st2)
  end.

End Merged.

(* ================================================================= *)
(** ** [3mf-exporter.ts]: the parts of the package *)

(** What a call of [exportTo3MF] reads from outside the scene: the clock,
    the random source ([random16 k] is [Math.random() * 16 | 0] at the
    [k]-th draw) and [Number::toString]. *)
Record Env := mkEnv {
  now : string;
  random16 : nat -> Z;
  numberToString : float -> string }.

(** An attribute value handed to the XML builder: a string, or a number
    taken from a triangle. *)
Inductive attr := AStr (s : string) | ANum (v : value).

(** The object handed to [XMLBuilder.build], as the element tree it
    denotes: keys with the attribute prefix are attributes, an array is a
    run of elements of one tag, [#text] is the text. *)
Inductive xml :=
| Element (tag : string) (attrs : list (string * attr)) (body : list xml)
| Text (s : string).

(** The value handed to [JSON.stringify]. *)
Inductive json :=
| JString (s : string)
| JArray (items : list json)
| JObject (fields : list (string * json)).

(** The content of one entry of the archive. *)
Inductive content :=
| XmlDoc (root : xml)
| Raw (s : string)
| JsonDoc (j : json).

Definition nl : string := String (ascii_of_nat 10) EmptyString.
Definition quote : string := String (ascii_of_nat 34) EmptyString.

(** [key="value"] inside a template string. *)
Definition kv (key value : string) : string :=
  (key ++ "=" ++ quote ++ value ++ quote)%string.

Definition hexDigit (v : Z) : string :=
  HexadecimalString.NilZero.string_of_int (Z.to_hex_int v).

(** [template.replace(/[xy]/g, ...)] with the random draws from [k] on. *)
Fixpoint fillUUID (template : string) (random : nat -> Z) (k : nat) : string :=
  match template with
  | EmptyString => EmptyString
  | String c rest =>
      if Ascii.eqb c "x" then
        (hexDigit (random k) ++ fillUUID rest random (S k))%string
      else if Ascii.eqb c "y" then
        (hexDigit (Z.lor (Z.land (random k) 3) 8)
         ++ fillUUID rest random (S k))%string
      else String c (fillUUID rest random k)
  end.

(** The [n]-th call of [generateUUID()]; each call draws 31 times. *)
Definition generateUUID (env : Env) (n : nat) : string :=
  fillUUID "xxxxxxxx-xxxx-4xxx-yxxx-xxxxxxxxxxxx" (random16 env) (31 * n).

Definition rgbToHexColor (color : Color) : string :=
  let r := Math_round (r color * 255) in
  let g := Math_round (g color * 255) in
  let b := Math_round (b color * 255) in
  ("#" ++ padStart0 2 (toString16 r) ++ padStart0 2 (toString16 g)
       ++ padStart0 2 (toString16 b))%string.

Module Package.

Local Open Scope string_scope.

Definition createMainModelXML (env : Env) (components : list ComponentInfo)
  : content :=
  XmlDoc
    (Element "model"
       [("unit", AStr "millimeter");
        ("xml:lang", AStr "en-US");
        ("xmlns", AStr "http://schemas.microsoft.com/3dmanufacturing/core/2015/02");
        ("xmlns:slic3rpe", AStr "http://schemas.slic3r.org/3mf/2017/06");
        ("xmlns:p",
         AStr "http://schemas.microsoft.com/3dmanufacturing/production/2015/06");
        ("requiredextensions", AStr "p")]
       [Element "metadata" [("name", AStr "Application")]
                [Text "BambuStudio-01.07.04.52"];
        Element "metadata" [("name", AStr "Title")] [Text "Exported 3D Model"];
        Element "metadata" [("name", AStr "CreationDate")] [Text (now env)];
        Element "metadata" [("name", AStr "Copyright")]
                [Text "Copyright (c) 2023. All rights reserved."];
        Element "resources" []
          [Element "object"
             [("id", AStr "97");
              ("p:uuid", AStr (generateUUID env 0));
              ("type", AStr "model")]
             [Element "components" []
                (map (fun comp =>
                        Element "component"
                          [("p:path", AStr "/3D/Objects/object-97.model");
                           ("objectid", AStr (toString (ci_id comp)))] [])
                     components)]];
        Element "build" [("p:uuid", AStr (generateUUID env 1 ++ "1"))]
          [Element "item"
             [("objectid", AStr "97");
              ("p:uuid", AStr (generateUUID env 2 ++ "2"));
              ("transform", AStr "1 0 0 0 1 0 0 0 1 0 0 0");
              ("printable", AStr "1")] []]]).

(** The attributes the builder writes: a key whose value is [undefined]
    is left out. *)
Definition writtenAttributes (attrs : list (string * attr))
  : list (string * attr) :=
  filter (fun a => match snd a with
                   | ANum Undefined => false
                   | _ => true
                   end) attrs.

(** Lines 237-241: one [triangle] element of the object model. *)
Definition triangleElement (t : Triangle) : xml :=
  Element "triangle"
    (writtenAttributes
       [("v1", ANum (v1 t)); ("v2", ANum (v2 t)); ("v3", ANum (v3 t))]) [].

(** [firstUUID] is the number of calls of [generateUUID] made before.
    [resources] is given the array of the objects, so that the builder
    writes one [resources] element for each of them. *)
Definition createObjectModelXML (env : Env) (firstUUID : nat)
    (components : list ComponentInfo) : content :=
  let objects :=
    map (fun '(k, component) =>
           Element "object"
             [("id", AStr (toString (ci_id component)));
              ("p:uuid", AStr (generateUUID env (firstUUID + k)));
              ("type", AStr "model")]
             [Element "mesh" []
                [Element "vertices" []
                   (map (fun v =>
                           Element "vertex"
                             [("x", AStr (toFixed (numberToString env) 7 (x v)));
                              ("y", AStr (toFixed (numberToString env) 7 (y v)));
                              ("z", AStr (toFixed (numberToString env) 7 (z v)))]
                             [])
                        (ci_vertices component));
                 Element "triangles" []
                   (map triangleElement (ci_triangles component))]])
        (combine (seq 0 (length components)) components) in
  XmlDoc
    (Element "model"
       [("unit", AStr "millimeter");
        ("xml:lang", AStr "en-US");
        ("xmlns", AStr "http://schemas.microsoft.com/3dmanufacturing/core/2015/02");
        ("xmlns:p",
         AStr "http://schemas.microsoft.com/3dmanufacturing/production/2015/06")]
       (map (fun object => Element "resources" [] [object]) objects)).

Definition createModelSettingsXML (components : list ComponentInfo) : content :=
  let partsXml :=
    String.concat nl
      (map (fun comp =>
              let extruder := match ci_material comp with
                              | Some material => mi_extruder material
                              | None => 1%Z
                              end in
              ("    <part " ++ kv "id" (toString (ci_id comp)) ++ " "
               ++ kv "subtype" "normal_part" ++ ">" ++ nl
               ++ "      <metadata " ++ kv "key" "name" ++ " "
               ++ kv "value" (ci_name comp) ++ "/>" ++ nl
               ++ "      <metadata " ++ kv "key" "extruder" ++ " "
               ++ kv "value" (toString extruder) ++ "/>" ++ nl
               ++ "      <mesh_stat " ++ kv "edges_fixed" "0" ++ " "
               ++ kv "degenerate_facets" "0" ++ " "
               ++ kv "facets_removed" "0" ++ " "
               ++ kv "facets_reversed" "0" ++ " "
               ++ kv "backwards_edges" "0" ++ "/>" ++ nl
               ++ "    </part>")%string)
           components) in
  Raw ("<?xml " ++ kv "version" "1.0" ++ " " ++ kv "encoding" "UTF-8" ++ "?>" ++ nl
       ++ "<config>" ++ nl
       ++ "  <object " ++ kv "id" "97" ++ ">" ++ nl
       ++ "    <metadata " ++ kv "key" "name" ++ " "
       ++ kv "value" "Exported3DModel.3mf" ++ "/>" ++ nl
       ++ "    <metadata " ++ kv "key" "extruder" ++ " " ++ kv "value" "1"
       ++ "/>" ++ nl
       ++ "    <metadata " ++ kv "key" "thumbnail_file" ++ " " ++ kv "value" ""
       ++ "/>" ++ nl
       ++ partsXml ++ nl
       ++ "  </object>" ++ nl
       ++ "  <plate>" ++ nl
       ++ "    <metadata " ++ kv "key" "plater_id" ++ " " ++ kv "value" "1"
       ++ "/>" ++ nl
       ++ "    <metadata " ++ kv "key" "plater_name" ++ " "
       ++ kv "value" "plate-1" ++ "/>" ++ nl
       ++ "    <model_instance>" ++ nl
       ++ "      <metadata " ++ kv "key" "object_id" ++ " " ++ kv "value" "97"
       ++ "/>" ++ nl
       ++ "      <metadata " ++ kv "key" "instance_id" ++ " " ++ kv "value" "0"
       ++ "/>" ++ nl
       ++ "    </model_instance>" ++ nl
       ++ "  </plate>" ++ nl
       ++ "  <assemble>" ++ nl
       ++ "    <assemble_item " ++ kv "object_id" "97" ++ " "
       ++ kv "instance_id" "0" ++ " " ++ kv "offset" "0 0 0" ++ "/>" ++ nl
       ++ "  </assemble>" ++ nl
       ++ "</config>")%string.

(** [while (colors.length < 2) colors.push('#FFFFFF')]: at most two
    rounds. *)
Fixpoint padColors (rounds : nat) (colors : list string) : list string :=
  match rounds with
  | O => colors
  | S rounds' =>
      if (length colors <? 2)%nat then padColors rounds' (colors ++ ["#FFFFFF"])%list
      else colors
  end.

(** The [filament_colour] array of the project settings. *)
Definition filamentColours (materials : list MaterialInfo) : list string :=
  padColors 2 (map (fun m => rgbToHexColor (mi_color m)) materials).

Definition projectSettings (materials : list MaterialInfo) : json :=
  let colors := filamentColours materials in
  let strings (l : list string) := JArray (map JString l) in
  JObject
    [("printable_area", strings ["0x0"; "180x0"; "180x180"; "0x180"]%string);
     ("printable_height", JString "180");
     ("bed_exclude_area", JArray []);
     ("filament_colour", strings colors);
     ("filament_settings_id",
      strings (repeat "Bambu PLA Basic @BBL A1M"%string (length colors)));
     ("filament_diameter", strings (repeat "1.75"%string (length colors)));
     ("filament_is_support", strings (repeat "0"%string (length colors)));
     ("printer_model", JString "Bambu Lab A1 mini");
     ("layer_height", JString "0.2");
     ("wall_loops", JString "2");
     ("sparse_infill_density", JString "15%");
     ("printer_settings_id", JString "Bambu Lab A1 mini 0.4 nozzle");
     ("printer_variant", JString "0.4");
     ("nozzle_diameter", strings ["0.4"%string]);
     ("enable_support", JString "0");
     ("support_type", JString "normal(auto)");
     ("print_settings_id", JString "0.20mm Standard")].

(** [createProjectSettingsConfig]: the text is [JSON.stringify] of
    [projectSettings]. *)
Definition createProjectSettingsConfig (materials : list MaterialInfo)
  : content :=
  JsonDoc (projectSettings materials).

Definition xmlDeclaration : string :=
  ("<?xml " ++ kv "version" "1.0" ++ " " ++ kv "encoding" "UTF-8" ++ "?>")%string.

Definition contentTypesXML : content :=
  Raw (xmlDeclaration ++ nl
       ++ "<Types "
       ++ kv "xmlns" "http://schemas.openxmlformats.org/package/2006/content-types"
       ++ ">" ++ nl
       ++ "  <Default " ++ kv "Extension" "rels" ++ " "
       ++ kv "ContentType" "application/vnd.openxmlformats-package.relationships+xml"
       ++ " />" ++ nl
       ++ "  <Default " ++ kv "Extension" "model" ++ " "
       ++ kv "ContentType" "application/vnd.ms-package.3dmanufacturing-3dmodel+xml"
       ++ " />" ++ nl
       ++ "  <Default " ++ kv "Extension" "png" ++ " "
       ++ kv "ContentType" "image/png" ++ " />" ++ nl
       ++ "  <Default " ++ kv "Extension" "gcode" ++ " "
       ++ kv "ContentType" "text/x.gcode" ++ "/>" ++ nl
       ++ "</Types>")%string.

Definition relationshipsXML : content :=
  Raw (xmlDeclaration ++ nl
       ++ "<Relationships "
       ++ kv "xmlns" "http://schemas.openxmlformats.org/package/2006/relationships"
       ++ ">" ++ nl
       ++ "  <Relationship " ++ kv "Id" "rel-1" ++ " "
       ++ kv "Target" "/3D/3dmodel.model" ++ " "
       ++ kv "Type" "http://schemas.microsoft.com/3dmanufacturing/2013/01/3dmodel"
       ++ "/>" ++ nl
       ++ "</Relationships>")%string.

Definition objectRelationshipsXML : content :=
  Raw (xmlDeclaration ++ nl
       ++ "<Relationships "
       ++ kv "xmlns" "http://schemas.openxmlformats.org/package/2006/relationships"
       ++ ">" ++ nl
       ++ "  <Relationship " ++ kv "Target" "/3D/Objects/object-97.model" ++ " "
       ++ kv "Id" "rel-97" ++ " "
       ++ kv "Type" "http://schemas.microsoft.com/3dmanufacturing/2013/01/3dmodel"
       ++ "/>" ++ nl
       ++ "</Relationships>")%string.

(** The files of a [JSZip] archive, in the order they were added (the
    folder entries JSZip keeps for their paths are left out). *)
Definition Zip : Type := list (string * content).

(** [zip.file(path, data)]: replaces the entry of that path or adds one. *)
Fixpoint file (path : string) (data : content) (zip : Zip) : Zip :=
  match zip with
  | [] => [(path, data)]
  | (p, d) :: rest =>
      if String.eqb p path then (p, data) :: rest
      else (p, d) :: file path data rest
  end.

(** [zip.file(path)]: the entry of that path. *)
Definition entry (path : string) (zip : Zip) : option content :=
  option_map snd (find (fun e => String.eqb (fst e) path) zip).

(** [exportTo3MF(object)]: the refreshed scene and the files of the
    archive that [generateAsync] compresses.  [parentWorld] is
    [object.parent.matrixWorld]. *)
Definition exportTo3MF (env : Env) (parentWorld : option Matrix4)
    (object : Object3D) : outcome (Object3D * Zip) :=
  '(object1, (components, materials)) <-
    Exporter.collectComponents (height object) parentWorld object ([], []) ;;
  let mainModelXml := createMainModelXML env components in
  let objectModelXml := createObjectModelXML env 3 components in
  let modelSettingsXml := createModelSettingsXML components in
  let projectSettingsConfig := createProjectSettingsConfig materials in
  let zip := file "[Content_Types].xml" contentTypesXML [] in
  let zip := file "_rels/.rels" relationshipsXML zip in
  let zip := file "3D/3dmodel.model" mainModelXml zip in
  let zip := file "3D/_rels/3dmodel.model.rels" objectRelationshipsXML zip in
  let zip := file "3D/Objects/object-97.model" objectModelXml zip in
  let zip := file "Metadata/model_settings.config" modelSettingsXml zip in
  let zip := file "Metadata/project_settings.config" projectSettingsConfig zip in
  Ok (object1, zip).

End Package.

(* ================================================================= *)
(** ** The legacy exporter: the vertex writer *)

Module Legacy.

Local Open Scope string_scope.

(** Lines 90-100: one vertex of a mesh, moved to world space, multiplied
    by [scale] and written with six decimals. *)
Definition vertexLine (numberToString : float -> string) (scale : float)
    (worldMatrix : Matrix4) (p : Vector3) : string :=
  let vertex := applyMatrix4 p worldMatrix in
  let x := (x vertex * scale)%float in
  let y := (y vertex * scale)%float in
  let z := (z vertex * scale)%float in
  "          <vertex " ++ kv "x" (toFixed numberToString 6 x) ++ " "
  ++ kv "y" (toFixed numberToString 6 y) ++ " "
  ++ kv "z" (toFixed numberToString 6 z) ++ "/>".

(** Lines 87-102: the [vertices] element of one mesh, as the lines pushed
    to [xmlBuilder].  Reading [count] of an absent attribute throws. *)
Definition vertexLines (numberToString : float -> string) (scale : float)
    (worldMatrix : Matrix4) (positions : option (list Vector3))
  : outcome (list string) :=
  match positions with
  | None => Throw TypeError
  | Some ps =>
      Ok (["        <vertices>"]
          ++ map (vertexLine numberToString scale worldMatrix) ps
          ++ ["        </vertices>"])%list
  end.

End Legacy.

(* ================================================================= *)
(** ** The specification's view of the scene, and the properties *)

(** The recursion both traversals share: refresh the matrices, visit the
    node, recurse into the children in order. *)
Fixpoint traverse {S} (visit : Object3D -> S -> outcome S) (fuel : nat)
    (parentWorld : option Matrix4) (object : Object3D) (st : S)
  : outcome (Object3D * S) :=
  match fuel with
  | O => OutOfFuel
  | S fuel' =>
      let object1 := updateMatrixWorld parentWorld true object in
      st1 <- visit object1 st ;;
      '(children1, st2) <-
        forEach (traverse visit fuel' (Some (matrixWorld object1)))
                (children object1) st1 ;;
      Ok (set_children object1 children1, st2)
  end.

(* ----------------------------------------------------------------- *)
(** *** The scene as the specification describes it *)

(** The local matrix [updateMatrix] leaves in [object.matrix]. *)
Definition localMatrix (o : Object3D) : Matrix4 :=
  if matrixAutoUpdate o then local o else matrix o.

(** World transform = parent world transform x local transform. *)
Definition worldOf (parentWorld : option Matrix4) (o : Object3D) : Matrix4 :=
  match parentWorld with
  | None => localMatrix o
  | Some p => multiplyMatrices p (localMatrix o)
  end.

(** A leaf record: what a mesh node contributes, with its world
    transform composed top-down. *)
Record LeafRecord := mkLeafRecord {
  lr_name : string;
  lr_geometry : BufferGeometry;
  lr_material : option Material;
  lr_world : Matrix4 }.

(** The leaf records of a scene in depth-first pre-order, children in
    their stored order.  No cached [matrixWorld] is read. *)
Fixpoint leafRecords (parentWorld : option Matrix4) (o : Object3D)
  : list LeafRecord :=
  let w := worldOf parentWorld o in
  match kind o with
  | Mesh geometry material =>
      [ {| lr_name := name o; lr_geometry := geometry;
           lr_material := material; lr_world := w |} ]
  | Group => []
  end ++ flat_map (leafRecords (Some w)) (children o).

(** The leaf record of one node whose [matrixWorld] is current. *)
Definition leafOfNode (o : Object3D) : list LeafRecord :=
  match kind o with
  | Mesh geometry material =>
      [ {| lr_name := name o; lr_geometry := geometry;
           lr_material := material; lr_world := matrixWorld o |} ]
  | Group => []
  end.

Definition collectLeaf (leaf : LeafRecord) (st : Exporter.State)
  : outcome Exporter.State :=
  Exporter.collectMesh (lr_name leaf) (lr_world leaf) (lr_geometry leaf)
                       (lr_material leaf) st.

Definition processLeaf (leaf : LeafRecord) (st : Merged.State)
  : outcome Merged.State :=
  Merged.processMesh (lr_name leaf) (lr_world leaf) (lr_geometry leaf)
                     (lr_material leaf) st.

(* ----------------------------------------------------------------- *)
(** *** What the material table must satisfy *)

(** Entry [i] has id [i] and extruder [i + 1]. *)
Definition table_numbered (materials : list MaterialInfo) : Prop :=
  forall i m, nth_error materials i = Some m ->
    mi_id m = Z.of_nat i /\ mi_extruder m = (Z.of_nat i + 1)%Z.

(** No two entries have the same channels. *)
Definition table_distinct (materials : list MaterialInfo) : Prop :=
  forall i j mi mj, i <> j ->
    nth_error materials i = Some mi -> nth_error materials j = Some mj ->
    sameColor (mi_color mi) (mi_color mj) = false.

(** The component of a leaf refers to the table entry of the leaf's
    colour (the entry that introduced the colour, or one with the same
    channels), and to none when the leaf has no material. *)
Definition assigned (materials : list MaterialInfo) (leaf : LeafRecord)
    (c : ComponentInfo) : Prop :=
  match lr_material leaf with
  | None => ci_material c = None
  | Some m =>
      exists mi, ci_material c = Some mi
        /\ nth_error materials (Z.to_nat (mi_id mi)) = Some mi
        /\ (mi_color mi = materialColor m
            \/ sameColor (mi_color mi) (materialColor m) = true)
  end.

(** Leaves whose colours have the same channels share one table entry. *)
Definition same_color_same_material (leaves : list LeafRecord)
    (components : list ComponentInfo) : Prop :=
  forall i j li lj ci cj ma mb,
    nth_error leaves i = Some li -> nth_error components i = Some ci ->
    nth_error leaves j = Some lj -> nth_error components j = Some cj ->
    lr_material li = Some ma -> lr_material lj = Some mb ->
    sameColor (materialColor ma) (materialColor mb) = true ->
    exists mi, ci_material ci = Some mi /\ ci_material cj = Some mi.

(** One registration, as the specification words it: a linear scan that
    returns the first entry with the colour's channels and leaves the table
    as it is, or else appends the colour as a new last entry with id =
    table length and extruder = table length + 1. *)
Definition register_step (meshName : string) (color : Color)
    (materials : list MaterialInfo) : Prop :=
  let '(mi, materials') :=
    Exporter.registerMaterial meshName color materials in
  (materials' = materials
   /\ exists k,
        nth_error materials k = Some mi
        /\ sameColor (mi_color mi) color = true
        /\ forall j e, j < k -> nth_error materials j = Some e ->
                       sameColor (mi_color e) color = false)
  \/ (materials' = materials ++ [mi]
      /\ (forall e, In e materials -> sameColor (mi_color e) color = false)
      /\ mi_id mi = len materials
      /\ mi_extruder mi = (len materials + 1)%Z
      /\ mi_color mi = color).

(** The invariant of a run: the table is numbered and free of duplicates,
    and the components so far are those of the leaves so far. *)
Definition registry_inv (leaves : list LeafRecord) (st : Exporter.State) : Prop :=
  table_numbered (snd st) /\ table_distinct (snd st)
  /\ Forall2 (assigned (snd st)) leaves (fst st).

(* ----------------------------------------------------------------- *)
(** *** Properties of the flattening *)

(** The scene without what [updateMatrix] and [updateMatrixWorld] cache:
    [matrixWorld] and [matrixWorldNeedsUpdate] everywhere, and [matrix]
    where [matrixAutoUpdate] has it recomputed from [local]. *)
Fixpoint dropCaches (o : Object3D) : Object3D :=
  {| name := name o; kind := kind o; local := local o;
     matrixAutoUpdate := matrixAutoUpdate o;
     matrix := if matrixAutoUpdate o then identity else matrix o;
     matrixWorld := identity;
     matrixWorldNeedsUpdate := false;
     children := map dropCaches (children o) |}.

(** The component of a leaf: the vertices of its position attribute taken
    through the leaf's world transform, its triangles, its name. *)
Definition sampled (leaf : LeafRecord) (c : ComponentInfo) : Prop :=
  exists ps,
    position (lr_geometry leaf) = Some ps
    /\ ci_vertices c = map (fun v => applyMatrix4 v (lr_world leaf)) ps
    /\ ci_triangles c = match index (lr_geometry leaf) with
                        | Some indexAttr => Exporter.indexedTriangles indexAttr
                        | None => Exporter.sequentialTriangles (length ps)
                        end
    /\ (truthy (lr_name leaf) = true -> ci_name c = lr_name leaf).

(** The length of the stream the triangle loop runs over. *)
Definition streamLength (geometry : BufferGeometry) : nat :=
  match index geometry with
  | Some indexAttr => length indexAttr
  | None => match position geometry with
            | Some ps => length ps
            | None => 0
            end
  end.

(** The number of vertices a leaf contributes. *)
Definition vertexCount (leaf : LeafRecord) : nat :=
  match position (lr_geometry leaf) with
  | Some ps => length ps
  | None => 0
  end.

(** Every entry of the index stream of the leaf is an index into the
    vertices of the leaf. *)
Definition indicesInRange (leaf : LeafRecord) : Prop :=
  match index (lr_geometry leaf) with
  | Some indexAttr =>
      Forall (fun n => (0 <= n < Z.of_nat (vertexCount leaf))%Z) indexAttr
  | None => True
  end.

(** The stream the triangles are read from holds whole triangles. *)
Definition wholeTriangles (leaf : LeafRecord) : Prop :=
  streamLength (lr_geometry leaf) mod 3 = 0.

(** [v] is an index into an array of [total] vertices. *)
Definition validIndex (total : nat) (v : value) : Prop :=
  match v with
  | Num n => (0 <= n < Z.of_nat total)%Z
  | Undefined | NaN => False
  end.

Definition validTriangle (total : nat) (t : Merged.Triangle) : Prop :=
  validIndex total (Merged.v1 t) /\ validIndex total (Merged.v2 t)
  /\ validIndex total (Merged.v3 t).

(* ----------------------------------------------------------------- *)
(** *** Reading a written coordinate back *)

(** The text before the first point and the text after it. *)
Fixpoint splitAtDot (s : string) : option (string * string) :=
  match s with
  | EmptyString => None
  | String c rest =>
      if Ascii.eqb c "." then Some (EmptyString, rest)
      else match splitAtDot rest with
           | Some (a, b) => Some (String c a, b)
           | None => None
           end
  end.

(** A fixed-point decimal, read as its digits taken as one integer and the
    number of digits after the point: [-12.50] is [(-1250, 2)]. *)
Definition readFixed (s : string) : option (Z * nat) :=
  let '(negative, body) :=
    match s with
    | String c rest => if Ascii.eqb c "-" then (true, rest) else (false, s)
    | EmptyString => (false, s)
    end in
  match splitAtDot body with
  | Some (a, b) =>
      match DecimalString.NilEmpty.uint_of_string (a ++ b) with
      | Some d =>
          let n := Z.of_N (N.of_uint d) in
          Some (if negative then (- n)%Z else n, String.length b)
      | None => None
      end
  | None => None
  end.

(** [n / 10^f]. *)
Definition decimal (n : Z) (f : nat) : Q :=
  Qmake n (Z.to_pos (10 ^ Z.of_nat f)).

(** Half a unit of the [f]-th decimal. *)
Definition halfUnit (f : nat) : Q :=
  Qmake 1 (Z.to_pos (2 * 10 ^ Z.of_nat f)).

(** The number a finite double stands for. *)
Definition valueOf (x : float) : option Q :=
  match Prim2SF x with
  | S754_zero _ => Some (inject_Z 0)
  | S754_finite s m e =>
      let v := if s then Z.neg m else Z.pos m in
      Some (if (0 <=? e)%Z then inject_Z (v * 2 ^ e)
            else Qmake v (Z.to_pos (2 ^ (- e))))
  | S754_nan | S754_infinity _ => None
  end.

(** [|x| < 10^21], the range in which [toFixed] writes fixed-point
    digits. *)
Definition below1e21 (x : float) : bool :=
  match Prim2SF x with
  | S754_finite _ m e => negb (atLeast1e21 m e)
  | _ => true
  end.

(** The [vertex] elements of a document, in document order. *)
Fixpoint vertexElements (doc : xml) : list xml :=
  match doc with
  | Element tag attrs body =>
      if String.eqb tag "vertex" then [doc]
      else flat_map vertexElements body
  | Text _ => []
  end.

Definition vertexElement (numberToString : float -> string) (v : Vector3) : xml :=
  Element "vertex"
    [("x", AStr (toFixed numberToString 7 (x v)));
     ("y", AStr (toFixed numberToString 7 (y v)));
     ("z", AStr (toFixed numberToString 7 (z v)))]%string [].

(** The triangles of a leaf as the exporters read them off its streams,
    before any re-basing. *)
Definition leafTriangles (leaf : LeafRecord) : list Merged.Triangle :=
  Merged.meshTriangles 0 (index (lr_geometry leaf)) (vertexCount leaf) None.

(** Every index of every triangle of the leaf is an index into the
    vertices of the leaf. *)
Definition leafValid (leaf : LeafRecord) : Prop :=
  Forall (validTriangle (vertexCount leaf)) (leafTriangles leaf).

(** The world-space vertices of a leaf. *)
Definition worldVertices (leaf : LeafRecord) : list Vector3 :=
  match position (lr_geometry leaf) with
  | Some ps => map (fun v => applyMatrix4 v (lr_world leaf)) ps
  | None => []
  end.

(** An entry of the table of [3mf-exporter.ts] as the merged exporter
    keeps it: without the extruder. *)
Definition withoutExtruder (m : MaterialInfo) : Merged.MaterialInfo :=
  {| Merged.id := mi_id m; Merged.color := mi_color m;
     Merged.mname := mi_name m |}.

(** The [pid] the merged triangles of a leaf must carry: the id of the
    material of the leaf's component, once for each triangle. *)
Definition leafPids (leaf : LeafRecord) (c : ComponentInfo) : list (option Z) :=
  repeat (option_map mi_id (ci_material c)) (length (leafTriangles leaf)).

(** Both exporters, leaf by leaf. *)
Definition pairLeaf (leaf : LeafRecord) (st : Exporter.State * Merged.State)
  : outcome (Exporter.State * Merged.State) :=
  se <- collectLeaf leaf (fst st) ;;
  sm <- processLeaf leaf (snd st) ;;
  Ok (se, sm).

(** The merged exporter keeps the same table and tags every triangle with
    the id its leaf got. *)
Definition merged_agrees (leaves : list LeafRecord)
    (st : Exporter.State * Merged.State) : Prop :=
  let '((components, materials), (vertices, triangles, mergedMaterials)) := st in
  mergedMaterials = map withoutExtruder materials
  /\ length components = length leaves
  /\ map Merged.pid triangles
     = flat_map (fun p => leafPids (fst p) (snd p)) (combine leaves components).


(** The number of elements of one tag in a document. *)
Fixpoint countTag (t : string) (doc : xml) : nat :=
  match doc with
  | Element tag _ body =>
      (if String.eqb tag t then 1 else 0)
      + fold_right (fun d n => countTag t d + n) 0 body
  | Text _ => 0
  end.

(** The number of places of a text at which [p] starts. *)
Fixpoint occurrences (p s : string) : nat :=
  (if prefix p s then 1 else 0)
  + match s with
    | EmptyString => 0
    | String _ s' => occurrences p s'
    end.

(** The elements of one tag that a text opens: the tag after an opening
    bracket, followed by a space, a closing bracket or a slash. *)
Definition tagsOpened (t text : string) : nat :=
  occurrences ("<" ++ t ++ " ") text + occurrences ("<" ++ t ++ ">") text
  + occurrences ("<" ++ t ++ "/") text.

(** The geometry an entry of the archive declares: its [vertex],
    [triangle] and [component] elements, counted in the element tree of a
    document handed to the builder and in the text of a templated one.
    The project settings, a flat JSON object, declare none. *)
Definition declaredGeometry (c : content) : nat :=
  match c with
  | XmlDoc root =>
      countTag "vertex" root + countTag "triangle" root
      + countTag "component" root
  | Raw text =>
      tagsOpened "vertex" text + tagsOpened "triangle" text
      + tagsOpened "component" text
  | JsonDoc _ => 0
  end.

(** [j[key]] of a JSON object. *)
Definition jsonField (key : string) (j : json) : option json :=
  match j with
  | JObject fields =>
      option_map snd (find (fun kv => String.eqb (fst kv) key) fields)
  | JString _ | JArray _ => None
  end.

(** The entries every package must hold. *)
Definition requiredEntries : list string :=
  ["[Content_Types].xml"; "_rels/.rels"; "3D/3dmodel.model";
   "3D/_rels/3dmodel.model.rels"; "Metadata/model_settings.config";
   "Metadata/project_settings.config"]%string.

(** The [vertex] elements of an entry of the archive. *)
Definition docVertices (c : content) : list xml :=
  match c with
  | XmlDoc root => vertexElements root
  | Raw _ | JsonDoc _ => []
  end.

(** The leaf with another material slot. *)
Definition withMaterial (leaf : LeafRecord) (m : option Material) : LeafRecord :=
  {| lr_name := lr_name leaf; lr_geometry := lr_geometry leaf;
     lr_material := m; lr_world := lr_world leaf |}.

(* ----------------------------------------------------------------- *)
(** *** Sample scenes *)

Module Sample.

Local Open Scope float_scope.

Definition translation (tx ty tz : float) : Matrix4 :=
  mkMatrix4 1 0 0 0  0 1 0 0  0 0 1 0  tx ty tz 1.

Definition orange : Color := mkColor 1 (165 / 255) 0.

(** The colour [new Color().setStyle('#FFA500')] holds, the way
    [useSvgLoader.ts] (line 39) makes the colour of a shape: red is 1,
    blue is 0, and green is [SRGBToLinear(165/255)], which is
    [Math.pow(0.6654586004941176, 2.4)], in double arithmetic
    0.37626212298046485 (lemma [styleOrange_is_setStyle]). *)
Definition styleOrange : Color := mkColor 1 0.37626212298046485 0.

(** A stand-in for [Math.pow] that is right at the three arguments which
    the conversion of #808080 and of #FFA500 reaches. *)
Definition pow (x y : float) : float :=
  if x =? 1 then 1
  else if x =? 0.5279249140305882 then 0.21586050010324417
  else 0.37626212298046485.

Definition square : BufferGeometry :=
  {| position := Some [mkVector3 0 0 0; mkVector3 1 0 0;
                       mkVector3 1 1 0; mkVector3 0 1 0];
     index := Some [0; 1; 2; 0; 2; 3]%Z |}.

Definition node (nm : string) (k : Kind) (m : Matrix4) (cs : list Object3D)
  : Object3D :=
  {| name := nm; kind := k; local := m; matrixAutoUpdate := true;
     matrix := identity; matrixWorld := identity;
     matrixWorldNeedsUpdate := false; children := cs |}.

Definition leafA : Object3D :=
  node "A" (Mesh square (Some (WithColor orange))) identity [].

Definition leafB : Object3D :=
  node "B" (Mesh square (Some (WithColor orange))) (translation 10 0 0) [].

Definition scene : Object3D := node "" Group identity [leafA; leafB].

(** The scenario of the specification with the colours as the loader
    makes them: two squares of colour #FFA500, the second moved by
    (10, 0, 0). *)
Definition styledScene : Object3D :=
  node "" Group identity
    [node "A" (Mesh square (Some (WithColor styleOrange))) identity [];
     node "B" (Mesh square (Some (WithColor styleOrange)))
          (translation 10 0 0) []].

(** A mesh whose material slot is empty. *)
Definition bare : Object3D := node "bare" (Mesh square None) identity [].

(** A mesh whose geometry has no position attribute. *)
Definition unpositioned : Object3D :=
  node "broken" (Mesh {| position := None; index := None |}
                      (Some (WithColor orange))) identity [].

(** A mesh of four vertices without index stream. *)
Definition fourVertices : Object3D :=
  node "four" (Mesh {| position := position square; index := None |}
                    (Some (WithColor orange))) identity [].


Definition env : Env :=
  {| now := "Mon Nov 02 2026 12:00:00 GMT+0000";
     random16 := fun k => Z.of_nat (k mod 16);
     numberToString := fun _ => "1e+21"%string |}.

End Sample.
(* ================================================================= *)
(** ** The merged exporter: the model document and the archive *)

Module MergedPackage.

Local Open Scope string_scope.

(** [rgbToHexColor] of the merged exporter (lines 110-112): each channel
    is written by [Number.prototype.toString(16)] as it is, without the
    scaling to 0..255 and the rounding of [3mf-exporter.ts].  [radix16] is
    that method on a double. *)
Definition rgbToHexColor (radix16 : float -> string) (color : Color) : string :=
  "#" ++ padStart0 2 (radix16 (r color)) ++ padStart0 2 (radix16 (g color))
      ++ padStart0 2 (radix16 (b color)).

(** Lines 55-58: one [base] element of the material resource. *)
Definition baseElement (radix16 : float -> string) (m : Merged.MaterialInfo)
  : xml :=
  Element "base"
    [("name", AStr (if truthy (Merged.mname m) then Merged.mname m
                    else "color_" ++ toString (Merged.id m)));
     ("displaycolor", AStr (rgbToHexColor radix16 (Merged.color m)))] [].

(** Lines 73-78: one [triangle] element; [pid] and [p1] are written only
    when the triangle carries a material id. *)
Definition triangleElement (t : Merged.Triangle) : xml :=
  Element "triangle"
    ([("v1", ANum (Merged.v1 t)); ("v2", ANum (Merged.v2 t));
      ("v3", ANum (Merged.v3 t))]
     ++ match Merged.pid t with
        | Some pid => [("pid", AStr "0"); ("p1", ANum (Num pid))]
        | None => []
        end) [].

(** Lines 46-104: the document built from what [processObject] collected.
    A [basematerials] key whose value is [undefined] is not written by the
    builder. *)
Definition modelDocument (env : Env) (radix16 : float -> string)
    (st : Merged.State) : content :=
  let '(vertices, triangles, materials) := st in
  XmlDoc
    (Element "model"
       [("unit", AStr "millimeter");
        ("xmlns", AStr "http://schemas.microsoft.com/3dmanufacturing/core/2015/02")]
       [Element "resources" []
          ((if (0 <? len materials)%Z
            then [Element "basematerials" [("id", AStr "0")]
                    (map (baseElement radix16) materials)]
            else [])
           ++ [Element "object" [("id", AStr "1"); ("type", AStr "model")]
                 [Element "mesh" []
                    [Element "vertices" []
                       (map (fun v =>
                               Element "vertex"
                                 [("x", AStr (toFixed (numberToString env) 7 (x v)));
                                  ("y", AStr (toFixed (numberToString env) 7 (y v)));
                                  ("z", AStr (toFixed (numberToString env) 7 (z v)))]
                                 [])
                            vertices);
                     Element "triangles" [] (map triangleElement triangles)]]]);
        Element "build" []
          [Element "item"
             [("objectid", AStr "1");
              ("transform", AStr "1 0 0 0 1 0 0 0 1 0 0 0")] []]]).

(** [createModelXML(object)]: the refreshed scene and the document. *)
Definition createModelXML (env : Env) (radix16 : float -> string)
    (parentWorld : option Matrix4) (object : Object3D)
  : outcome (Object3D * content) :=
  '(object1, st) <-
    Merged.processObject (height object) parentWorld object ([], [], []) ;;
  Ok (object1, modelDocument env radix16 st).

Definition contentTypesXML : content :=
  Raw (Package.xmlDeclaration ++ nl
       ++ "<Types "
       ++ kv "xmlns" "http://schemas.openxmlformats.org/package/2006/content-types"
       ++ ">" ++ nl
       ++ "  <Default " ++ kv "Extension" "rels" ++ " "
       ++ kv "ContentType" "application/vnd.openxmlformats-package.relationships+xml"
       ++ " />" ++ nl
       ++ "  <Default " ++ kv "Extension" "model" ++ " "
       ++ kv "ContentType" "application/vnd.ms-package.3dmanufacturing-3dmodel+xml"
       ++ " />" ++ nl
       ++ "</Types>").

Definition relationshipsXML : content :=
  Raw (Package.xmlDeclaration ++ nl
       ++ "<Relationships "
       ++ kv "xmlns" "http://schemas.openxmlformats.org/package/2006/relationships"
       ++ ">" ++ nl
       ++ "  <Relationship " ++ kv "Target" "/3D/3dmodel.model" ++ " "
       ++ kv "Id" "rel0" ++ " "
       ++ kv "Type" "http://schemas.microsoft.com/3dmanufacturing/2013/01/3dmodel"
       ++ " />" ++ nl
       ++ "</Relationships>").

(** [exportTo3MF(object)] of the merged exporter (lines 11-22). *)
Definition exportTo3MF (env : Env) (radix16 : float -> string)
    (parentWorld : option Matrix4) (object : Object3D)
  : outcome (Object3D * Package.Zip) :=
  '(object1, modelData) <- createModelXML env radix16 parentWorld object ;;
  let zip := Package.file "[Content_Types].xml" contentTypesXML [] in
  let zip := Package.file "_rels/.rels" relationshipsXML zip in
  let zip := Package.file "3D/3dmodel.model" modelData zip in
  Ok (object1, zip).

End MergedPackage.

(* ================================================================= *)
(** ** The legacy exporter: materials, objects and build items *)

Module LegacyExport.

Local Open Scope string_scope.

(** [mesh.material]: an instance of [MeshPhongMaterial] with its [color],
    or anything else. *)
Inductive Material :=
| MeshPhongMaterial (color : Color)
| OtherMaterial.

(** What [updateWorldMatrix] reads and writes of an object:
    [matrixAutoUpdate], the transform composed from position, quaternion
    and scale, and the caches [matrix], [matrixWorld] and
    [matrixWorldNeedsUpdate]. *)
Record Placement := mkPlacement {
  p_auto : bool;
  p_local : Matrix4;
  p_matrix : Matrix4;
  p_matrixWorld : Matrix4;
  p_matrixWorldNeedsUpdate : bool }.

(** A mesh handed to the exporter.  [uid] stands for the identity of the
    object, the key of [meshMaterialIds]; [ancestors] are the objects from
    the root of the scene down to [mesh.parent].  An ancestor that several
    meshes share is kept with each of them: what [updateWorldMatrix]
    writes to an object depends only on what it does not write, so every
    visit writes the same values. *)
Record Mesh := mkMesh {
  uid : nat;
  geometry : BufferGeometry;
  material : Material;
  ancestors : list Placement;
  placement : Placement }.

(** [exportTo3MF(meshes, scale = 1)] takes one mesh or an array, and the
    scale may be left out. *)
Inductive Meshes :=
| One (mesh : Mesh)
| Many (meshes : list Mesh).

Definition worldUnder (parentWorld : option Matrix4) (p : Placement) : Matrix4 :=
  let m := if p_auto p then p_local p else p_matrix p in
  match parentWorld with
  | None => m
  | Some w => multiplyMatrices w m
  end.

(** What [updateWorldMatrix] does to one object: [updateMatrix()] when
    [matrixAutoUpdate] is set, which recomposes [matrix] and sets
    [matrixWorldNeedsUpdate]; then [matrixWorld] is the parent's
    [matrixWorld] times [matrix], or [matrix] without parent. *)
Definition updatePlacement (parentWorld : option Matrix4) (p : Placement)
  : Placement :=
  {| p_auto := p_auto p;
     p_local := p_local p;
     p_matrix := if p_auto p then p_local p else p_matrix p;
     p_matrixWorld := worldUnder parentWorld p;
     p_matrixWorldNeedsUpdate :=
       if p_auto p then true else p_matrixWorldNeedsUpdate p |}.

(** [parent.updateWorldMatrix(true, false)] along the chain of parents:
    the ancestors are updated from the root down.  The result is the
    chain as it is left and the [matrixWorld] of its last object. *)
Fixpoint updateAncestors (parentWorld : option Matrix4) (ps : list Placement)
  : list Placement * option Matrix4 :=
  match ps with
  | [] => ([], parentWorld)
  | p :: rest =>
      let p1 := updatePlacement parentWorld p in
      let '(rest1, w) := updateAncestors (Some (p_matrixWorld p1)) rest in
      (p1 :: rest1, w)
  end.

(** [mesh.updateWorldMatrix(true, false)]: the mesh as the call leaves
    it, the ancestors updated first, then the mesh. *)
Definition updateWorldMatrix (mesh : Mesh) : Mesh :=
  let '(ancestors1, parentWorld) := updateAncestors None (ancestors mesh) in
  {| uid := uid mesh;
     geometry := geometry mesh;
     material := material mesh;
     ancestors := ancestors1;
     placement := updatePlacement parentWorld (placement mesh) |}.

(** Lines 172-179; [getHexString] is [Color.getHexString]. *)
Definition colorToHex (getHexString : Color -> string) (color : Color) : string :=
  "#" ++ getHexString color.

Definition colorsEqual (getHexString : Color -> string) (color1 color2 : Color)
  : bool :=
  String.eqb (getHexString color1) (getHexString color2).

(** A [Map] as its entries in insertion order; [set] keeps the place of a
    key that is present. *)
Fixpoint mapSet {K V} (eqb : K -> K -> bool) (key : K) (v : V)
    (m : list (K * V)) : list (K * V) :=
  match m with
  | [] => [(key, v)]
  | (k, w) :: rest =>
      if eqb k key then (k, v) :: rest else (k, w) :: mapSet eqb key v rest
  end.

Definition mapGet {K V} (eqb : K -> K -> bool) (key : K) (m : list (K * V))
  : option V :=
  option_map snd (find (fun e => eqb (fst e) key) m).

(** [materialMap] and [meshMaterialIds]. *)
Definition MaterialMaps : Type := list (Z * Color) * list (nat * Z).

(** Lines 28-58, the callback of [meshes.forEach]. *)
Definition registerMesh (getHexString : Color -> string) (maps : MaterialMaps)
    (mesh : Mesh) : MaterialMaps :=
  let '(materialMap, meshMaterialIds) := maps in
  match material mesh with
  | OtherMaterial => maps
  | MeshPhongMaterial color =>
      match find (fun e => colorsEqual getHexString (snd e) color) materialMap with
      | None =>
          let newId := (len materialMap + 1)%Z in
          (mapSet Z.eqb newId color materialMap,
           mapSet Nat.eqb (uid mesh) newId meshMaterialIds)
      | Some (existingMaterialId, _) =>
          (materialMap,
           mapSet Nat.eqb (uid mesh) existingMaterialId meshMaterialIds)
      end
  end.

(** Line 68. *)
Definition baseLine (getHexString : Color -> string) (e : Z * Color) : string :=
  "      <base " ++ kv "name" ("material_" ++ toString (fst e)) ++ " "
  ++ kv "displaycolor" (colorToHex getHexString (snd e)) ++ "/>".

(** [meshMaterialIds.get(mesh) || 0]. *)
Definition materialIdOf (meshMaterialIds : list (nat * Z)) (mesh : Mesh) : Z :=
  match mapGet Nat.eqb (uid mesh) meshMaterialIds with
  | Some id => id
  | None => 0
  end.

(** Lines 83-84. *)
Definition objectLine (objectId materialId : Z) : string :=
  "    <object " ++ kv "id" (toString objectId) ++ " " ++ kv "type" "model"
  ++ " " ++ kv "pid" "1" ++ " " ++ kv "pindex" (toString (materialId - 1))
  ++ ">" ++ nl ++ "      <mesh>".

(** A number in a template string. *)
Definition valueText (v : value) : string :=
  match v with
  | Num n => toString n
  | Undefined => "undefined"
  | NaN => "NaN"
  end.

Definition triangleLine (a c d : value) : string :=
  "          <triangle " ++ kv "v1" (valueText a) ++ " "
  ++ kv "v2" (valueText c) ++ " " ++ kv "v3" (valueText d) ++ "/>".

(** Lines 108-126; [count] is [positions.count]. *)
Definition triangleLines (indices : option (list Z)) (count : nat)
  : list string :=
  match indices with
  | Some indices =>
      map (fun i => triangleLine (get indices i) (get indices (i + 1))
                                 (get indices (i + 2)))
          (steps3 (length indices))
  | None =>
      map (fun i => triangleLine (Num (Z.of_nat i)) (Num (Z.of_nat i + 1))
                                 (Num (Z.of_nat i + 2)))
          (steps3 count)
  end.

(** Lines 74-134, the body of the loop over the meshes: the mesh as
    [updateWorldMatrix] leaves it, what is pushed to [xmlBuilder], and
    [objectId] counted up. *)
Definition pushMesh (numberToString : float -> string) (scale : float)
    (meshMaterialIds : list (nat * Z)) (mesh : Mesh) (st : list string * Z)
  : outcome (Mesh * (list string * Z)) :=
  let '(xmlBuilder, objectId) := st in
  let positions := position (geometry mesh) in
  let materialId := materialIdOf meshMaterialIds mesh in
  let mesh1 := updateWorldMatrix mesh in
  let worldMatrix := p_matrixWorld (placement mesh1) in
  vertices <- Legacy.vertexLines numberToString scale worldMatrix positions ;;
  let count := match positions with Some ps => length ps | None => 0%nat end in
  Ok (mesh1,
      ((xmlBuilder ++ [objectLine objectId materialId] ++ vertices
        ++ ["        <triangles>"]
        ++ triangleLines (index (geometry mesh)) count
        ++ ["        </triangles>"; "      </mesh>"; "    </object>"])%list,
       (objectId + 1)%Z)).

(** Line 142. *)
Definition itemLine (i : Z) : string :=
  "    <item " ++ kv "objectid" (toString i) ++ " "
  ++ kv "transform" "1 0 0 0 1 0 0 0 1 0 0 0" ++ "/>".

(** The values of [i] in [for (let i = 2; i < objectId; i++)]. *)
Definition itemIds (objectId : Z) : list Z :=
  map (fun k => (2 + Z.of_nat k)%Z) (seq 0 (Z.to_nat (objectId - 2))).

(** Lines 22-146: the meshes as the loop leaves them and what
    [xmlBuilder] holds in the end. *)
Definition modelLines (getHexString : Color -> string)
    (numberToString : float -> string) (meshes : list Mesh) (scale : float)
  : outcome (list Mesh * list string) :=
  let '(materialMap, meshMaterialIds) :=
    fold_left (registerMesh getHexString) meshes ([], []) in
  let xmlBuilder :=
    [Package.xmlDeclaration ++ nl
     ++ "<model " ++ kv "unit" "millimeter" ++ " "
     ++ kv "xmlns" "http://schemas.microsoft.com/3dmanufacturing/core/2015/02"
     ++ ">" ++ nl ++ "  <resources>"] in
  let xmlBuilder := (xmlBuilder ++ [("    <basematerials " ++ kv "id" "1" ++ ">")%string])%list in
  let xmlBuilder := (xmlBuilder ++ map (baseLine getHexString) materialMap)%list in
  let xmlBuilder := (xmlBuilder ++ ["    </basematerials>"])%list in
  '(meshes1, (xmlBuilder, objectId)) <-
    forEach (pushMesh numberToString scale meshMaterialIds) meshes
            (xmlBuilder, 2%Z) ;;
  let xmlBuilder := (xmlBuilder ++ ["  </resources>"; "  <build>"])%list in
  let xmlBuilder := (xmlBuilder ++ map itemLine (itemIds objectId))%list in
  Ok (meshes1, (xmlBuilder ++ ["  </build>"; "</model>"])%list).

(** Lines 153-157. *)
Definition contentTypes : content :=
  Raw (Package.xmlDeclaration ++ nl
       ++ "<Types "
       ++ kv "xmlns" "http://schemas.openxmlformats.org/package/2006/content-types"
       ++ ">" ++ nl
       ++ "  <Default " ++ kv "Extension" "rels" ++ " "
       ++ kv "ContentType" "application/vnd.openxmlformats-package.relationships+xml"
       ++ " />" ++ nl
       ++ "  <Default " ++ kv "Extension" "model" ++ " "
       ++ kv "ContentType" "application/vnd.ms-package.3dmanufacturing-3dmodel+xml"
       ++ " />" ++ nl
       ++ "</Types>").

(** Lines 160-163. *)
Definition relationships : content :=
  Raw (Package.xmlDeclaration ++ nl
       ++ "<Relationships "
       ++ kv "xmlns" "http://schemas.openxmlformats.org/package/2006/relationships"
       ++ ">" ++ nl
       ++ "  <Relationship " ++ kv "Target" "/3D/3dmodel.model" ++ " "
       ++ kv "Id" "rel0" ++ " "
       ++ kv "Type" "http://schemas.microsoft.com/3dmanufacturing/2013/01/3dmodel"
       ++ " />" ++ nl
       ++ "</Relationships>").

(** [exportTo3MF(meshes, scale = 1)]: the meshes as the call leaves them
    and the files of the archive. *)
Definition exportTo3MF (getHexString : Color -> string)
    (numberToString : float -> string) (meshes : Meshes) (scale : option float)
  : outcome (list Mesh * Package.Zip) :=
  let meshes := match meshes with One mesh => [mesh] | Many meshes => meshes end in
  let scale := match scale with Some s => s | None => 1%float end in
  '(meshes1, xmlBuilder) <- modelLines getHexString numberToString meshes scale ;;
  let zip := Package.file "3D/3dmodel.model" (Raw (String.concat nl xmlBuilder)) [] in
  let zip := Package.file "[Content_Types].xml" contentTypes zip in
  let zip := Package.file "_rels/.rels" relationships zip in
  Ok (meshes1, zip).

End LegacyExport.

(* ================================================================= *)
(** ** Reading what was written *)

(** The elements of one tag in a document, in document order. *)
Fixpoint elementsNamed (t : string) (doc : xml) : list xml :=
  match doc with
  | Element tag _ body =>
      (if String.eqb tag t then [doc] else [])
      ++ flat_map (elementsNamed t) body
  | Text _ => []
  end.

(** The value of an attribute of an element. *)
Definition attribute (key : string) (e : xml) : option attr :=
  match e with
  | Element _ attrs _ =>
      option_map snd (find (fun a => String.eqb (fst a) key) attrs)
  | Text _ => None
  end.

(** The elements of one tag in an entry of the archive. *)
Definition docElements (t : string) (c : content) : list xml :=
  match c with
  | XmlDoc root => elementsNamed t root
  | Raw _ | JsonDoc _ => []
  end.

(** A lower-case hexadecimal digit. *)
Definition isHexDigit (c : ascii) : bool :=
  let n := nat_of_ascii c in
  ((48 <=? n) && (n <=? 57) || (97 <=? n) && (n <=? 102))%nat.

(** One of 8, 9, a, b: the first digit of the variant field of a UUID. *)
Definition isVariantDigit (c : ascii) : bool :=
  (Ascii.eqb c "8" || Ascii.eqb c "9" || Ascii.eqb c "a" || Ascii.eqb c "b")%char.

(** [s] has the shape of [template]: a hexadecimal digit where the
    template has x, a variant digit where it has y, the character of the
    template elsewhere, and the same length. *)
Fixpoint hasShape (template s : string) : bool :=
  match template, s with
  | EmptyString, EmptyString => true
  | String p template', String c s' =>
      (if Ascii.eqb p "x" then isHexDigit c
       else if Ascii.eqb p "y" then isVariantDigit c
       else Ascii.eqb p c)
      && hasShape template' s'
  | _, _ => false
  end.

(** The value of a hexadecimal digit. *)
Definition hexValue (c : ascii) : option Z :=
  let n := nat_of_ascii c in
  if ((48 <=? n) && (n <=? 57))%nat then Some (Z.of_nat (n - 48))
  else if ((97 <=? n) && (n <=? 102))%nat then Some (Z.of_nat (n - 87))
  else if ((65 <=? n) && (n <=? 70))%nat then Some (Z.of_nat (n - 55))
  else None.

(** A colour written as # and six hexadecimal digits, read as its three
    channels 0..255. *)
Definition parseHexColor (s : string) : option (Z * Z * Z) :=
  match s with
  | String h (String r1 (String r2 (String g1 (String g2
      (String b1 (String b2 EmptyString)))))) =>
      if Ascii.eqb h "#" then
        match hexValue r1, hexValue r2, hexValue g1, hexValue g2,
              hexValue b1, hexValue b2 with
        | Some a, Some c, Some d, Some e, Some f, Some i =>
            Some (16 * a + c, 16 * d + e, 16 * f + i)%Z
        | _, _, _, _, _, _ => None
        end
      else None
  | _ => None
  end.

(* ----------------------------------------------------------------- *)
(** *** The parts of the model settings *)

(** Line 273 of [3mf-exporter.ts]: the extruder written for a part. *)
Definition partExtruder (comp : ComponentInfo) : Z :=
  match ci_material comp with
  | Some material => mi_extruder material
  | None => 1%Z
  end.

(** Lines 274-278: the text of one part. *)
Definition partXml (comp : ComponentInfo) : string :=
  ("    <part " ++ kv "id" (toString (ci_id comp)) ++ " "
   ++ kv "subtype" "normal_part" ++ ">" ++ nl
   ++ "      <metadata " ++ kv "key" "name" ++ " "
   ++ kv "value" (ci_name comp) ++ "/>" ++ nl
   ++ "      <metadata " ++ kv "key" "extruder" ++ " "
   ++ kv "value" (toString (partExtruder comp)) ++ "/>" ++ nl
   ++ "      <mesh_stat " ++ kv "edges_fixed" "0" ++ " "
   ++ kv "degenerate_facets" "0" ++ " "
   ++ kv "facets_removed" "0" ++ " "
   ++ kv "facets_reversed" "0" ++ " "
   ++ kv "backwards_edges" "0" ++ "/>" ++ nl
   ++ "    </part>")%string.

(** The length of a JSON array. *)
Definition arrayLength (j : json) : option nat :=
  match j with
  | JArray items => Some (length items)
  | JString _ | JObject _ => None
  end.

(** The part of a leaf is printed in the leaf's own colour: the extruder
    written for the part is a 1-based position in the list of filament
    colours, and the colour listed there is the leaf's colour as
    [rgbToHexColor] writes it.  The part of a leaf without material is
    given extruder 1. *)
Definition ownColour (materials : list MaterialInfo) (leaf : LeafRecord)
    (comp : ComponentInfo) : Prop :=
  match lr_material leaf with
  | Some m =>
      (1 <= partExtruder comp)%Z
      /\ nth_error (Package.filamentColours materials)
                   (Z.to_nat (partExtruder comp - 1))
         = Some (rgbToHexColor (materialColor m))
  | None => partExtruder comp = 1%Z
  end.

(* ----------------------------------------------------------------- *)
(** *** The merged document against the components *)

(** The leaf has a material. *)
Definition hasMaterial (leaf : LeafRecord) : bool :=
  match lr_material leaf with
  | Some _ => true
  | None => false
  end.

(** A triangle of a component, moved to the merged vertex array: its
    indices shifted by [offset], tagged with [pid]. *)
Definition rebase (offset : Z) (pid : option Z) (t : Triangle)
  : Merged.Triangle :=
  {| Merged.v1 := add offset (v1 t);
     Merged.v2 := add offset (v2 t);
     Merged.v3 := add offset (v3 t);
     Merged.pid := pid |}.

(** The components laid end to end: the triangles of each shifted by the
    number of vertices of the components before it and tagged with the id
    of its material. *)
Fixpoint mergeComponents (offset : Z) (components : list ComponentInfo)
  : list Merged.Triangle :=
  match components with
  | [] => []
  | c :: cs =>
      map (rebase offset (option_map mi_id (ci_material c))) (ci_triangles c)
      ++ mergeComponents (offset + len (ci_vertices c)) cs
  end.

(** A reference from a triangle to a base material: no [p1] and no [pid],
    or [pid] 0 and [p1] a position in the [bases]. *)
Definition materialReference (bases : nat) (triangle : xml) : Prop :=
  match attribute "p1" triangle with
  | Some (ANum (Num k)) =>
      attribute "pid" triangle = Some (AStr "0")
      /\ (0 <= k < Z.of_nat bases)%Z
  | Some _ => False
  | None => attribute "pid" triangle = None
  end.

(* ----------------------------------------------------------------- *)
(** *** The legacy exporter: what its tables and lines must satisfy *)

(** [s.startsWith(p)]. *)
Fixpoint startsWith (p s : string) : bool :=
  match p, s with
  | EmptyString, _ => true
  | String a p', String c s' => Ascii.eqb a c && startsWith p' s'
  | String _ _, EmptyString => false
  end.

(** A [uid] names one mesh: two entries of the array with the same [uid]
    are the same object. *)
Definition uidsIdentify (meshes : list LegacyExport.Mesh) : Prop :=
  forall m1 m2, In m1 meshes -> In m2 meshes ->
    LegacyExport.uid m1 = LegacyExport.uid m2 -> m1 = m2.

(** The material id of a mesh names the entry of its colour: for a mesh
    with a [MeshPhongMaterial] the id is at least 1 and the entry at place
    id - 1 of [materialMap] has this id as its key and a colour with the
    hex string of the colour of the mesh; for any other mesh the id is
    0. *)
Definition registered (getHexString : Color -> string)
    (materialMap : list (Z * Color)) (meshMaterialIds : list (nat * Z))
    (mesh : LegacyExport.Mesh) : Prop :=
  let id := LegacyExport.materialIdOf meshMaterialIds mesh in
  match LegacyExport.material mesh with
  | LegacyExport.MeshPhongMaterial c =>
      (1 <= id)%Z
      /\ exists color,
           nth_error materialMap (Z.to_nat (id - 1)) = Some (id, color)
           /\ getHexString color = getHexString c
  | LegacyExport.OtherMaterial => id = 0%Z
  end.

(** The [object] lines of the meshes, numbered from [objectId]. *)
Fixpoint objectLinesFrom (meshMaterialIds : list (nat * Z)) (objectId : Z)
    (meshes : list LegacyExport.Mesh) : list string :=
  match meshes with
  | [] => []
  | mesh :: rest =>
      LegacyExport.objectLine objectId
        (LegacyExport.materialIdOf meshMaterialIds mesh)
      :: objectLinesFrom meshMaterialIds (objectId + 1) rest
  end.

(** The [object] line of a mesh refers to the [base] line of its colour:
    it gives a material id whose [base] line, at place id - 1 of the
    [bases], shows the colour of the mesh; for a mesh without
    [MeshPhongMaterial] the id is 0, and the [pindex] written is -1. *)
Definition refersToOwnBase (getHexString : Color -> string)
    (bases : list string) (mesh : LegacyExport.Mesh) (line : string) : Prop :=
  exists objectId materialId,
    line = LegacyExport.objectLine objectId materialId
    /\ match LegacyExport.material mesh with
       | LegacyExport.MeshPhongMaterial c =>
           (1 <= materialId)%Z
           /\ exists color,
                nth_error bases (Z.to_nat (materialId - 1))
                = Some (LegacyExport.baseLine getHexString (materialId, color))
                /\ LegacyExport.colorToHex getHexString color
                   = LegacyExport.colorToHex getHexString c
       | LegacyExport.OtherMaterial => materialId = 0%Z
       end.

(** Keys 1, 2, ... in insertion order. *)
Definition keysCount (materialMap : list (Z * Color)) : Prop :=
  map fst materialMap
  = map (fun k => (1 + Z.of_nat k)%Z) (seq 0 (length materialMap)).

(** The invariant of the pass over the materials: the keys count from 1,
    no two entries have the same hex string, every mesh so far is
    registered, every key of [meshMaterialIds] is a mesh with a
    [MeshPhongMaterial], and every entry holds the colour of such a
    mesh. *)
Definition legacy_inv (gh : Color -> string) (pre : list LegacyExport.Mesh)
    (maps : LegacyExport.MaterialMaps) : Prop :=
  keysCount (fst maps)
  /\ NoDup (map (fun e => gh (snd e)) (fst maps))
  /\ Forall (registered gh (fst maps) (snd maps)) pre
  /\ (forall u id, LegacyExport.mapGet Nat.eqb u (snd maps) = Some id ->
        exists m c, In m pre /\ LegacyExport.uid m = u
                    /\ LegacyExport.material m = LegacyExport.MeshPhongMaterial c)
  /\ Forall (fun e => exists m,
                        In m pre
                        /\ LegacyExport.material m
                           = LegacyExport.MeshPhongMaterial (snd e))
            (fst maps).

Module LegacySample.

Definition placed : LegacyExport.Placement :=
  LegacyExport.mkPlacement true identity identity identity false.

Definition orange : LegacyExport.Mesh :=
  LegacyExport.mkMesh 1 Sample.square
    (LegacyExport.MeshPhongMaterial Sample.orange) [] placed.

(** A mesh whose material is not a [MeshPhongMaterial]. *)
Definition plain : LegacyExport.Mesh :=
  LegacyExport.mkMesh 2 Sample.square LegacyExport.OtherMaterial [placed] placed.

Definition gray : LegacyExport.Mesh :=
  LegacyExport.mkMesh 3 Sample.square
    (LegacyExport.MeshPhongMaterial defaultGray) [placed] placed.

(** Three meshes, the first of them handed over twice. *)
Definition meshes : list LegacyExport.Mesh := [orange; plain; gray; orange].

(** Six hexadecimal digits for a colour. *)
Definition getHexString (c : Color) : string :=
  substring 1 6 (rgbToHexColor c).

End LegacySample.

(* ----------------------------------------------------------------- *)
(** *** Components and relationships *)

(** Every index of the triangle is an index into [total] vertices. *)
Definition validComponentTriangle (total : nat) (t : Triangle) : Prop :=
  validIndex total (v1 t) /\ validIndex total (v2 t) /\ validIndex total (v3 t).

(** The values of the attribute [key] in a text, in the order they are
    written; [fuel] bounds their number. *)
Fixpoint attributeValues (fuel : nat) (key text : string) : list string :=
  match fuel with
  | O => []
  | S fuel' =>
      match String.index 0 (key ++ "=" ++ quote) text with
      | None => []
      | Some i =>
          let rest := substring (i + String.length key + 2)
                                (String.length text) text in
          match String.index 0 quote rest with
          | None => []
          | Some j =>
              substring 0 j rest
              :: attributeValues fuel' key
                   (substring (j + 1) (String.length rest) rest)
          end
      end
  end.

(** The relationship targets of an entry: the values of [Target] in its
    text. *)
Definition relationshipTargets (c : content) : list string :=
  match c with
  | Raw text => attributeValues (String.length text) "Target" text
  | XmlDoc _ | JsonDoc _ => []
  end.

(** The path names a file of the archive, as a part name: a slash, then
    the path of an entry. *)
Definition namesEntry (zip : Package.Zip) (partName : string) : Prop :=
  exists path, partName = ("/" ++ path)%string /\ Package.entry path zip <> None.

(** The [v1], [v2] and [v3] of a [triangle] element are numbers below
    [total]. *)
Definition indexesWithin (total : nat) (triangle : xml) : Prop :=
  Forall (fun key => exists i, attribute key triangle = Some (ANum (Num i))
                               /\ (0 <= i < Z.of_nat total)%Z)
         ["v1"; "v2"; "v3"]%string.

(** An [object] element of the object model holds the geometry of a
    leaf: as many [vertex] elements as the leaf has vertices, one
    [triangle] element for each started group of three entries of its
    stream, and, when the leaf is valid, indices into its own vertices
    only. *)
Definition holdsLeaf (leaf : LeafRecord) (object : xml) : Prop :=
  length (elementsNamed "vertex" object) = vertexCount leaf
  /\ length (elementsNamed "triangle" object)
     = (streamLength (lr_geometry leaf) + 2) / 3
  /\ (leafValid leaf ->
      Forall (indexesWithin (vertexCount leaf)) (elementsNamed "triangle" object)).

(** The world transform of a mesh of the legacy exporter: parent world
    transform x local transform, composed from the root down.  No cached
    [matrixWorld] is read. *)
Definition legacyWorld (mesh : LegacyExport.Mesh) : Matrix4 :=
  LegacyExport.worldUnder
    (fold_left (fun w p => Some (LegacyExport.worldUnder w p))
               (LegacyExport.ancestors mesh) None)
    (LegacyExport.placement mesh).

(** The vertices of a mesh of the legacy exporter, as it writes them. *)
Definition legacyVertexLines (numberToString : float -> string) (scale : float)
    (mesh : LegacyExport.Mesh) : list string :=
  match position (LegacyExport.geometry mesh) with
  | Some ps =>
      map (Legacy.vertexLine numberToString scale (legacyWorld mesh)) ps
  | None => []
  end.

(** The triangles of a mesh of the legacy exporter, as it writes them. *)
Definition legacyTriangleLines (mesh : LegacyExport.Mesh) : list string :=
  LegacyExport.triangleLines (index (LegacyExport.geometry mesh))
    match position (LegacyExport.geometry mesh) with
    | Some ps => length ps
    | None => 0
    end.

(** [pushMesh] without the mesh it returns: the lines and the counter. *)
Definition pushedLines (numberToString : float -> string) (scale : float)
    (meshMaterialIds : list (nat * Z)) (mesh : LegacyExport.Mesh)
    (st : list string * Z) : outcome (list string * Z) :=
  '(_, st1) <-
    LegacyExport.pushMesh numberToString scale meshMaterialIds mesh st ;;
  Ok st1.

(** An object of the legacy scene without what [updateWorldMatrix]
    caches: [matrixWorld] and [matrixWorldNeedsUpdate], and [matrix] where
    [matrixAutoUpdate] has it recomposed from the local transform. *)
Definition withoutCaches (p : LegacyExport.Placement) : LegacyExport.Placement :=
  {| LegacyExport.p_auto := LegacyExport.p_auto p;
     LegacyExport.p_local := LegacyExport.p_local p;
     LegacyExport.p_matrix :=
       if LegacyExport.p_auto p then identity else LegacyExport.p_matrix p;
     LegacyExport.p_matrixWorld := identity;
     LegacyExport.p_matrixWorldNeedsUpdate := false |}.

(** A mesh of the legacy scene with its ancestors, without the caches:
    what is left is the identity of the mesh, its geometry with the
    position and index streams, its material, and for the mesh and every
    ancestor the local transform, [matrixAutoUpdate], and [matrix] where
    it is not recomposed. *)
Definition legacyDropCaches (mesh : LegacyExport.Mesh) : LegacyExport.Mesh :=
  {| LegacyExport.uid := LegacyExport.uid mesh;
     LegacyExport.geometry := LegacyExport.geometry mesh;
     LegacyExport.material := LegacyExport.material mesh;
     LegacyExport.ancestors := map withoutCaches (LegacyExport.ancestors mesh);
     LegacyExport.placement := withoutCaches (LegacyExport.placement mesh) |}.

(* ----------------------------------------------------------------- *)
(** *** Re-basing *)

(** The three indices of a merged triangle. *)
Definition indicesOf (t : Merged.Triangle) : value * value * value :=
  (Merged.v1 t, Merged.v2 t, Merged.v3 t).

(** An index stream in groups of three, in stream order; an entry that a
    last, partial group lacks is [undefined]. *)
Fixpoint triples (stream : list Z) : list (value * value * value) :=
  match stream with
  | [] => []
  | [a] => [(Num a, Undefined, Undefined)]
  | [a; c] => [(Num a, Num c, Undefined)]
  | a :: c :: d :: rest => (Num a, Num c, Num d) :: triples rest
  end.

(** The triangles of a leaf before any re-basing: the groups of three of
    its index stream, or, without index stream, the vertex numbers 0, 1,
    2, then 3, 4, 5 and so on, one group for every started three of its
    vertices. *)
Definition ownTriples (leaf : LeafRecord) : list (value * value * value) :=
  match index (lr_geometry leaf) with
  | Some indexAttr => triples indexAttr
  | None =>
      map (fun k => (Num (3 * Z.of_nat k), Num (3 * Z.of_nat k + 1),
                     Num (3 * Z.of_nat k + 2)))
          (seq 0 ((vertexCount leaf + 2) / 3))
  end.

(** An index moved by [offset]; an entry that is no number stays none. *)
Definition moved (offset : nat) (v : value) : value :=
  match v with
  | Num n => Num (Z.of_nat offset + n)
  | Undefined | NaN => NaN
  end.

(** The triangles of the leaves laid end to end: those of each leaf
    moved by the number of vertices of the leaves before it. *)
Fixpoint rebasedTriples (offset : nat) (leaves : list LeafRecord)
  : list (value * value * value) :=
  match leaves with
  | [] => []
  | leaf :: rest =>
      map (fun '(a, c, d) => (moved offset a, moved offset c, moved offset d))
          (ownTriples leaf)
      ++ rebasedTriples (offset + vertexCount leaf) rest
  end.

(* ----------------------------------------------------------------- *)
(** *** A valid container *)
(** [s.endsWith(suffix)]. *)
Fixpoint endsWith (suffix s : string) : bool :=
  String.eqb suffix s
  || match s with
     | EmptyString => false
     | String _ s' => endsWith suffix s'
     end.

Definition coreNamespace : string :=
  "http://schemas.microsoft.com/3dmanufacturing/core/2015/02".

(** A model part as section 4.7 of the specification asks for it: the
    unit is the millimeter, the core namespace is declared, and there is
    a [resources] block and a [build] block. *)
Definition isModelPart (c : content) : Prop :=
  match c with
  | XmlDoc (Element tag attrs body) =>
      tag = "model"%string
      /\ In ("unit"%string, AStr "millimeter") attrs
      /\ In ("xmlns"%string, AStr coreNamespace) attrs
      /\ (exists a body', In (Element "resources" a body') body)
      /\ (exists a body', In (Element "build" a body') body)
  | Raw text =>
      occurrences ("<model " ++ kv "unit" "millimeter" ++ " "
                   ++ kv "xmlns" coreNamespace) text = 1
      /\ occurrences "<resources>" text = 1
      /\ occurrences "<build>" text = 1
  | XmlDoc (Text _) | JsonDoc _ => False
  end.

(** Every [item] of the [build] block refers to an [object] that the
    resources declare. *)
Definition itemsResolve (c : content) : Prop :=
  match c with
  | XmlDoc root =>
      Forall (fun item =>
                exists object,
                  In object (elementsNamed "object" root)
                  /\ attribute "id" object <> None
                  /\ attribute "objectid" item = attribute "id" object)
             (elementsNamed "item" root)
  | Raw text =>
      Forall (fun i => In i (attributeValues (String.length text)
                                             "<object id" text))
             (attributeValues (String.length text) "<item objectid" text)
  | JsonDoc _ => False
  end.

(** A valid container, as sections 4.7 and 6 of the specification
    describe it: the content types declare the extensions [rels] and
    [model]; the root relationships point at one part, the primary model,
    which lies under [3D/] and is a model part whose build items resolve
    and whose components name parts of the archive; and every target of
    a relationships part (an entry whose name ends in [.rels]), also of
    the relationships of a model part that refers to another part, names
    a part of the archive. *)
Definition validContainer (zip : Package.Zip) : Prop :=
  (exists types,
     Package.entry "[Content_Types].xml" zip = Some (Raw types)
     /\ 0 < occurrences (kv "Extension" "rels") types
     /\ 0 < occurrences (kv "Extension" "model") types)
  /\ (exists rels path model,
        Package.entry "_rels/.rels" zip = Some rels
        /\ relationshipTargets rels = [("/" ++ path)%string]
        /\ prefix "3D/" path = true
        /\ Package.entry path zip = Some model
        /\ isModelPart model
        /\ itemsResolve model
        /\ Forall (fun component =>
                     exists partName,
                       attribute "p:path" component = Some (AStr partName)
                       /\ namesEntry zip partName)
                  (docElements "component" model))
  /\ Forall (fun e =>
               endsWith ".rels" (fst e) = true ->
               Forall (namesEntry zip) (relationshipTargets (snd e)))
            zip.

(* ================================================================= *)
(** ** The traversal, as a run over the nodes in pre-order *)

Section Object3D_induction.

Variable P : Object3D -> Prop.
Hypothesis step : forall o, Forall P (children o) -> P o.

Fixpoint Object3D_nested_ind (o : Object3D) : P o :=
  step o
    (match o return Forall P (children o) with
     | mkObject3D _ _ _ _ _ _ _ cs =>
         (fix all (l : list Object3D) : Forall P l :=
            match l with
            | [] => Forall_nil P
            | c :: l' => Forall_cons c (Object3D_nested_ind c) (all l')
            end) cs
     end).

End Object3D_induction.

Lemma updateMatrixWorld_force (pw : option Matrix4) (o : Object3D) :
  updateMatrixWorld pw true o =
  {| name := name o; kind := kind o; local := local o;
     matrixAutoUpdate := matrixAutoUpdate o;
     matrix := localMatrix o;
     matrixWorld := worldOf pw o;
     matrixWorldNeedsUpdate := false;
     children := map (updateMatrixWorld (Some (worldOf pw o)) true) (children o) |}.
Proof.
  destruct o as [nm k lo au m mw nu cs]; unfold worldOf, localMatrix; simpl.
  rewrite orb_true_r. reflexivity.
Qed.

Lemma matrixWorld_updateMatrixWorld (pw : option Matrix4) (o : Object3D) :
  matrixWorld (updateMatrixWorld pw true o) = worldOf pw o.
Proof. rewrite updateMatrixWorld_force; reflexivity. Qed.

Lemma children_updateMatrixWorld (pw : option Matrix4) (o : Object3D) :
  children (updateMatrixWorld pw true o)
  = map (updateMatrixWorld (Some (worldOf pw o)) true) (children o).
Proof. rewrite updateMatrixWorld_force; reflexivity. Qed.

Lemma updateMatrixWorld_idem (o : Object3D) :
  forall pw, updateMatrixWorld pw true (updateMatrixWorld pw true o)
             = updateMatrixWorld pw true o.
Proof.
  induction o as [o IH] using Object3D_nested_ind; intro pw.
  rewrite (updateMatrixWorld_force pw o).
  rewrite updateMatrixWorld_force.
  unfold worldOf, localMatrix; cbn [name kind local matrixAutoUpdate matrix
    matrixWorld matrixWorldNeedsUpdate children].
  assert (E : (if matrixAutoUpdate o then local o
               else if matrixAutoUpdate o then local o else matrix o)
              = (if matrixAutoUpdate o then local o else matrix o))
    by (destruct (matrixAutoUpdate o); reflexivity).
  rewrite E. f_equal.
  rewrite map_map. apply map_ext_in. intros c Hc.
  rewrite Forall_forall in IH. apply IH, Hc.
Qed.

Lemma height_updateMatrixWorld (o : Object3D) :
  forall pw force, height (updateMatrixWorld pw force o) = height o.
Proof.
  induction o as [o IH] using Object3D_nested_ind; intros pw force.
  destruct o as [nm k lo au m mw nu cs]; simpl in *.
  f_equal.
  set (pw' := Some _). set (f' := _ || force). clearbody pw' f'.
  induction cs as [|c cs IHcs]; simpl; [reflexivity|].
  inversion IH; subst. rewrite H1, IHcs; auto.
Qed.

Lemma height_child (o c : Object3D) : In c (children o) -> height c < height o.
Proof.
  destruct o as [nm k lo au m mw nu cs]; simpl.
  induction cs as [|d cs IH]; simpl; [tauto|].
  intros [->|H]; [lia|]. specialize (IH H). lia.
Qed.

Lemma bind_assoc {A B C} (m : outcome A) (f : A -> outcome B) (h : B -> outcome C) :
  bind (bind m f) h = bind m (fun a => bind (f a) h).
Proof. destruct m; reflexivity. Qed.

Lemma foldM_app {A S} (f : A -> S -> outcome S) (l1 l2 : list A) (st : S) :
  foldM f (l1 ++ l2) st = (st1 <- foldM f l1 st ;; foldM f l2 st1).
Proof.
  revert st; induction l1 as [|a l1 IH]; intro st; simpl; [reflexivity|].
  destruct (f a st); simpl; auto.
Qed.

Lemma set_children_same (o : Object3D) : set_children o (children o) = o.
Proof. destruct o; reflexivity. Qed.

Lemma forEach_ext {A S} (f h : A -> S -> outcome (A * S)) (l : list A) :
  (forall a st, f a st = h a st) -> forall st, forEach f l st = forEach h l st.
Proof.
  intro E; induction l as [|a l IH]; intro st; cbn [forEach]; [reflexivity|].
  rewrite E. destruct (h a st) as [[a' s1]| |]; cbn [bind]; auto.
  now rewrite IH.
Qed.

(** A traversal refreshes the matrices below [object] and runs [visit] over
    the refreshed nodes in pre-order. *)
Lemma traverse_run {S} (visit : Object3D -> S -> outcome S) (fuel : nat) :
  forall pw o st, height o <= fuel ->
    traverse visit fuel pw o st =
    (st' <- foldM visit (preorder (updateMatrixWorld pw true o)) st ;;
     Ok (updateMatrixWorld pw true o, st')).
Proof.
  induction fuel as [|fuel IH]; intros pw o st Hh.
  - destruct o; simpl in Hh; lia.
  - cbn [traverse].
    set (o1 := updateMatrixWorld pw true o).
    assert (Hkids : forall c, In c (children o1) ->
              height c <= fuel /\
              updateMatrixWorld (Some (matrixWorld o1)) true c = c).
    { intros c Hc. split.
      - apply height_child in Hc. unfold o1 in Hc.
        rewrite height_updateMatrixWorld in Hc. lia.
      - unfold o1 in *.
        rewrite matrixWorld_updateMatrixWorld, children_updateMatrixWorld in *.
        apply in_map_iff in Hc. destruct Hc as [c0 [<- _]].
        apply updateMatrixWorld_idem. }
    assert (Hpre : preorder o1 = o1 :: flat_map preorder (children o1))
      by (destruct o1; reflexivity).
    rewrite Hpre. cbn [foldM]. rewrite bind_assoc.
    destruct (visit o1 st) as [st1| |]; cbn [bind]; try reflexivity.
    assert (Hfe : forall cs st0, (forall c, In c cs -> In c (children o1)) ->
              forEach (traverse visit fuel (Some (matrixWorld o1))) cs st0
              = (st' <- foldM visit (flat_map preorder cs) st0 ;;
                 Ok (cs, st'))).
    { induction cs as [|c cs IHcs]; intros st0 Hin; [reflexivity|].
      cbn [forEach flat_map]. rewrite foldM_app, bind_assoc.
      destruct (Hkids c (Hin c (or_introl eq_refl))) as [Hc1 Hc2].
      rewrite (IH _ _ _ Hc1), Hc2, bind_assoc.
      destruct (foldM visit (preorder c) st0) as [s1| |]; cbn [bind];
        try reflexivity.
      rewrite IHcs by (intros d Hd; apply Hin; right; exact Hd).
      rewrite bind_assoc.
      destruct (foldM visit (flat_map preorder cs) s1); reflexivity. }
    rewrite Hfe by auto. rewrite bind_assoc.
    destruct (foldM visit (flat_map preorder (children o1)) st1);
      cbn [bind]; try reflexivity.
    rewrite set_children_same. reflexivity.
Qed.

Import Exporter.

Lemma collectComponents_traverse (fuel : nat) :
  forall pw o st,
    collectComponents fuel pw o st = traverse collectNode fuel pw o st.
Proof.
  induction fuel as [|fuel IH]; intros pw o st; [reflexivity|].
  cbn [collectComponents traverse].
  destruct (collectNode _ st); cbn [bind]; try reflexivity.
  now rewrite (forEach_ext _ _ _ (IH _)).
Qed.

Lemma processObject_traverse (fuel : nat) :
  forall pw o st,
    Merged.processObject fuel pw o st = traverse Merged.processNode fuel pw o st.
Proof.
  induction fuel as [|fuel IH]; intros pw o st; [reflexivity|].
  cbn [Merged.processObject traverse].
  destruct (Merged.processNode _ st); cbn [bind]; try reflexivity.
  now rewrite (forEach_ext _ _ _ (IH _)).
Qed.

Lemma collectComponents_run (fuel : nat) (pw : option Matrix4) (o : Object3D)
    (st : State) :
  height o <= fuel ->
  collectComponents fuel pw o st =
  (st' <- foldM collectNode (preorder (updateMatrixWorld pw true o)) st ;;
   Ok (updateMatrixWorld pw true o, st')).
Proof. rewrite collectComponents_traverse. apply traverse_run. Qed.

Lemma flat_map_map {A B C} (f : A -> B) (h : B -> list C) (l : list A) :
  flat_map h (map f l) = flat_map (fun a => h (f a)) l.
Proof. induction l as [|a l IH]; simpl; [reflexivity | now rewrite IH]. Qed.

Lemma preorder_unfold (o : Object3D) :
  preorder o = o :: flat_map preorder (children o).
Proof. destruct o; reflexivity. Qed.

Lemma leafRecords_unfold (pw : option Matrix4) (o : Object3D) :
  leafRecords pw o =
  match kind o with
  | Mesh geometry material =>
      [ {| lr_name := name o; lr_geometry := geometry;
           lr_material := material; lr_world := worldOf pw o |} ]
  | Group => []
  end ++ flat_map (leafRecords (Some (worldOf pw o))) (children o).
Proof. destruct o; reflexivity. Qed.

(** The mesh nodes of the refreshed scene are the leaf records. *)
Lemma leafRecords_preorder (o : Object3D) :
  forall pw,
    flat_map leafOfNode (preorder (updateMatrixWorld pw true o))
    = leafRecords pw o.
Proof.
  induction o as [o IH] using Object3D_nested_ind; intro pw.
  rewrite preorder_unfold, leafRecords_unfold.
  cbn [flat_map]. f_equal.
  - unfold leafOfNode.
    rewrite matrixWorld_updateMatrixWorld, updateMatrixWorld_force.
    reflexivity.
  - rewrite children_updateMatrixWorld.
    rewrite Forall_forall in IH.
    induction (children o) as [|c cs IHcs]; [reflexivity|].
    cbn [map flat_map]. rewrite flat_map_app.
    rewrite IH by (left; reflexivity).
    rewrite IHcs by (intros d Hd; apply IH; right; exact Hd).
    reflexivity.
Qed.

Lemma foldM_collectNode (l : list Object3D) :
  forall st, foldM collectNode l st = foldM collectLeaf (flat_map leafOfNode l) st.
Proof.
  induction l as [|o l IH]; intro st; [reflexivity|].
  cbn [foldM flat_map]. rewrite foldM_app.
  unfold collectNode at 1, leafOfNode at 1.
  destruct (kind o) as [geo mat|]; cbn [foldM bind].
  - unfold collectLeaf at 1; cbn [lr_name lr_world lr_geometry lr_material].
    destruct (collectMesh (name o) (matrixWorld o) geo mat st); cbn [bind]; auto.
  - apply IH.
Qed.

(** [collectComponents] processes the leaf records in order and leaves the
    scene with its matrices refreshed. *)
Lemma collectComponents_leaves (fuel : nat) (pw : option Matrix4)
    (o : Object3D) (st : State) :
  height o <= fuel ->
  collectComponents fuel pw o st =
  (st' <- foldM collectLeaf (leafRecords pw o) st ;;
   Ok (updateMatrixWorld pw true o, st')).
Proof.
  intro H. rewrite collectComponents_run by exact H.
  rewrite foldM_collectNode, leafRecords_preorder. reflexivity.
Qed.

(* ================================================================= *)
(** ** [===] on doubles is a partial equivalence *)

Lemma SFeqb_finite (s1 s2 : bool) (m1 m2 : positive) (x1 x2 : Z) :
  SFeqb (S754_finite s1 m1 x1) (S754_finite s2 m2 x2) = true
  <-> s1 = s2 /\ m1 = m2 /\ x1 = x2.
Proof.
  unfold SFeqb, SFcompare.
  change (PosDef.Pos.compare_cont Eq m1 m2) with (Pos.compare m1 m2).
  destruct s1, s2; destruct (Z.compare_spec x1 x2) as [E|L|G];
    destruct (Pos.compare_spec m1 m2) as [E'|L'|G']; cbn;
    split; try discriminate; try (intros [? [? ?]]; subst; lia);
    try (intros _; subst; auto); try (intros [? _]; discriminate).
Qed.

Lemma SFeqb_sym (a c : spec_float) : SFeqb a c = SFeqb c a.
Proof.
  destruct a as [sa|sa| |sa ma xa], c as [sc|sc| |sc mc xc];
    try reflexivity; try (destruct sa, sc; reflexivity);
    try (destruct sa; reflexivity); try (destruct sc; reflexivity).
  destruct (SFeqb (S754_finite sa ma xa) (S754_finite sc mc xc)) eqn:E1;
    destruct (SFeqb (S754_finite sc mc xc) (S754_finite sa ma xa)) eqn:E2;
    try reflexivity.
  - apply SFeqb_finite in E1. destruct E1 as [-> [-> ->]].
    rewrite <- E2. symmetry. apply SFeqb_finite. auto.
  - apply SFeqb_finite in E2. destruct E2 as [-> [-> ->]].
    rewrite <- E1. apply SFeqb_finite. auto.
Qed.

Lemma SFeqb_trans (a c d : spec_float) :
  SFeqb a c = true -> SFeqb c d = true -> SFeqb a d = true.
Proof.
  destruct a as [sa|sa| |sa ma xa], c as [sc|sc| |sc mc xc],
           d as [sd|sd| |sd md xd];
    try (intros; assumption); try discriminate;
    try (destruct sa, sc; discriminate); try (destruct sc, sd; discriminate);
    try (destruct sa; discriminate); try (destruct sc; discriminate);
    try (destruct sa, sc, sd; cbn; congruence).
  intros H1 H2. apply SFeqb_finite in H1, H2.
  destruct H1 as [-> [-> ->]]. destruct H2 as [-> [-> ->]].
  apply SFeqb_finite. auto.
Qed.

Lemma float_eqb_sym (a c : float) : PrimFloat.eqb a c = PrimFloat.eqb c a.
Proof. rewrite !FloatAxioms.eqb_spec. apply SFeqb_sym. Qed.

Lemma float_eqb_trans (a c d : float) :
  PrimFloat.eqb a c = true -> PrimFloat.eqb c d = true ->
  PrimFloat.eqb a d = true.
Proof. rewrite !FloatAxioms.eqb_spec. apply SFeqb_trans. Qed.

Lemma sameColor_sym (a c : Color) : sameColor a c = sameColor c a.
Proof.
  unfold sameColor.
  now rewrite (float_eqb_sym (r a)), (float_eqb_sym (g a)), (float_eqb_sym (b a)).
Qed.

Lemma sameColor_trans (a c d : Color) :
  sameColor a c = true -> sameColor c d = true -> sameColor a d = true.
Proof.
  unfold sameColor. rewrite !andb_true_iff.
  intros [[? ?] ?] [[? ?] ?].
  repeat split; eapply float_eqb_trans; eassumption.
Qed.

(* ================================================================= *)
(** ** Runs of [collectLeaf] *)

Lemma foldM_invariant {A S} (f : A -> S -> outcome S) (I : list A -> S -> Prop) :
  (forall pre a st st', I pre st -> f a st = Ok st' -> I (pre ++ [a]) st') ->
  forall l pre st st', I pre st -> foldM f l st = Ok st' -> I (pre ++ l) st'.
Proof.
  intros Hstep l; induction l as [|a l IH]; intros pre st st' HI Hrun.
  - cbn in Hrun. injection Hrun as <-. now rewrite app_nil_r.
  - cbn [foldM] in Hrun. destruct (f a st) as [s1| |] eqn:E; try discriminate.
    cbn [bind] in Hrun.
    replace (pre ++ a :: l) with ((pre ++ [a]) ++ l)
      by (rewrite <- app_assoc; reflexivity).
    eapply IH; [|exact Hrun]. eapply Hstep; eassumption.
Qed.

Lemma collectLeaf_outcome (leaf : LeafRecord) (st : State) :
  match collectLeaf leaf st with
  | Ok _ => position (lr_geometry leaf) <> None
  | Throw _ => position (lr_geometry leaf) = None
  | OutOfFuel => False
  end.
Proof.
  unfold collectLeaf, collectMesh. destruct st as [comps mats].
  destruct (lr_material leaf);
    [destruct (registerMaterial _ _ _)|];
    destruct (position (lr_geometry leaf)); cbn; congruence.
Qed.

Lemma foldM_collectLeaf_outcome (l : list LeafRecord) :
  forall st,
    match foldM collectLeaf l st with
    | Ok _ => Forall (fun leaf => position (lr_geometry leaf) <> None) l
    | Throw _ => exists leaf, In leaf l /\ position (lr_geometry leaf) = None
    | OutOfFuel => False
    end.
Proof.
  induction l as [|leaf l IH]; intro st; cbn [foldM]; [constructor|].
  pose proof (collectLeaf_outcome leaf st) as H1.
  destruct (collectLeaf leaf st) as [s1| |]; cbn [bind]; try contradiction.
  - specialize (IH s1). destruct (foldM collectLeaf l s1); try contradiction.
    + constructor; assumption.
    + destruct IH as [lf [Hin Hp]]. exists lf. split; [right|]; assumption.
  - exists leaf. split; [left; reflexivity | assumption].
Qed.

(** Every call of [collectComponents] with the height as budget ends: it
    returns the refreshed scene and the state after the leaves, or it
    throws as the run over the leaves does. *)
Lemma collect_outcome (pw : option Matrix4) (o : Object3D) (st : State) :
  match collectComponents (height o) pw o st with
  | Ok (o', st') =>
      o' = updateMatrixWorld pw true o
      /\ foldM collectLeaf (leafRecords pw o) st = Ok st'
  | Throw e =>
      foldM collectLeaf (leafRecords pw o) st = Throw e
  | OutOfFuel => False
  end.
Proof.
  rewrite collectComponents_leaves by apply Nat.le_refl.
  pose proof (foldM_collectLeaf_outcome (leafRecords pw o) st) as H.
  destruct (foldM collectLeaf (leafRecords pw o) st); cbn [bind]; auto.
Qed.

(* ================================================================= *)
(** ** The material table *)

Lemma nth_error_snoc {A} (l : list A) (a : A) (i : nat) (v : A) :
  nth_error (l ++ [a]) i = Some v ->
  (i < length l /\ nth_error l i = Some v) \/ (i = length l /\ v = a).
Proof.
  intro H. destruct (Nat.lt_ge_cases i (length l)) as [L|G].
  - left. split; [exact L|]. now rewrite nth_error_app1 in H.
  - right. rewrite nth_error_app2 in H by exact G.
    destruct (i - length l) as [|k] eqn:E.
    + cbn in H. injection H as <-. split; [lia | reflexivity].
    + cbn in H. destruct k; discriminate.
Qed.

Lemma find_first {A} (f : A -> bool) (l : list A) (x : A) :
  find f l = Some x ->
  exists k, nth_error l k = Some x /\ f x = true
            /\ forall j e, j < k -> nth_error l j = Some e -> f e = false.
Proof.
  induction l as [|a l IH]; [discriminate|]. cbn [find].
  destruct (f a) eqn:Fa.
  - intro E. injection E as <-. exists 0. repeat split; auto. lia.
  - intro E. destruct (IH E) as [k [H1 [H2 H3]]]. exists (S k).
    repeat split; auto. intros [|j] e Hj He.
    + cbn in He. now injection He as <-.
    + apply (H3 j); [lia | exact He].
Qed.

Lemma registerMaterial_step (nm : string) (c : Color) (mats : list MaterialInfo) :
  register_step nm c mats.
Proof.
  unfold register_step, registerMaterial.
  destruct (find _ mats) as [e|] eqn:F.
  - left. split; [reflexivity|]. apply find_first in F. exact F.
  - right. split; [reflexivity|]. split; [|repeat split].
    intros e He. exact (find_none _ _ F e He).
Qed.

Lemma registerMaterial_table (nm : string) (c : Color)
    (mats mats' : list MaterialInfo) (mi : MaterialInfo) :
  table_numbered mats -> table_distinct mats ->
  registerMaterial nm c mats = (mi, mats') ->
  (exists ext, mats' = mats ++ ext)
  /\ table_numbered mats' /\ table_distinct mats'
  /\ nth_error mats' (Z.to_nat (mi_id mi)) = Some mi
  /\ (mi_color mi = c \/ sameColor (mi_color mi) c = true).
Proof.
  intros Hn Hd. unfold registerMaterial.
  destruct (find _ mats) as [e|] eqn:F; intro E; injection E as <- <-.
  - apply find_some in F. destruct F as [Hin Hsame].
    split; [exists []; now rewrite app_nil_r|].
    split; [exact Hn|]. split; [exact Hd|]. split; [|right; exact Hsame].
    apply In_nth_error in Hin. destruct Hin as [i Hi].
    destruct (Hn _ _ Hi) as [-> _]. now rewrite Nat2Z.id.
  - pose proof (find_none _ _ F) as Hnone. cbn beta in Hnone.
    set (new := {| mi_id := len mats; mi_color := c |}).
    split; [now exists [new]|]. split; [|split; [|split]].
    + intros i m H.
      apply nth_error_snoc in H. destruct H as [[_ H]|[-> ->]].
      * now apply Hn in H.
      * split; reflexivity.
    + intros i j a d Hij Hi Hj.
      apply nth_error_snoc in Hi, Hj.
      destruct Hi as [[_ Hi]|[-> ->]], Hj as [[_ Hj]|[-> ->]].
      * eapply Hd; eassumption.
      * apply Hnone. eapply nth_error_In; eassumption.
      * rewrite sameColor_sym. apply Hnone. eapply nth_error_In; eassumption.
      * contradiction.
    + cbn [mi_id new]. unfold len. rewrite Nat2Z.id.
      rewrite nth_error_app2 by apply Nat.le_refl.
      now rewrite Nat.sub_diag.
    + left; reflexivity.
Qed.

Lemma assigned_grow (mats ext : list MaterialInfo) (leaf : LeafRecord)
    (c : ComponentInfo) :
  assigned mats leaf c -> assigned (mats ++ ext) leaf c.
Proof.
  unfold assigned. destruct (lr_material leaf); [|auto].
  intros [mi [H1 [H2 H3]]]. exists mi. repeat split; auto.
  rewrite nth_error_app1; [exact H2|].
  apply nth_error_Some. congruence.
Qed.

(** What one successful [collectLeaf] appends. *)
Lemma collectLeaf_Ok (leaf : LeafRecord) (comps : list ComponentInfo)
    (mats : list MaterialInfo) (st' : State) :
  collectLeaf leaf (comps, mats) = Ok st' ->
  exists c ps mats',
    st' = (comps ++ [c], mats')
    /\ position (lr_geometry leaf) = Some ps
    /\ ci_id c = (100 + len comps)%Z
    /\ ci_vertices c = map (fun v => applyMatrix4 v (lr_world leaf)) ps
    /\ ci_triangles c = match index (lr_geometry leaf) with
                        | Some indexAttr => indexedTriangles indexAttr
                        | None => sequentialTriangles (length ps)
                        end
    /\ ci_name c = (if truthy (lr_name leaf) then lr_name leaf
                    else ("Default-" ++ toString (100 + len comps))%string)
    /\ match lr_material leaf with
       | None => ci_material c = None /\ mats' = mats
       | Some m =>
           exists mi,
             registerMaterial (lr_name leaf) (materialColor m) mats
               = (mi, mats')
             /\ ci_material c = Some mi
       end.
Proof.
  unfold collectLeaf, collectMesh.
  destruct (lr_material leaf) as [m|].
  - destruct (registerMaterial (lr_name leaf) (materialColor m) mats)
      as [mi mats1] eqn:R.
    destruct (position (lr_geometry leaf)) as [ps|]; [|discriminate].
    intro E. injection E as E. subst st'.
    eexists; exists ps, mats1.
    cbn [ci_id ci_vertices ci_triangles ci_name ci_material].
    repeat (split; [reflexivity|]). exists mi. split; reflexivity.
  - destruct (position (lr_geometry leaf)) as [ps|]; [|discriminate].
    intro E. injection E as E. subst st'.
    eexists; exists ps, mats.
    cbn [ci_id ci_vertices ci_triangles ci_name ci_material].
    repeat (split; [reflexivity|]). split; reflexivity.
Qed.

Lemma collectLeaf_inv (pre : list LeafRecord) (leaf : LeafRecord) (st st' : State) :
  registry_inv pre st -> collectLeaf leaf st = Ok st' ->
  registry_inv (pre ++ [leaf]) st'.
Proof.
  destruct st as [comps mats]. intros [Hn [Hd Hf]] Hrun. cbn [fst snd] in *.
  apply collectLeaf_Ok in Hrun.
  destruct Hrun as [c [ps [mats' [-> [_ [_ [_ [_ [_ Hm]]]]]]]]].
  unfold registry_inv. cbn [fst snd].
  destruct (lr_material leaf) as [m|] eqn:Em.
  - destruct Hm as [mi [R Hc]].
    destruct (registerMaterial_table _ _ Hn Hd R)
      as [[ext ->] [Hn1 [Hd1 [Hat Hcol]]]].
    split; [exact Hn1|]. split; [exact Hd1|].
    apply Forall2_app.
    + eapply Forall2_impl; [|exact Hf]. intros; now apply assigned_grow.
    + constructor; [|constructor]. unfold assigned. rewrite Em.
      exists mi. auto.
  - destruct Hm as [Hc ->].
    split; [exact Hn|]. split; [exact Hd|].
    apply Forall2_app; [exact Hf|].
    constructor; [|constructor]. unfold assigned. now rewrite Em.
Qed.

Lemma registry_inv_run (leaves : list LeafRecord) (st' : State) :
  foldM collectLeaf leaves ([], []) = Ok st' -> registry_inv leaves st'.
Proof.
  intro H. change leaves with ([] ++ leaves).
  eapply foldM_invariant; [apply collectLeaf_inv| |exact H].
  split; [|split]; cbn [fst snd].
  - intros i m Hi. destruct i; discriminate.
  - intros i j mi mj _ Hi. destruct i; discriminate.
  - constructor.
Qed.

Lemma Forall2_nth_error {A B} (R : A -> B -> Prop) (l : list A) (l' : list B) :
  Forall2 R l l' ->
  forall i a c, nth_error l i = Some a -> nth_error l' i = Some c -> R a c.
Proof.
  induction 1 as [|a0 c0 l l' H0 H IH]; intros [|i] a c Ha Hc;
    try discriminate; cbn in *.
  - congruence.
  - eapply IH; eassumption.
Qed.

Lemma registry_same_material (leaves : list LeafRecord) (st : State) :
  registry_inv leaves st -> same_color_same_material leaves (fst st).
Proof.
  intros [Hn [Hd Hf]] i j li lj ci cj ma mb Hli Hci Hlj Hcj Hma Hmb Hsame.
  pose proof (Forall2_nth_error Hf _ Hli Hci) as Ai.
  pose proof (Forall2_nth_error Hf _ Hlj Hcj) as Aj.
  unfold assigned in Ai, Aj. rewrite Hma in Ai. rewrite Hmb in Aj.
  destruct Ai as [mi [Ei [Ni Ci]]]. destruct Aj as [mj [Ej [Nj Cj]]].
  exists mi. split; [exact Ei|]. rewrite Ej. f_equal.
  assert (S1 : sameColor (mi_color mi) (materialColor mb) = true).
  { destruct Ci as [->|Ci]; [exact Hsame|].
    eapply sameColor_trans; eassumption. }
  assert (S2 : sameColor (mi_color mi) (mi_color mj) = true).
  { destruct Cj as [->|Cj]; [exact S1|].
    rewrite sameColor_sym in Cj. eapply sameColor_trans; eassumption. }
  destruct (Nat.eq_dec (Z.to_nat (mi_id mi)) (Z.to_nat (mi_id mj))) as [E|N].
  - rewrite E in Ni. congruence.
  - rewrite (Hd _ _ _ _ N Ni Nj) in S2. discriminate.
Qed.

(* ================================================================= *)
(** ** The flattening *)

Lemma flat_map_ext_In {A B} (f h : A -> list B) (l : list A) :
  (forall a, In a l -> f a = h a) -> flat_map f l = flat_map h l.
Proof.
  induction l as [|a l IH]; intro E; cbn; [reflexivity|].
  rewrite E by (left; reflexivity).
  now rewrite IH by (intros c Hc; apply E; right; exact Hc).
Qed.

Lemma localMatrix_dropCaches (o : Object3D) :
  localMatrix (dropCaches o) = localMatrix o.
Proof.
  destruct o as [nm k lo au m mw nu cs]. unfold localMatrix; cbn.
  destruct au; reflexivity.
Qed.

Lemma worldOf_dropCaches (pw : option Matrix4) (o : Object3D) :
  worldOf pw (dropCaches o) = worldOf pw o.
Proof. unfold worldOf. now rewrite localMatrix_dropCaches. Qed.

Lemma leafRecords_dropCaches (o : Object3D) :
  forall pw, leafRecords pw (dropCaches o) = leafRecords pw o.
Proof.
  induction o as [o IH] using Object3D_nested_ind; intro pw.
  rewrite !leafRecords_unfold, worldOf_dropCaches.
  assert (K : kind (dropCaches o) = kind o) by (destruct o; reflexivity).
  assert (N : name (dropCaches o) = name o) by (destruct o; reflexivity).
  assert (C : children (dropCaches o) = map dropCaches (children o))
    by (destruct o; reflexivity).
  rewrite K, N, C. f_equal.
  rewrite flat_map_map. apply flat_map_ext_In.
  intros c Hc. rewrite Forall_forall in IH. now apply IH.
Qed.

Lemma height_dropCaches (o : Object3D) : height (dropCaches o) = height o.
Proof.
  induction o as [o IH] using Object3D_nested_ind.
  destruct o as [nm k lo au m mw nu cs]; cbn in *. f_equal.
  induction cs as [|c cs IHcs]; cbn; [reflexivity|].
  inversion IH; subst. rewrite H1, IHcs; auto.
Qed.

Lemma dropCaches_updateMatrixWorld (o : Object3D) :
  forall pw force, dropCaches (updateMatrixWorld pw force o) = dropCaches o.
Proof.
  induction o as [o IH] using Object3D_nested_ind; intros pw force.
  destruct o as [nm k lo au m mw nu cs]; cbn in *.
  f_equal.
  - destruct au; reflexivity.
  - rewrite map_map. apply map_ext_in. intros c Hc.
    rewrite Forall_forall in IH. now apply IH.
Qed.

Lemma sampled_run (leaves : list LeafRecord) (st' : State) :
  foldM collectLeaf leaves ([], []) = Ok st' ->
  Forall2 sampled leaves (fst st').
Proof.
  intro H. change leaves with ([] ++ leaves).
  eapply (foldM_invariant collectLeaf
            (fun pre st => Forall2 sampled pre (fst st))); [| |exact H].
  - intros pre leaf [comps mats] st1 HI Hrun. cbn [fst] in *.
    apply collectLeaf_Ok in Hrun.
    destruct Hrun as [c [ps [mats' [-> [Hp [_ [Hv [Ht [Hn _]]]]]]]]].
    cbn [fst]. apply Forall2_app; [exact HI|].
    constructor; [|constructor].
    exists ps. repeat split; auto.
    intro T. now rewrite Hn, T.
  - constructor.
Qed.

Lemma ids_run (leaves : list LeafRecord) (st' : State) :
  foldM collectLeaf leaves ([], []) = Ok st' ->
  map ci_id (fst st')
  = map (fun k => (100 + Z.of_nat k)%Z) (seq 0 (length leaves)).
Proof.
  intro H.
  enough (G : length (fst st') = length leaves
              /\ map ci_id (fst st')
                 = map (fun k => (100 + Z.of_nat k)%Z) (seq 0 (length (fst st')))).
  { destruct G as [L G]. now rewrite G, L. }
  change leaves with ([] ++ leaves).
  eapply (foldM_invariant collectLeaf
            (fun pre st =>
               length (fst st) = length pre
               /\ map ci_id (fst st)
                  = map (fun k => (100 + Z.of_nat k)%Z) (seq 0 (length (fst st)))));
    [| |exact H].
  - intros pre leaf [comps mats] st1 [HL HI] Hrun. cbn [fst] in *.
    apply collectLeaf_Ok in Hrun.
    destruct Hrun as [c [ps [mats' [-> [_ [Hid _]]]]]].
    cbn [fst]. rewrite !length_app. cbn [length]. split; [lia|].
    rewrite Nat.add_1_r, seq_S, !map_app, HI. cbn [map]. now rewrite Hid.
  - split; reflexivity.
Qed.

(* ================================================================= *)
(** ** Degenerate leaves *)

Lemma div3_step (d : nat) : 1 <= d -> (d + 2) / 3 = S ((d - 3 + 2) / 3).
Proof.
  intro H. destruct (le_lt_dec 3 d) as [L|L].
  - replace (d + 2) with ((d - 3 + 2) + 1 * 3) by lia.
    rewrite Nat.div_add by lia. lia.
  - assert (d = 1 \/ d = 2) as [-> | ->] by lia; reflexivity.
Qed.

Lemma forBy3_length (fuel : nat) :
  forall i count, count - i <= fuel ->
    length (forBy3 fuel i count) = (count - i + 2) / 3.
Proof.
  induction fuel as [|fuel IH]; intros i count H; cbn [forBy3].
  - replace (count - i) with 0 by lia. reflexivity.
  - destruct (Nat.ltb_spec i count).
    + cbn [length]. rewrite IH by lia. rewrite (@div3_step (count - i)) by lia.
      do 3 f_equal. lia.
    + replace (count - i) with 0 by lia. reflexivity.
Qed.

Lemma steps3_length (count : nat) : length (steps3 count) = (count + 2) / 3.
Proof.
  unfold steps3. rewrite forBy3_length by lia. now rewrite Nat.sub_0_r.
Qed.

Lemma components_run (leaves : list LeafRecord) (st' : State) :
  foldM collectLeaf leaves ([], []) = Ok st' ->
  length (fst st') = length leaves.
Proof.
  intro H. apply ids_run in H. apply (f_equal (@length Z)) in H.
  now rewrite !length_map, length_seq in H.
Qed.

(* ================================================================= *)
(** ** The default colour *)

(** The colours of the model against [Color.set]: for an engine whose
    [Math.pow] returns these doubles at these arguments, the default gray
    is what [set(0x808080)] stores and the sample orange is what
    [setStyle('#FFA500')] stores. *)

Lemma defaultGray_is_set (pow : float -> float -> float) :
  pow 0.5279249140305882%float 2.4%float = 0.21586050010324417%float ->
  Color_set pow 0x808080 = defaultGray.
Proof.
  intro H.
  assert (E : Color_set pow 0x808080
              = let v := pow 0.5279249140305882%float 2.4%float in
                mkColor v v v) by (vm_compute; reflexivity).
  rewrite E. cbv zeta. rewrite H. reflexivity.
Qed.

Lemma styleOrange_is_setStyle (pow : float -> float -> float) :
  pow 1%float 2.4%float = 1%float ->
  pow 0.6654586004941176%float 2.4%float = 0.37626212298046485%float ->
  Color_set pow 0xFFA500 = Sample.styleOrange.
Proof.
  intros H1 H2.
  assert (E : Color_set pow 0xFFA500
              = mkColor (pow 1%float 2.4%float)
                        (pow 0.6654586004941176%float 2.4%float) 0)
    by (vm_compute; reflexivity).
  rewrite E, H1, H2. reflexivity.
Qed.

(** The stand-in of the samples meets both. *)
Example sample_pow :
  Color_set Sample.pow 0x808080 = defaultGray
  /\ Color_set Sample.pow 0xFFA500 = Sample.styleOrange.
Proof.
  split; [apply defaultGray_is_set | apply styleOrange_is_setStyle];
    vm_compute; reflexivity.
Qed.

(* ================================================================= *)
(** ** The archive *)

Import Package.

Lemma zip_built (c1 c2 c3 c4 c5 c6 c7 : content) :
  let zip :=
    file "Metadata/project_settings.config" c7
      (file "Metadata/model_settings.config" c6
         (file "3D/Objects/object-97.model" c5
            (file "3D/_rels/3dmodel.model.rels" c4
               (file "3D/3dmodel.model" c3
                  (file "_rels/.rels" c2
                     (file "[Content_Types].xml" c1 [])))))) in
  zip = [("[Content_Types].xml", c1); ("_rels/.rels", c2);
         ("3D/3dmodel.model", c3); ("3D/_rels/3dmodel.model.rels", c4);
         ("3D/Objects/object-97.model", c5);
         ("Metadata/model_settings.config", c6);
         ("Metadata/project_settings.config", c7)]%string.
Proof. reflexivity. Qed.

(** What [exportTo3MF] returns, in terms of the run over the leaves. *)
Lemma exportTo3MF_outcome (env : Env) (pw : option Matrix4) (o : Object3D) :
  match exportTo3MF env pw o with
  | Ok (o', zip) =>
      exists components materials,
        foldM collectLeaf (leafRecords pw o) ([], []) = Ok (components, materials)
        /\ o' = updateMatrixWorld pw true o
        /\ zip = [("[Content_Types].xml", contentTypesXML);
                  ("_rels/.rels", relationshipsXML);
                  ("3D/3dmodel.model", createMainModelXML env components);
                  ("3D/_rels/3dmodel.model.rels", objectRelationshipsXML);
                  ("3D/Objects/object-97.model",
                   createObjectModelXML env 3 components);
                  ("Metadata/model_settings.config",
                   createModelSettingsXML components);
                  ("Metadata/project_settings.config",
                   createProjectSettingsConfig materials)]%string
  | Throw _ =>
      exists leaf, In leaf (leafRecords pw o)
                   /\ position (lr_geometry leaf) = None
  | OutOfFuel => False
  end.
Proof.
  unfold exportTo3MF.
  pose proof (collect_outcome pw o ([], [])) as H.
  destruct (collectComponents (height o) pw o ([], []))
    as [[o' [components materials]]|e|]; cbn [bind].
  - destruct H as [-> Hrun]. exists components, materials.
    split; [exact Hrun|]. split; [reflexivity|]. apply zip_built.
  - pose proof (foldM_collectLeaf_outcome (leafRecords pw o) ([], [])) as T.
    rewrite H in T. exact T.
  - exact H.
Qed.

(* ================================================================= *)
(** ** The project settings *)

Lemma foldM_invariant_on {A S} (P : A -> Prop) (f : A -> S -> outcome S)
    (I : list A -> S -> Prop) :
  (forall pre a st st', P a -> I pre st -> f a st = Ok st' -> I (pre ++ [a]) st') ->
  forall l pre st st',
    Forall P l -> I pre st -> foldM f l st = Ok st' -> I (pre ++ l) st'.
Proof.
  intros Hstep l; induction l as [|a l IH]; intros pre st st' HP HI Hrun.
  - cbn in Hrun. injection Hrun as <-. now rewrite app_nil_r.
  - cbn [foldM] in Hrun. destruct (f a st) as [s1| |] eqn:E; try discriminate.
    cbn [bind] in Hrun. inversion HP; subst.
    replace (pre ++ a :: l) with ((pre ++ [a]) ++ l)
      by (rewrite <- app_assoc; reflexivity).
    eapply IH; [assumption| |exact Hrun]. eapply Hstep; eassumption.
Qed.

Lemma padColors_fill (colors : list string) :
  padColors 2 colors = colors ++ repeat "#FFFFFF"%string (2 - length colors).
Proof.
  destruct colors as [|c1 [|c2 colors]]; cbn; try reflexivity.
  now rewrite app_nil_r.
Qed.

(** A scene of one colour has a table of one entry. *)
Lemma single_colour_run (c : Color) (leaves : list LeafRecord) (st' : State) :
  sameColor c c = true ->
  Forall (fun leaf => lr_material leaf = Some (WithColor c)) leaves ->
  leaves <> [] ->
  foldM collectLeaf leaves ([], []) = Ok st' ->
  exists m, snd st' = [m] /\ mi_color m = c.
Proof.
  intros Hc Hall Hne Hrun.
  set (P := fun leaf => lr_material leaf = Some (WithColor c)) in *.
  set (I := fun (pre : list LeafRecord) (st : State) =>
              (pre = [] /\ snd st = [])
              \/ exists m, snd st = [m] /\ mi_color m = c).
  assert (Hstep : forall pre a st st1,
            P a -> I pre st -> collectLeaf a st = Ok st1 -> I (pre ++ [a]) st1).
  { intros pre leaf [comps mats] st1 Hm HI Hs. unfold P, I in *.
    cbn [snd] in *.
    apply collectLeaf_Ok in Hs.
    destruct Hs as [c0 [ps [mats' [-> [_ [_ [_ [_ [_ Hr]]]]]]]]].
    rewrite Hm in Hr. cbn [materialColor snd] in *.
    destruct Hr as [mi [Hr _]]. right.
    unfold registerMaterial in Hr.
    destruct HI as [[_ ->]|[m [-> Hm0]]].
    - cbn [find] in Hr. injection Hr as <- <-. eexists; split; reflexivity.
    - cbn [find] in Hr. rewrite Hm0, Hc in Hr. injection Hr as <- <-.
      exists m. split; [reflexivity | exact Hm0]. }
  assert (G : I ([] ++ leaves) st').
  { apply (@foldM_invariant_on _ _ P collectLeaf I Hstep leaves [] ([], []) st'
             Hall).
    - left; split; reflexivity.
    - exact Hrun. }
  unfold I in G. cbn [app] in G.
  destruct G as [[E _]|G]; [contradiction | exact G].
Qed.

(* ================================================================= *)
(** ** The empty scene *)


(* ================================================================= *)
(** ** The merged exporter *)

Lemma foldM_processNode (l : list Object3D) :
  forall st,
    foldM Merged.processNode l st = foldM processLeaf (flat_map leafOfNode l) st.
Proof.
  induction l as [|o l IH]; intro st; [reflexivity|].
  cbn [foldM flat_map]. rewrite foldM_app.
  unfold Merged.processNode at 1, leafOfNode at 1.
  destruct (kind o) as [geo mat|]; cbn [foldM bind].
  - unfold processLeaf at 1; cbn [lr_name lr_world lr_geometry lr_material].
    destruct (Merged.processMesh (name o) (matrixWorld o) geo mat st);
      cbn [bind]; auto.
  - apply IH.
Qed.

Lemma processObject_leaves (fuel : nat) (pw : option Matrix4) (o : Object3D)
    (st : Merged.State) :
  height o <= fuel ->
  Merged.processObject fuel pw o st =
  (st' <- foldM processLeaf (leafRecords pw o) st ;;
   Ok (updateMatrixWorld pw true o, st')).
Proof.
  intro H. rewrite processObject_traverse, traverse_run by exact H.
  rewrite foldM_processNode, leafRecords_preorder. reflexivity.
Qed.

Lemma processLeaf_outcome (leaf : LeafRecord) (st : Merged.State) :
  match processLeaf leaf st with
  | Ok st' =>
      exists ps pid,
        position (lr_geometry leaf) = Some ps
        /\ fst (fst st')
           = fst (fst st) ++ map (fun v => applyMatrix4 v (lr_world leaf)) ps
        /\ snd (fst st')
           = snd (fst st)
             ++ Merged.meshTriangles (len (fst (fst st)))
                  (index (lr_geometry leaf)) (length ps) pid
  | Throw _ => position (lr_geometry leaf) = None
  | OutOfFuel => False
  end.
Proof.
  unfold processLeaf, Merged.processMesh. destruct st as [[vs ts] ms].
  destruct (lr_material leaf);
    [destruct (Merged.registerMaterial _ _ _) as [i ms1]|];
    destruct (position (lr_geometry leaf)) as [ps|]; cbn [fst snd];
    try reflexivity; eexists; eexists; repeat split; reflexivity.
Qed.

Lemma foldM_processLeaf_outcome (l : list LeafRecord) :
  forall st,
    match foldM processLeaf l st with
    | Ok _ => True
    | Throw _ => exists leaf, In leaf l /\ position (lr_geometry leaf) = None
    | OutOfFuel => False
    end.
Proof.
  induction l as [|leaf l IH]; intro st; cbn [foldM]; [exact I|].
  pose proof (processLeaf_outcome leaf st) as H1.
  destruct (processLeaf leaf st) as [s1| |]; cbn [bind]; try contradiction.
  - specialize (IH s1). destruct (foldM processLeaf l s1); try contradiction.
    + exact I.
    + destruct IH as [lf [Hin Hp]]. exists lf. split; [right|]; assumption.
  - exists leaf. split; [left; reflexivity | assumption].
Qed.

Lemma forBy3_In (fuel : nat) :
  forall s count i, In i (forBy3 fuel s count) ->
    i < count /\ exists k, i = s + 3 * k.
Proof.
  induction fuel as [|fuel IH]; intros s count i H; cbn [forBy3] in H;
    [contradiction|].
  destruct (Nat.ltb_spec s count) as [L|L]; [|contradiction].
  destruct H as [<-|H].
  - split; [exact L|]. exists 0. lia.
  - apply IH in H. destruct H as [H1 [k ->]]. split; [exact H1|].
    exists (S k). lia.
Qed.

Lemma steps3_whole (count i : nat) :
  count mod 3 = 0 -> In i (steps3 count) -> i + 2 < count.
Proof.
  intros M H. apply forBy3_In in H. destruct H as [L [k ->]].
  apply Nat.Div0.div_exact in M. lia.
Qed.

Lemma get_in_range (a : list Z) (i total : nat) :
  Forall (fun n => (0 <= n < Z.of_nat total)%Z) a -> i < length a ->
  exists n, get a i = Num n /\ (0 <= n < Z.of_nat total)%Z.
Proof.
  intros F L. unfold get.
  destruct (nth_error a i) as [n|] eqn:E.
  - exists n. split; [reflexivity|].
    rewrite Forall_forall in F. apply F. eapply nth_error_In; eassumption.
  - apply nth_error_None in E. lia.
Qed.

Lemma rebase_valid (before count : nat) (v : value) :
  validIndex count (add 0 v) ->
  validIndex (before + count) (add (Z.of_nat before) v).
Proof. destruct v; cbn; try contradiction. lia. Qed.

(** Re-basing keeps validity: the triangles of a leaf whose indices are
    valid for the leaf, re-based by the number of vertices before it, are
    valid for the vertices up to and including its own. *)
Lemma meshTriangles_valid (before : nat) (leaf : LeafRecord) (ps : list Vector3)
    (pid : option Z) :
  position (lr_geometry leaf) = Some ps ->
  leafValid leaf ->
  Forall (validTriangle (before + length ps))
         (Merged.meshTriangles (Z.of_nat before) (index (lr_geometry leaf))
                               (length ps) pid).
Proof.
  intros P V. unfold leafValid, leafTriangles, vertexCount in V.
  rewrite P in V. unfold Merged.meshTriangles in *.
  destruct (index (lr_geometry leaf)) as [idx|];
    rewrite Forall_map in *; (eapply Forall_impl; [|exact V]);
    intros i [H1 [H2 H3]]; unfold validTriangle;
    cbn [Merged.v1 Merged.v2 Merged.v3] in *.
  - repeat split; apply rebase_valid; assumption.
  - cbn [validIndex] in *. lia.
Qed.

(** A leaf with whole triangles and an index stream in range is valid. *)
Lemma whole_in_range_valid (leaf : LeafRecord) :
  position (lr_geometry leaf) <> None ->
  indicesInRange leaf -> wholeTriangles leaf -> leafValid leaf.
Proof.
  intros P R W.
  unfold leafValid, leafTriangles, indicesInRange, wholeTriangles,
    streamLength, vertexCount in *.
  destruct (position (lr_geometry leaf)) as [ps|]; [|congruence].
  unfold Merged.meshTriangles.
  destruct (index (lr_geometry leaf)) as [idx|];
    apply Forall_forall; intros t Ht; apply in_map_iff in Ht;
    destruct Ht as [i [<- Hi]]; apply (@steps3_whole _ _ W) in Hi;
    unfold validTriangle; cbn [Merged.v1 Merged.v2 Merged.v3].
  - destruct (@get_in_range idx i (length ps) R) as [n1 [-> H1]]; [lia|].
    destruct (@get_in_range idx (i + 1) (length ps) R) as [n2 [-> H2]]; [lia|].
    destruct (@get_in_range idx (i + 2) (length ps) R) as [n3 [-> H3]]; [lia|].
    cbn [add validIndex]. lia.
  - cbn [validIndex]. lia.
Qed.

Lemma validTriangle_grow (total total' : nat) (t : Merged.Triangle) :
  total <= total' -> validTriangle total t -> validTriangle total' t.
Proof.
  intros L [H1 [H2 H3]]. unfold validTriangle, validIndex in *.
  destruct (Merged.v1 t), (Merged.v2 t), (Merged.v3 t); try contradiction.
  lia.
Qed.

(** The invariant of a run of the merged exporter. *)
Lemma merged_run (leaves : list LeafRecord) (st' : Merged.State) :
  foldM processLeaf leaves ([], [], []) = Ok st' ->
  fst (fst st') = flat_map worldVertices leaves
  /\ length (fst (fst st')) = list_sum (map vertexCount leaves)
  /\ (Forall leafValid leaves ->
      Forall (validTriangle (length (fst (fst st')))) (snd (fst st'))).
Proof.
  intro H. change leaves with ([] ++ leaves).
  eapply (foldM_invariant processLeaf
            (fun pre st =>
               fst (fst st) = flat_map worldVertices pre
               /\ length (fst (fst st)) = list_sum (map vertexCount pre)
               /\ (Forall leafValid pre ->
                   Forall (validTriangle (length (fst (fst st))))
                          (snd (fst st)))));
    [| |exact H].
  - intros pre leaf st st1 [HW [HL HV]] Hstep.
    pose proof (processLeaf_outcome leaf st) as O. rewrite Hstep in O.
    destruct O as [ps [pid [P [Ev Et]]]].
    rewrite Ev, Et, length_app, length_map. split; [|split].
    + assert (C : worldVertices leaf
                  = map (fun v => applyMatrix4 v (lr_world leaf)) ps)
        by (unfold worldVertices; now rewrite P).
      rewrite flat_map_app, HW. cbn [flat_map]. now rewrite C, app_nil_r.
    + assert (C : vertexCount leaf = length ps)
        by (unfold vertexCount; now rewrite P).
      rewrite map_app, list_sum_app, HL. unfold list_sum at 3.
      cbn [map fold_right]. lia.
    + intros V. apply Forall_app in V. destruct V as [V1 V2].
      inversion V2; subst.
      apply Forall_app. split.
      * eapply Forall_impl; [|apply HV; assumption].
        intros t. apply validTriangle_grow. lia.
      * unfold len. apply meshTriangles_valid; assumption.
  - split; [reflexivity|]. split; [reflexivity|]. intros _. constructor.
Qed.

(** The loop reads a stream in groups of three, and the merged exporter
    moves every group by the vertex offset of its leaf. *)

Lemma forBy3_seq (fuel : nat) :
  forall i count, count - i <= fuel ->
    forBy3 fuel i count
    = map (fun k => i + 3 * k) (seq 0 ((count - i + 2) / 3)).
Proof.
  induction fuel as [|fuel IH]; intros i count H; cbn [forBy3].
  - replace (count - i) with 0 by lia. reflexivity.
  - destruct (Nat.ltb_spec i count).
    + rewrite IH by lia. rewrite (@div3_step (count - i)) by lia.
      replace (count - (i + 3)) with (count - i - 3) by lia.
      cbn [seq map]. f_equal; [lia|].
      rewrite <- seq_shift, map_map. apply map_ext. intro k. lia.
    + replace (count - i) with 0 by lia. reflexivity.
Qed.

Lemma steps3_seq (count : nat) :
  steps3 count = map (fun k => 3 * k) (seq 0 ((count + 2) / 3)).
Proof.
  unfold steps3. rewrite forBy3_seq by lia. now rewrite Nat.sub_0_r.
Qed.

Lemma triples_groups (n : nat) :
  forall stream, length stream <= n ->
    map (fun k => (get stream (3 * k), get stream (3 * k + 1),
                   get stream (3 * k + 2)))
        (seq 0 ((length stream + 2) / 3))
    = triples stream.
Proof.
  induction n as [|n IH]; intros stream H.
  - destruct stream; [reflexivity | cbn in H; lia].
  - destruct stream as [|a [|c [|d rest]]]; try reflexivity.
    cbn [length] in *.
    replace (S (S (S (length rest))) + 2) with (length rest + 2 + 1 * 3) by lia.
    rewrite Nat.div_add by lia. rewrite Nat.add_1_r.
    cbn [seq map triples]. f_equal.
    rewrite <- seq_shift, map_map. rewrite <- (IH rest) by lia.
    apply map_ext. intro k.
    replace (3 * S k) with (S (S (S (3 * k)))) by lia.
    reflexivity.
Qed.

Lemma add_moved (offset : nat) (v : value) :
  add (Z.of_nat offset) v = moved offset v.
Proof. destruct v; reflexivity. Qed.

Lemma meshTriangles_ownTriples (offset : nat) (leaf : LeafRecord)
    (ps : list Vector3) (pid : option Z) :
  position (lr_geometry leaf) = Some ps ->
  map indicesOf
      (Merged.meshTriangles (Z.of_nat offset) (index (lr_geometry leaf))
                            (length ps) pid)
  = map (fun '(a, c, d) => (moved offset a, moved offset c, moved offset d))
        (ownTriples leaf).
Proof.
  intro P. unfold Merged.meshTriangles, ownTriples, vertexCount. rewrite P.
  destruct (index (lr_geometry leaf)) as [indexAttr|].
  - rewrite <- (@triples_groups (length indexAttr) indexAttr (Nat.le_refl _)).
    rewrite steps3_seq, !map_map. apply map_ext. intro k.
    unfold indicesOf. cbn [Merged.v1 Merged.v2 Merged.v3].
    now rewrite !add_moved.
  - rewrite steps3_seq, !map_map. apply map_ext. intro k.
    unfold indicesOf, moved. cbn [Merged.v1 Merged.v2 Merged.v3].
    apply f_equal2; [apply f_equal2|]; apply f_equal; lia.
Qed.

Lemma rebased_run (leaves : list LeafRecord) :
  forall st st',
    foldM processLeaf leaves st = Ok st' ->
    map indicesOf (snd (fst st'))
    = map indicesOf (snd (fst st))
      ++ rebasedTriples (length (fst (fst st))) leaves.
Proof.
  induction leaves as [|leaf leaves IH]; intros st st' H.
  - cbn in H. injection H as <-. cbn [rebasedTriples]. now rewrite app_nil_r.
  - cbn [foldM] in H.
    pose proof (processLeaf_outcome leaf st) as O.
    destruct (processLeaf leaf st) as [s1| |]; cbn [bind] in H;
      try discriminate.
    destruct O as [ps [pid [P [Ev Et]]]].
    rewrite (IH _ _ H), Ev, Et, map_app, length_app, length_map.
    unfold len. rewrite (meshTriangles_ownTriples _ _ pid P).
    cbn [rebasedTriples].
    assert (C : vertexCount leaf = length ps)
      by (unfold vertexCount; now rewrite P).
    now rewrite C, <- app_assoc.
Qed.

(* ================================================================= *)
(** ** Written coordinates *)

Lemma splitAt_app (k : nat) :
  forall s a c, splitAt k s = (a, c) ->
    (a ++ c)%string = s /\ String.length c = String.length s - k.
Proof.
  induction k as [|k IH]; intros s a c H.
  - cbn in H. injection H as <- <-. split; [reflexivity|].
    now rewrite Nat.sub_0_r.
  - destruct s as [|ch s]; cbn in H.
    + injection H as <- <-. split; reflexivity.
    + destruct (splitAt k s) as [a' c'] eqn:E. injection H as <- <-.
      destruct (IH _ _ _ E) as [H1 H2]. cbn. rewrite H1. auto.
Qed.

Lemma zeros_succ (j : nat) :
  String.concat "" (repeat "0"%string (S j))
  = String "0" (String.concat "" (repeat "0"%string j)).
Proof. destruct j; reflexivity. Qed.

Lemma string_length_app (s t : string) :
  String.length (s ++ t) = String.length s + String.length t.
Proof. induction s as [|c s IH]; cbn; [reflexivity | now rewrite IH]. Qed.

Lemma zeros_length (j : nat) :
  String.length (String.concat "" (repeat "0"%string j)) = j.
Proof.
  induction j as [|j IH]; [reflexivity|].
  rewrite zeros_succ. cbn [String.length]. now rewrite IH.
Qed.

Lemma padStart0_length (n : nat) (s : string) :
  n <= String.length (padStart0 n s).
Proof.
  unfold padStart0. rewrite string_length_app, zeros_length. lia.
Qed.

(** Leading zeros do not change what a digit string reads as. *)
Lemma uint_of_padded (j : nat) (s : string) (d : Decimal.uint) :
  DecimalString.NilEmpty.uint_of_string s = Some d ->
  exists d',
    DecimalString.NilEmpty.uint_of_string
      (String.concat "" (repeat "0"%string j) ++ s) = Some d'
    /\ N.of_uint d' = N.of_uint d.
Proof.
  intro H. induction j as [|j [d' [H1 H2]]].
  - exists d. split; [exact H | reflexivity].
  - exists (Decimal.D0 d'). rewrite zeros_succ. cbn.
    rewrite H1. split; [reflexivity | exact H2].
Qed.

Lemma digit_is_no_point (c : ascii) (o : option Decimal.uint) (d : Decimal.uint) :
  DecimalString.uint_of_char c o = Some d ->
  Ascii.eqb c "." = false /\ Ascii.eqb c "-" = false
  /\ exists d', o = Some d'.
Proof.
  intro H. destruct o as [d'|]; [|discriminate].
  repeat split; [| |exists d'; reflexivity].
  - destruct (Ascii.eqb_spec c "."); [subst; discriminate | reflexivity].
  - destruct (Ascii.eqb_spec c "-"); [subst; discriminate | reflexivity].
Qed.

Lemma splitAtDot_digits (a c : string) (d : Decimal.uint) :
  DecimalString.NilEmpty.uint_of_string (a ++ c) = Some d ->
  splitAtDot (a ++ String "." c) = Some (a, c).
Proof.
  revert d. induction a as [|ch a IH]; intros d H; [reflexivity|].
  cbn in H. apply digit_is_no_point in H. destruct H as [H1 [_ [d' H3]]].
  cbn. rewrite H1. now rewrite (IH _ H3).
Qed.

Lemma first_is_no_minus (a c : string) (d : Decimal.uint) :
  DecimalString.NilEmpty.uint_of_string (a ++ c) = Some d ->
  match (a ++ String "." c)%string with
  | String ch rest => Ascii.eqb ch "-" = false
  | EmptyString => True
  end.
Proof.
  destruct a as [|ch a]; intro H; [reflexivity|].
  cbn in H. apply digit_is_no_point in H. cbn. tauto.
Qed.

(** The digits [toFixed] writes read back as the integer they were made
    from, with [f] decimals. *)
Lemma readFixed_fixedDigits (f : nat) (n : Z) (negative : bool) :
  (0 <= n)%Z ->
  readFixed ((if negative then "-" else "") ++ fixedDigits f n)
  = Some (if negative then (- n)%Z else n, f).
Proof.
  intro Hn. unfold fixedDigits.
  set (digits := DecimalString.NilZero.string_of_uint (N.to_uint (Z.to_N n))).
  set (m := padStart0 (f + 1) digits).
  destruct (splitAt (String.length m - f) m) as [a c] eqn:E.
  apply splitAt_app in E. destruct E as [Eac Elen].
  pose proof (padStart0_length (f + 1) digits) as Hlen. fold m in Hlen.
  assert (Hc : String.length c = f) by lia.
  assert (Hd : DecimalString.NilEmpty.uint_of_string digits
               = Some (N.to_uint (Z.to_N n))).
  { unfold digits, DecimalString.NilZero.string_of_uint.
    destruct (N.to_uint (Z.to_N n)) eqn:D;
      try (rewrite <- D; apply DecimalString.NilEmpty.usu).
    exfalso. revert D. unfold N.to_uint.
    destruct (Z.to_N n); [discriminate|]. apply DecimalPos.Unsigned.to_uint_nonnil. }
  destruct (@uint_of_padded (f + 1 - String.length digits) _ _ Hd)
    as [d' [P1 P2]].
  fold (padStart0 (f + 1) digits) in P1. fold m in P1. rewrite <- Eac in P1.
  rewrite DecimalN.Unsigned.of_to in P2.
  assert (R : forall body,
            body = (a ++ String "." c)%string ->
            match splitAtDot body with
            | Some (a0, b0) =>
                match DecimalString.NilEmpty.uint_of_string (a0 ++ b0) with
                | Some d0 =>
                    Some (if negative then (- Z.of_N (N.of_uint d0))%Z
                          else Z.of_N (N.of_uint d0), String.length b0)
                | None => None
                end
            | None => None
            end = Some (if negative then (- n)%Z else n, f)).
  { intros body ->. rewrite (@splitAtDot_digits _ _ _ P1), P1, P2, Hc.
    now rewrite Z2N.id by exact Hn. }
  unfold readFixed. destruct negative.
  - cbn [append]. rewrite Ascii.eqb_refl. now apply R.
  - cbn [append]. pose proof (@first_is_no_minus _ _ _ P1) as F.
    change (a ++ "." ++ c)%string with (a ++ String "." c)%string.
    destruct (a ++ String "." c)%string as [|ch rest] eqn:B.
    + destruct a; discriminate.
    + rewrite F. rewrite <- B. now apply R.
Qed.

Lemma nearestFixed_nonneg (f : nat) (m : positive) (e : Z) :
  (0 <= nearestFixed f m e)%Z.
Proof.
  unfold nearestFixed. destruct (Z.leb_spec 0 e) as [L|L].
  - apply Z.mul_nonneg_nonneg; [apply Z.mul_nonneg_nonneg|]; try lia;
      apply Z.pow_nonneg; lia.
  - apply Z.div_pos.
    + assert (0 < 10 ^ Z.of_nat f)%Z by (apply Z.pow_pos_nonneg; lia).
      assert (0 < 2 ^ (- e))%Z by (apply Z.pow_pos_nonneg; lia). nia.
    + apply Z.pow_pos_nonneg; lia.
Qed.

(** For a negative exponent [- k] the integer chosen is within half a unit
    of [m * 10^f / 2^k]. *)
Lemma nearestFixed_close (f : nat) (m : positive) (e : Z) :
  (e < 0)%Z ->
  let n := nearestFixed f m e in
  (- 2 ^ (- e) <= 2 * (n * 2 ^ (- e) - Z.pos m * 10 ^ Z.of_nat f) <= 2 ^ (- e))%Z.
Proof.
  intros L n. unfold n, nearestFixed.
  destruct (Z.leb_spec 0 e) as [L'|_]; [lia|].
  replace (2 ^ (- e + 1))%Z with (2 * 2 ^ (- e))%Z
    by (rewrite Z.pow_add_r by lia; lia).
  set (P := (2 ^ (- e))%Z). set (T := (10 ^ Z.of_nat f)%Z).
  assert (HP : (0 < P)%Z) by (apply Z.pow_pos_nonneg; lia).
  pose proof (Z.div_mod (2 * Z.pos m * T + P) (2 * P) ltac:(lia)) as D.
  pose proof (Z.mod_pos_bound (2 * Z.pos m * T + P) (2 * P) ltac:(lia)) as B.
  set (q := ((2 * Z.pos m * T + P) / (2 * P))%Z) in *.
  set (r := ((2 * Z.pos m * T + P) mod (2 * P))%Z) in *.
  nia.
Qed.

Lemma decimal_bounds (n v P T : Z) (f : nat) :
  (0 < P)%Z -> T = (10 ^ Z.of_nat f)%Z ->
  (- P <= 2 * (n * P - v * T) <= P)%Z ->
  (Qmake v (Z.to_pos P) - halfUnit f <= decimal n f)%Q
  /\ (decimal n f <= Qmake v (Z.to_pos P) + halfUnit f)%Q.
Proof.
  intros HP -> H.
  assert (HT : (0 < 10 ^ Z.of_nat f)%Z) by (apply Z.pow_pos_nonneg; lia).
  unfold Qminus. unfold Qle, Qplus, Qopp, decimal, halfUnit.
  cbn [Qnum Qden]. rewrite !Pos2Z.inj_mul, !Z2Pos.id by lia.
  set (T := (10 ^ Z.of_nat f)%Z) in *.
  destruct H as [H1 H2].
  assert (A1 : (- P * T <= 2 * (n * P - v * T) * T)%Z)
    by (apply Z.mul_le_mono_nonneg_r; lia).
  assert (A2 : (2 * (n * P - v * T) * T <= P * T)%Z)
    by (apply Z.mul_le_mono_nonneg_r; lia).
  split; lia.
Qed.

(** A finite double below [10^21] in magnitude is written by [toFixed] as
    a fixed-point decimal with [f] decimals that is within half a unit of
    the last decimal of the double. *)
Lemma toFixed_read_back (nts : float -> string) (f : nat) (x : float) (q : Q) :
  valueOf x = Some q -> below1e21 x = true ->
  exists n,
    readFixed (toFixed nts f x) = Some (n, f)
    /\ (q - halfUnit f <= decimal n f)%Q
    /\ (decimal n f <= q + halfUnit f)%Q.
Proof.
  unfold valueOf, below1e21, toFixed.
  set (T := (10 ^ Z.of_nat f)%Z).
  assert (HT : (0 < T)%Z) by (apply Z.pow_pos_nonneg; lia).
  destruct (Prim2SF x) as [s|s| |s m e]; try discriminate.
  - intros E _. injection E as <-. exists 0%Z.
    split; [exact (@readFixed_fixedDigits f 0 false (Z.le_refl 0))|].
    apply (@decimal_bounds 0 0 1 T f); [lia | reflexivity | lia].
  - intros E B. injection E as <-.
    apply negb_true_iff in B. rewrite B.
    pose proof (nearestFixed_nonneg f m e) as N0.
    exists (if s then (- nearestFixed f m e)%Z else nearestFixed f m e).
    split; [exact (@readFixed_fixedDigits f _ s N0)|].
    destruct (Z.leb_spec 0 e) as [L|L].
    + assert (HP : (0 < 2 ^ e)%Z) by (apply Z.pow_pos_nonneg; lia).
      unfold nearestFixed. destruct (Z.leb_spec 0 e) as [_|L']; [|lia].
      fold T. unfold inject_Z.
      destruct s.
      * apply (@decimal_bounds _ (Z.neg m * 2 ^ e) 1 T f);
          [lia | reflexivity | lia].
      * apply (@decimal_bounds _ (Z.pos m * 2 ^ e) 1 T f);
          [lia | reflexivity | lia].
    + pose proof (@nearestFixed_close f m e L) as C. cbv zeta in C. fold T in C.
      assert (HP : (0 < 2 ^ (- e))%Z) by (apply Z.pow_pos_nonneg; lia).
      destruct s.
      * apply (@decimal_bounds _ (Z.neg m) (2 ^ (- e)) T f);
          [lia | reflexivity | lia].
      * apply (@decimal_bounds _ (Z.pos m) (2 ^ (- e)) T f);
          [lia | reflexivity | lia].
Qed.

Lemma vertexElements_vertices (nts : float -> string) (vs : list Vector3) :
  flat_map vertexElements (map (vertexElement nts) vs)
  = map (vertexElement nts) vs.
Proof. induction vs as [|v vs IH]; cbn; [reflexivity | now rewrite IH]. Qed.

Lemma vertexElements_triangles (ts : list Triangle) :
  flat_map vertexElements
    (map triangleElement ts) = [].
Proof. induction ts as [|t ts IH]; cbn; [reflexivity | exact IH]. Qed.

Lemma vertexElements_objects (env : Env) (firstUUID : nat)
    (components : list ComponentInfo) :
  forall start,
    flat_map vertexElements
      (map (fun object => Element "resources" [] [object])
         (map (fun '(k, component) =>
                 Element "object"
                   [("id"%string, AStr (toString (ci_id component)));
                    ("p:uuid"%string, AStr (generateUUID env (firstUUID + k)));
                    ("type"%string, AStr "model")]
                   [Element "mesh" []
                      [Element "vertices" []
                         (map (vertexElement (numberToString env))
                              (ci_vertices component));
                       Element "triangles" []
                         (map triangleElement
                              (ci_triangles component))]])
              (combine (seq start (length components)) components)))
    = flat_map (fun c => map (vertexElement (numberToString env)) (ci_vertices c))
               components.
Proof.
  induction components as [|c cs IH]; intro start; [reflexivity|].
  cbn [length seq combine map flat_map]. rewrite IH. f_equal.
  cbn [vertexElements String.eqb Ascii.eqb Bool.eqb flat_map].
  rewrite vertexElements_vertices, vertexElements_triangles.
  now rewrite !app_nil_r.
Qed.

(** The object model holds one [vertex] element for every vertex of every
    component, in order, with the coordinates written by [toFixed(7)]. *)
Lemma docVertices_objectModel (env : Env) (firstUUID : nat)
    (components : list ComponentInfo) :
  docVertices (createObjectModelXML env firstUUID components)
  = flat_map (fun c => map (vertexElement (numberToString env)) (ci_vertices c))
             components.
Proof.
  unfold createObjectModelXML, docVertices.
  cbn [vertexElements String.eqb Ascii.eqb Bool.eqb].
  apply (vertexElements_objects env firstUUID components 0).
Qed.

(* ================================================================= *)
(** ** The two registries agree *)

Lemma find_map {A B} (h : A -> B) (f : B -> bool) (l : list A) :
  find f (map h l) = option_map h (find (fun a => f (h a)) l).
Proof.
  induction l as [|a l IH]; cbn; [reflexivity|].
  destruct (f (h a)); [reflexivity | exact IH].
Qed.

Lemma registerMaterial_merged (nm : string) (c : Color) (mats : list MaterialInfo) :
  Merged.registerMaterial nm c (map withoutExtruder mats)
  = (mi_id (fst (registerMaterial nm c mats)),
     map withoutExtruder (snd (registerMaterial nm c mats))).
Proof.
  unfold Merged.registerMaterial, registerMaterial.
  rewrite find_map. cbn [withoutExtruder Merged.color].
  destruct (find (fun m => sameColor (mi_color m) c) mats) as [e|];
    cbn [option_map fst snd]; [reflexivity|].
  unfold len. rewrite length_map, map_app. reflexivity.
Qed.

Lemma meshTriangles_pids (offset : Z) (idx : option (list Z)) (count : nat)
    (pid : option Z) :
  map Merged.pid (Merged.meshTriangles offset idx count pid)
  = repeat pid (length (Merged.meshTriangles 0 idx count None)).
Proof.
  unfold Merged.meshTriangles. destruct idx as [idx|];
    rewrite map_map, !length_map; cbn [Merged.pid];
    induction (steps3 _) as [|i l IH]; cbn; congruence.
Qed.

Lemma combine_snoc {A B} (l : list A) (l' : list B) (a : A) (c : B) :
  length l' = length l ->
  combine (l ++ [a]) (l' ++ [c]) = combine l l' ++ [(a, c)].
Proof.
  revert l'. induction l as [|x l IH]; intros [|y l'] H; try discriminate.
  - reflexivity.
  - cbn. f_equal. apply IH. now injection H.
Qed.

Lemma pairLeaf_agrees (pre : list LeafRecord) (leaf : LeafRecord)
    (st st' : State * Merged.State) :
  merged_agrees pre st -> pairLeaf leaf st = Ok st' ->
  merged_agrees (pre ++ [leaf]) st'.
Proof.
  destruct st as [[comps mats] [[vs ts] ms]].
  intros [-> [HL HP]]. unfold pairLeaf. cbn [fst snd].
  destruct (collectLeaf leaf (comps, mats)) as [se| |] eqn:E1; try discriminate.
  cbn [bind].
  pose proof (processLeaf_outcome leaf (vs, ts, map withoutExtruder mats)) as O.
  destruct (processLeaf leaf (vs, ts, map withoutExtruder mats))
    as [sm| |] eqn:E2; try discriminate.
  cbn [bind]. intro H. injection H as <-.
  apply collectLeaf_Ok in E1.
  destruct E1 as [c [ps [mats' [-> [P [_ [_ [_ [_ Hm]]]]]]]]].
  destruct sm as [[vs' ts'] ms']. cbn [fst snd] in O.
  destruct O as [ps' [pid [P' [_ Et]]]].
  assert (ps' = ps) by congruence. subst ps'.
  (* the merged step, unfolded *)
  unfold processLeaf, Merged.processMesh in E2. rewrite P in E2.
  assert (Hpid : ms' = map withoutExtruder mats'
                 /\ ts' = ts ++ Merged.meshTriangles (len vs)
                                  (index (lr_geometry leaf)) (length ps)
                                  (option_map mi_id (ci_material c))).
  { destruct (lr_material leaf) as [m|].
    - destruct Hm as [mi [R ->]].
      rewrite registerMaterial_merged, R in E2. cbn [fst snd] in E2.
      injection E2 as _ <- <-. split; reflexivity.
    - destruct Hm as [-> ->]. injection E2 as _ <- <-. split; reflexivity. }
  destruct Hpid as [-> ->]. unfold merged_agrees.
  split; [reflexivity|]. split; [rewrite !length_app; cbn; lia|].
  rewrite combine_snoc by exact HL.
  rewrite map_app, flat_map_app, HP. f_equal.
  cbn [flat_map fst snd]. rewrite app_nil_r, meshTriangles_pids.
  unfold leafPids, leafTriangles, vertexCount. now rewrite P.
Qed.

Lemma paired_run (l : list LeafRecord) :
  forall se sm,
    match foldM collectLeaf l se, foldM processLeaf l sm with
    | Ok a, Ok c => foldM pairLeaf l (se, sm) = Ok (a, c)
    | Throw _, Throw _ => True
    | _, _ => False
    end.
Proof.
  induction l as [|leaf l IH]; intros se sm; cbn [foldM]; [reflexivity|].
  unfold pairLeaf at 1. cbn [fst snd].
  pose proof (collectLeaf_outcome leaf se) as O1.
  pose proof (processLeaf_outcome leaf sm) as O2.
  destruct (collectLeaf leaf se) as [se1| |]; [| |contradiction];
    (destruct (processLeaf leaf sm) as [sm1| |]; [| |contradiction]);
    cbn [bind].
  - (* both return *) apply IH.
  - (* only the merged exporter throws: impossible *)
    congruence.
  - (* only the package exporter throws: impossible *)
    destruct O2 as [ps [_ [P _]]]. congruence.
  - (* both throw *) exact I.
Qed.

(** The merged exporter registers what [3mf-exporter.ts] registers. *)
Lemma merged_registry (pw : option Matrix4) (o : Object3D) :
  match collectComponents (height o) pw o ([], []),
        Merged.processObject (height o) pw o ([], [], []) with
  | Ok (_, se), Ok (_, sm) => merged_agrees (leafRecords pw o) (se, sm)
  | Throw _, Throw _ => True
  | _, _ => False
  end.
Proof.
  rewrite collectComponents_leaves, processObject_leaves by apply Nat.le_refl.
  pose proof (paired_run (leafRecords pw o) ([], []) ([], [], [])) as H.
  destruct (foldM collectLeaf (leafRecords pw o) ([], [])) as [se| |];
    destruct (foldM processLeaf (leafRecords pw o) ([], [], [])) as [sm| |];
    cbn [bind]; try exact H.
  change (leafRecords pw o) with ([] ++ leafRecords pw o).
  eapply (foldM_invariant pairLeaf merged_agrees);
    [apply pairLeaf_agrees| |exact H].
  cbn. auto.
Qed.

Lemma process_outcome (pw : option Matrix4) (o : Object3D) (st : Merged.State) :
  match Merged.processObject (height o) pw o st with
  | Ok (o', st') =>
      o' = updateMatrixWorld pw true o
      /\ foldM processLeaf (leafRecords pw o) st = Ok st'
  | Throw e =>
      exists leaf, In leaf (leafRecords pw o)
                   /\ position (lr_geometry leaf) = None
  | OutOfFuel => False
  end.
Proof.
  rewrite processObject_leaves by apply Nat.le_refl.
  pose proof (foldM_processLeaf_outcome (leafRecords pw o) st) as H.
  destruct (foldM processLeaf (leafRecords pw o) st); cbn [bind]; auto.
Qed.

Lemma collect_throws (pw : option Matrix4) (o : Object3D) (st : State)
    (e : error) :
  collectComponents (height o) pw o st = Throw e ->
  exists leaf, In leaf (leafRecords pw o) /\ position (lr_geometry leaf) = None.
Proof.
  intro E. pose proof (collect_outcome pw o st) as H. rewrite E in H.
  pose proof (foldM_collectLeaf_outcome (leafRecords pw o) st) as T.
  now rewrite H in T.
Qed.

Lemma meshTriangles_length (offset : Z) (leaf : LeafRecord) (ps : list Vector3)
    (pid : option Z) :
  position (lr_geometry leaf) = Some ps ->
  length (Merged.meshTriangles offset (index (lr_geometry leaf)) (length ps) pid)
  = (streamLength (lr_geometry leaf) + 2) / 3.
Proof.
  intro P. unfold Merged.meshTriangles, streamLength. rewrite P.
  destruct (index (lr_geometry leaf)); now rewrite length_map, steps3_length.
Qed.

(* ================================================================= *)
(** ** The model at work *)

Example toFixed_tie_goes_up :
  toFixed (numberToString Sample.env) 7 0.00390625%float = "0.0039063"%string.
Proof. vm_compute. reflexivity. Qed.

Example toFixed_small_negative :
  toFixed (numberToString Sample.env) 7 (- (1 / 134217728))%float
  = "-0.0000000"%string.
Proof. vm_compute. reflexivity. Qed.

Example toFixed_negative_zero :
  toFixed (numberToString Sample.env) 6 (-0)%float = "0.000000"%string.
Proof. vm_compute. reflexivity. Qed.

Example round_half_to_larger :
  (Math_round 2.5%float, Math_round (-2.5)%float) = (RInt 3, RInt (-2)).
Proof. vm_compute. reflexivity. Qed.

(** A partial last group of an index stream: the builder writes the
    [triangle] element without the attributes that are [undefined]. *)
Example partial_group_element :
  map triangleElement (indexedTriangles [0; 1; 2; 3]%Z)
  = [Element "triangle" [("v1", ANum (Num 0)); ("v2", ANum (Num 1));
                         ("v3", ANum (Num 2))]%string [];
     Element "triangle" [("v1", ANum (Num 3))]%string []].
Proof. reflexivity. Qed.

(** What [rgbToHexColor] lists for the default gray: the linear channels
    taken for sRGB values. *)
Example default_gray_in_hex : rgbToHexColor defaultGray = "#373737"%string.
Proof. vm_compute. reflexivity. Qed.

Example orange_in_hex : rgbToHexColor Sample.orange = "#ffa500"%string.
Proof. vm_compute. reflexivity. Qed.

Example uuid_shape :
  generateUUID Sample.env 0 = "01234567-89ab-4cde-b012-3456789abcde"%string.
Proof. vm_compute. reflexivity. Qed.

(** The two squares of the sample scene: two components that share one
    material, the second square moved by ten along x. *)
Example sample_components :
  exists o' cA cB m,
    collectComponents (height Sample.scene) None Sample.scene ([], [])
    = Ok (o', ([cA; cB], [m]))
    /\ ci_material cA = Some m /\ ci_material cB = Some m
    /\ (ci_id cA, ci_id cB) = (100, 101)%Z
    /\ map x (ci_vertices cB) = [10; 11; 11; 10]%float
    /\ (mi_id m, mi_extruder m, mi_name m) = (0%Z, 1%Z, "A_material"%string).
Proof.
  destruct (collectComponents (height Sample.scene) None Sample.scene ([], []))
    as [[o' [comps mats]]| |] eqn:E; try (vm_compute in E; discriminate).
  vm_compute in E. injection E as _ <- <-.
  eexists; eexists; eexists; eexists. split; [reflexivity|].
  repeat split; reflexivity.
Qed.

(* ================================================================= *)
(** ** The properties of the specification *)

(** C1 (material registry).  Each registration scans the table for an
    entry with the same three channels under [===] and returns the first
    one, or else appends the colour at the end with id = table length and
    extruder = table length + 1.  After the export of any scene the table
    is numbered by position, holds no two entries with the same channels,
    every leaf with a material refers to an entry of the table, and two
    leaves whose colours have the same channels refer to the same entry
    (hence the same id).  The merged exporter builds the same table
    (without the extruder) and tags the triangles of each leaf with that
    id.  A call ends: it throws only when a leaf has no position
    attribute. *)
Theorem material_registry_dedup (pw : option Matrix4) (o : Object3D) :
  (forall nm color materials, register_step nm color materials)
  /\ match collectComponents (height o) pw o ([], []) with
     | Ok (_, (components, materials)) =>
         table_numbered materials /\ table_distinct materials
         /\ Forall2 (assigned materials) (leafRecords pw o) components
         /\ same_color_same_material (leafRecords pw o) components
     | Throw _ =>
         exists leaf, In leaf (leafRecords pw o)
                      /\ position (lr_geometry leaf) = None
     | OutOfFuel => False
     end
  /\ match collectComponents (height o) pw o ([], []),
           Merged.processObject (height o) pw o ([], [], []) with
     | Ok (_, se), Ok (_, sm) => merged_agrees (leafRecords pw o) (se, sm)
     | Throw _, Throw _ => True
     | _, _ => False
     end.
Proof.
  split; [exact registerMaterial_step|]. split; [|apply merged_registry].
  pose proof (collect_outcome pw o ([], [])) as H.
  destruct (collectComponents (height o) pw o ([], [])) as [[o' st]|e|] eqn:E;
    [|exact (collect_throws _ _ _ E)|exact H].
  destruct H as [_ Hrun]. apply registry_inv_run in Hrun.
  pose proof (registry_same_material Hrun) as Hs.
  destruct Hrun as [Hn [Hd Hf]]. destruct st as [components materials].
  cbn [fst snd] in *. auto.
Qed.

(** C2 (required entries).  Every call of [exportTo3MF] that returns gives
    an archive with exactly these seven files, among them the six required
    ones; a call that does not return throws because a mesh has no position
    attribute. *)
Theorem archive_has_required_entries (env : Env) (pw : option Matrix4)
    (o : Object3D) :
  match exportTo3MF env pw o with
  | Ok (_, zip) =>
      map fst zip
      = ["[Content_Types].xml"; "_rels/.rels"; "3D/3dmodel.model";
         "3D/_rels/3dmodel.model.rels"; "3D/Objects/object-97.model";
         "Metadata/model_settings.config";
         "Metadata/project_settings.config"]%string
      /\ Forall (fun path => entry path zip <> None) requiredEntries
  | Throw _ =>
      exists leaf, In leaf (leafRecords pw o)
                   /\ position (lr_geometry leaf) = None
  | OutOfFuel => False
  end.
Proof.
  pose proof (exportTo3MF_outcome env pw o) as H.
  destruct (exportTo3MF env pw o) as [[o' zip]|e|]; [|exact H|exact H].
  destruct H as [components [materials [_ [_ ->]]]].
  split; [reflexivity|].
  unfold requiredEntries. repeat constructor; cbn; discriminate.
Qed.

(** C3 (defect of [rgbToHexColor]).  The claim holds for the number of
    entries and for the padding, and fails for the colour listed.  A
    colour made from the style #FFA500, the way the loader makes the
    colour of a shape, holds the channels of the library's linear working
    colour space, about (1, 0.376, 0).
    [rgbToHexColor] multiplies these by 255 as if they were sRGB values:
    for the scenario of the specification, two squares of colour #FFA500,
    the export returns, registers one material and lists the filament
    colours #ff6000 and #FFFFFF.  The listed colour is another orange, not
    the letters of #FFA500 in another case. *)
Theorem style_orange_is_listed_as_ff6000 :
  (forall pow : float -> float -> float,
     pow 1%float 2.4%float = 1%float ->
     pow 0.6654586004941176%float 2.4%float = 0.37626212298046485%float ->
     Color_set pow 0xFFA500 = Sample.styleOrange)
  /\ exists o' zip components material j,
       exportTo3MF Sample.env None Sample.styledScene = Ok (o', zip)
       /\ foldM collectLeaf (leafRecords None Sample.styledScene) ([], [])
          = Ok (components, [material])
       /\ mi_color material = Sample.styleOrange
       /\ entry "Metadata/project_settings.config" zip = Some (JsonDoc j)
       /\ jsonField "filament_colour" j
          = Some (JArray [JString "#ff6000"; JString "#FFFFFF"])
       /\ rgbToHexColor Sample.styleOrange <> "#ffa500"%string.
Proof.
  split; [exact styleOrange_is_setStyle|].
  pose proof (exportTo3MF_outcome Sample.env None Sample.styledScene) as H.
  destruct (exportTo3MF Sample.env None Sample.styledScene)
    as [[o' zip]|e|] eqn:E.
  - destruct H as [components [materials [Hrun [_ ->]]]].
    vm_compute in Hrun. injection Hrun as <- <-.
    eexists; eexists; eexists; eexists; eexists.
    split; [reflexivity|]. split; [vm_compute; reflexivity|].
    split; [reflexivity|]. split; [reflexivity|].
    split; [vm_compute; reflexivity|].
    vm_compute. discriminate.
  - vm_compute in E. discriminate.
  - contradiction.
Qed.

(** C4, as the code has it.  A material without [color] is treated by both
    exporters exactly as a material of the default gray, the colour that
    [color.set(0x808080)] leaves (mid-gray #808080, held as the channels of
    the library's linear working colour space): the gray is looked up and
    registered like any other colour.  A leaf whose material slot is empty
    registers nothing: its component has no material and the tables are
    unchanged.  Neither case is an error: the call returns whenever the
    leaf has a position attribute. *)
Theorem gray_fallback (leaf : LeafRecord) (comps : list ComponentInfo)
    (mats : list MaterialInfo) (sm : Merged.State) :
  (forall pow : float -> float -> float,
     pow 0.5279249140305882%float 2.4%float = 0.21586050010324417%float ->
     Color_set pow 0x808080 = defaultGray)
  /\ collectLeaf (withMaterial leaf (Some Colorless)) (comps, mats)
     = collectLeaf (withMaterial leaf (Some (WithColor defaultGray))) (comps, mats)
  /\ processLeaf (withMaterial leaf (Some Colorless)) sm
     = processLeaf (withMaterial leaf (Some (WithColor defaultGray))) sm
  /\ match position (lr_geometry leaf) with
     | None => collectLeaf leaf (comps, mats) = Throw TypeError
     | Some ps =>
         exists c mats',
           collectLeaf leaf (comps, mats) = Ok (comps ++ [c], mats')
           /\ match lr_material leaf with
              | Some m =>
                  exists mi,
                    registerMaterial (lr_name leaf) (materialColor m) mats
                    = (mi, mats')
                    /\ ci_material c = Some mi
              | None => mats' = mats /\ ci_material c = None
              end
     end
  /\ match processLeaf (withMaterial leaf None) sm with
     | Ok sm' => snd sm' = snd sm
     | Throw _ => position (lr_geometry leaf) = None
     | OutOfFuel => False
     end.
Proof.
  split; [exact defaultGray_is_set|].
  split; [reflexivity|]. split; [reflexivity|]. split.
  - pose proof (collectLeaf_outcome leaf (comps, mats)) as H.
    destruct (position (lr_geometry leaf)) as [ps|] eqn:P.
    + destruct (collectLeaf leaf (comps, mats)) as [st'| |] eqn:E;
        [|discriminate|contradiction].
      apply collectLeaf_Ok in E.
      destruct E as [c [ps' [mats' [-> [_ [_ [_ [_ [_ Hm]]]]]]]]].
      exists c, mats'. split; [reflexivity|].
      destruct (lr_material leaf) as [m|]; [exact Hm|]. destruct Hm; auto.
    + unfold collectLeaf, collectMesh. rewrite P.
      destruct (lr_material leaf); [destruct (registerMaterial _ _ _)|];
        reflexivity.
  - unfold processLeaf, Merged.processMesh, withMaterial.
    cbn [lr_name lr_world lr_geometry lr_material].
    destruct sm as [[vs ts] ms].
    destruct (position (lr_geometry leaf)); reflexivity.
Qed.

(** C4, as stated, fails for a leaf with no assigned material: the export
    of such a mesh registers no colour at all, the table stays empty. *)
Lemma unassigned_material_registers_nothing :
  exists o' c,
    collectComponents (height Sample.bare) None Sample.bare ([], [])
    = Ok (o', ([c], []))
    /\ ci_material c = None.
Proof.
  pose proof (collect_outcome None Sample.bare ([], [])) as H.
  destruct (collectComponents (height Sample.bare) None Sample.bare ([], []))
    as [[o' [comps mats]]|e|] eqn:E.
  - destruct H as [_ H]. vm_compute in H. injection H as <- <-.
    eexists; eexists. split; reflexivity.
  - vm_compute in E. discriminate.
  - contradiction.
Qed.

(** C5, as the code has it.  In both exporters a leaf with a position
    attribute is never skipped and never an error: it contributes as many
    vertices as the attribute has and one triangle for every started group
    of three entries of its index stream (of its vertices, without index
    stream); so zero vertices and no indices give an empty record, which
    [3mf-exporter.ts] appends as a component like any other.  A leaf
    without position attribute makes the call throw.  An export that
    returns has one component for every mesh of the scene. *)
Theorem degenerate_leaves (pw : option Matrix4) (o : Object3D)
    (leaf : LeafRecord) (comps : list ComponentInfo) (mats : list MaterialInfo)
    (sm : Merged.State) :
  match position (lr_geometry leaf) with
  | None =>
      collectLeaf leaf (comps, mats) = Throw TypeError
      /\ processLeaf leaf sm = Throw TypeError
  | Some ps =>
      (exists c mats',
         collectLeaf leaf (comps, mats) = Ok (comps ++ [c], mats')
         /\ length (ci_vertices c) = length ps
         /\ length (ci_triangles c) = (streamLength (lr_geometry leaf) + 2) / 3
         /\ (ps = [] -> streamLength (lr_geometry leaf) = 0 ->
             ci_vertices c = [] /\ ci_triangles c = []))
      /\ (exists sm',
            processLeaf leaf sm = Ok sm'
            /\ length (fst (fst sm')) = length (fst (fst sm)) + length ps
            /\ length (snd (fst sm'))
               = length (snd (fst sm))
                 + (streamLength (lr_geometry leaf) + 2) / 3)
  end
  /\ match collectComponents (height o) pw o ([], []) with
     | Ok (_, (components, _)) =>
         length components = length (leafRecords pw o)
     | Throw _ =>
         exists l, In l (leafRecords pw o) /\ position (lr_geometry l) = None
     | OutOfFuel => False
     end.
Proof.
  split.
  - pose proof (collectLeaf_outcome leaf (comps, mats)) as H.
    pose proof (processLeaf_outcome leaf sm) as H'.
    destruct (position (lr_geometry leaf)) as [ps|] eqn:P.
    + split.
      * destruct (collectLeaf leaf (comps, mats)) as [st'| |] eqn:E;
          [|discriminate|contradiction].
        apply collectLeaf_Ok in E.
        destruct E as [c [ps' [mats' [-> [Hp [_ [Hv [Ht _]]]]]]]].
        rewrite P in Hp. injection Hp as <-.
        assert (L1 : length (ci_vertices c) = length ps)
          by now rewrite Hv, length_map.
        assert (L2 : length (ci_triangles c)
                     = (streamLength (lr_geometry leaf) + 2) / 3).
        { rewrite Ht. unfold streamLength, indexedTriangles, sequentialTriangles.
          rewrite P. destruct (index (lr_geometry leaf));
            now rewrite length_map, steps3_length. }
        exists c, mats'. split; [reflexivity|]. split; [exact L1|].
        split; [exact L2|]. intros -> Z0. rewrite Z0 in L2.
        split; apply length_zero_iff_nil; assumption.
      * destruct (processLeaf leaf sm) as [sm'| |];
          [|discriminate|contradiction].
        destruct H' as [ps' [pid [P' [Ev Et]]]]. injection P' as <-.
        exists sm'. split; [reflexivity|].
        rewrite Ev, Et, !length_app, length_map.
        now rewrite (meshTriangles_length _ _ _ P).
    + split.
      * unfold collectLeaf, collectMesh. rewrite P.
        destruct (lr_material leaf); [destruct (registerMaterial _ _ _)|];
          reflexivity.
      * unfold processLeaf, Merged.processMesh. rewrite P.
        destruct sm as [[vs ts] ms].
        destruct (lr_material leaf); [destruct (Merged.registerMaterial _ _ _)|];
          reflexivity.
  - pose proof (collect_outcome pw o ([], [])) as H.
    destruct (collectComponents (height o) pw o ([], [])) as [[o' st]|e|] eqn:E;
      [|exact (collect_throws _ _ _ E)|exact H].
    destruct H as [_ Hrun]. apply components_run in Hrun.
    destruct st as [components materials]. exact Hrun.
Qed.

(** C5, as stated, fails twice: a mesh without position attribute makes
    the export throw, and a mesh of four vertices without index stream is
    not skipped but exported with two triangles. *)
Lemma invalid_geometry_not_skipped :
  collectComponents (height Sample.unpositioned) None Sample.unpositioned ([], [])
  = Throw TypeError
  /\ exists o' c mats,
       collectComponents (height Sample.fourVertices) None Sample.fourVertices
                         ([], [])
       = Ok (o', ([c], mats))
       /\ length (ci_vertices c) = 4 /\ length (ci_triangles c) = 2.
Proof.
  split; [vm_compute; reflexivity|].
  pose proof (collect_outcome None Sample.fourVertices ([], [])) as H.
  destruct (collectComponents (height Sample.fourVertices) None
              Sample.fourVertices ([], [])) as [[o' [comps mats]]|e|] eqn:E.
  - destruct H as [_ H]. vm_compute in H. injection H as <- <-.
    eexists; eexists; eexists. split; [reflexivity|]. split; reflexivity.
  - vm_compute in E. discriminate.
  - contradiction.
Qed.

(** C7 (scene flattener).  Both traversals end for every scene.  When
    [collectComponents] returns, the components are, one for one and in
    this order, those of the mesh nodes in depth-first pre-order with
    children in stored order: each has the vertices of its node taken
    through the node's world transform composed top-down from the local
    transforms, and the ids count from 100.  The cached [matrixWorld] of
    every node is rewritten before anything is sampled and is not trusted:
    the scene with all caches dropped gives the same components and
    materials.  The merged vertex array of [processObject] is the
    concatenation of the same world-space vertices in the same order.  A
    call throws only when a mesh has no position attribute. *)
Theorem flattener_preorder (pw : option Matrix4) (o : Object3D) :
  match collectComponents (height o) pw o ([], []) with
  | Ok (o', (components, materials)) =>
      Forall2 sampled (leafRecords pw o) components
      /\ map ci_id components
         = map (fun k => (100 + Z.of_nat k)%Z)
               (seq 0 (length (leafRecords pw o)))
      /\ o' = updateMatrixWorld pw true o
      /\ collectComponents (height (dropCaches o)) pw (dropCaches o) ([], [])
         = Ok (updateMatrixWorld pw true (dropCaches o), (components, materials))
  | Throw _ =>
      exists leaf, In leaf (leafRecords pw o)
                   /\ position (lr_geometry leaf) = None
  | OutOfFuel => False
  end
  /\ match Merged.processObject (height o) pw o ([], [], []) with
     | Ok (o', (vertices, _, _)) =>
         vertices = flat_map worldVertices (leafRecords pw o)
         /\ o' = updateMatrixWorld pw true o
     | Throw _ =>
         exists leaf, In leaf (leafRecords pw o)
                      /\ position (lr_geometry leaf) = None
     | OutOfFuel => False
     end.
Proof.
  split.
  - pose proof (collect_outcome pw o ([], [])) as H.
    pose proof (collectComponents_leaves pw (dropCaches o) ([], [])
                  (Nat.le_refl (height (dropCaches o)))) as D.
    rewrite leafRecords_dropCaches in D.
    destruct (collectComponents (height o) pw o ([], [])) as [[o' st]|e|] eqn:E;
      [|exact (collect_throws _ _ _ E)|exact H].
    destruct H as [-> Hrun]. rewrite Hrun in D. cbn [bind] in D.
    pose proof (sampled_run _ Hrun) as S1. pose proof (ids_run _ Hrun) as S2.
    destruct st as [components materials]. cbn [fst] in *. auto.
  - pose proof (process_outcome pw o ([], [], [])) as H.
    destruct (Merged.processObject (height o) pw o ([], [], []))
      as [[o' [[vs ts] ms]]|e|]; [|exact H|exact H].
    destruct H as [-> Hrun]. apply merged_run in Hrun.
    cbn [fst] in Hrun. split; [tauto | reflexivity].
Qed.

(** C8 (merged vertices and indices).  The merged exporter ends for every
    scene.  When it returns, the merged vertex array is the world-space
    vertices of the leaves laid end to end, so that it has exactly the sum
    of the vertex counts of the leaves; the merged triangles are the
    triangles of the leaves in the same order, the indices of each leaf
    re-based: moved by its vertex offset, the number of vertices of the
    leaves before it; and if every index of every triangle of every leaf
    is valid for that leaf, then every index of every merged triangle is
    a number below the total vertex count.  It throws only when a mesh has
    no position attribute. *)
Theorem merged_vertices_and_indices (pw : option Matrix4) (o : Object3D) :
  match Merged.processObject (height o) pw o ([], [], []) with
  | Ok (_, (vertices, triangles, _)) =>
      vertices = flat_map worldVertices (leafRecords pw o)
      /\ length vertices = list_sum (map vertexCount (leafRecords pw o))
      /\ map indicesOf triangles = rebasedTriples 0 (leafRecords pw o)
      /\ (Forall leafValid (leafRecords pw o) ->
          Forall (validTriangle (length vertices)) triangles)
  | Throw _ =>
      exists leaf, In leaf (leafRecords pw o)
                   /\ position (lr_geometry leaf) = None
  | OutOfFuel => False
  end.
Proof.
  pose proof (process_outcome pw o ([], [], [])) as H.
  destruct (Merged.processObject (height o) pw o ([], [], []))
    as [[o' [[vs ts] ms]]|e|]; [|exact H|exact H].
  destruct H as [_ Hrun]. pose proof (rebased_run _ _ Hrun) as R.
  apply merged_run in Hrun. cbn [fst snd map app length] in *. tauto.
Qed.

(** The sample scene: eight merged vertices; its four triangles, all
    valid for their leaves, are valid for the merged array, those of the
    second leaf moved by four. *)
Lemma merged_vertices_and_indices_witness :
  exists o' vertices triangles materials,
    Merged.processObject (height Sample.scene) None Sample.scene ([], [], [])
    = Ok (o', (vertices, triangles, materials))
    /\ Forall leafValid (leafRecords None Sample.scene)
    /\ length vertices = 8 /\ length triangles = 4
    /\ map indicesOf triangles
       = [(Num 0, Num 1, Num 2); (Num 0, Num 2, Num 3);
          (Num 4, Num 5, Num 6); (Num 4, Num 6, Num 7)]
    /\ Forall (validTriangle 8) triangles.
Proof.
  pose proof (merged_vertices_and_indices None Sample.scene) as H.
  assert (V : Forall leafValid (leafRecords None Sample.scene)).
  { repeat constructor; cbn; lia. }
  destruct (Merged.processObject (height Sample.scene) None Sample.scene
                                 ([], [], []))
    as [[o' [[vs ts] ms]]| |] eqn:E.
  - exists o', vs, ts, ms. destruct H as [_ [H1 [H3 H2]]]. specialize (H2 V).
    assert (L : length vs = 8) by (rewrite H1; reflexivity).
    rewrite L in H2.
    split; [reflexivity|]. split; [exact V|]. split; [exact L|].
    split; [|split; [exact H3|exact H2]].
    vm_compute in E. injection E as _ _ <- _. reflexivity.
  - vm_compute in E. discriminate.
  - contradiction.
Defined.

(** Outside the assumption of C8: four vertices without index stream are
    read as two triangles, the second of which refers to the vertices 4
    and 5 of its leaf.  The leaf is not valid, and neither are the merged
    triangles. *)
Lemma stray_vertices_give_invalid_indices :
  exists o' vertices triangles materials,
    Merged.processObject (height Sample.fourVertices) None Sample.fourVertices
                         ([], [], [])
    = Ok (o', (vertices, triangles, materials))
    /\ ~ Forall leafValid (leafRecords None Sample.fourVertices)
    /\ length vertices = 4
    /\ ~ Forall (validTriangle (length vertices)) triangles.
Proof.
  rewrite processObject_leaves by apply Nat.le_refl.
  destruct (foldM processLeaf (leafRecords None Sample.fourVertices) ([], [], []))
    as [[[vs ts] ms]| |] eqn:E; try (vm_compute in E; discriminate).
  vm_compute in E. injection E as <- <- <-.
  eexists; eexists; eexists; eexists. split; [reflexivity|].
  split; [|split; [reflexivity|]].
  - intro F. inversion F as [|l1 ls V _]; subst.
    inversion V as [|t1 ts1 _ V1]; subst.
    inversion V1 as [|t2 ts2 [_ [H _]] _]; subst.
    cbn in H. lia.
  - intro F. inversion F as [|t1 l1 _ F1]; subst.
    inversion F1 as [|t2 l2 [_ [H _]] _]; subst.
    cbn in H. lia.
Qed.

(** The caches themselves are recomputed: the second leaf of the sample
    scene was moved after its [matrixWorld] was last computed, and the
    export leaves it with the [matrixWorld] of its new place. *)
Example export_changes_cached_matrices :
  exists o' st',
    collectComponents (height Sample.scene) None Sample.scene ([], [])
    = Ok (o', st')
    /\ o' <> Sample.scene.
Proof.
  pose proof (collect_outcome None Sample.scene ([], [])) as H.
  destruct (collectComponents (height Sample.scene) None Sample.scene ([], []))
    as [[o' st']|e|] eqn:E.
  - exists o', st'. split; [reflexivity|]. destruct H as [-> _].
    intro C.
    apply (f_equal (fun o => match children o with
                             | [_; c] => PrimFloat.eqb (e12 (matrixWorld c)) 0
                             | _ => true
                             end)) in C.
    vm_compute in C. discriminate.
  - vm_compute in E. discriminate.
  - contradiction.
Qed.

(** C10, as the code has it.  The object model of the package holds, for
    every vertex of every component, the three world-space coordinates
    written by [toFixed(7)]; the legacy exporter writes the world-space
    coordinates multiplied by its [scale] argument by [toFixed(6)].  A
    written value that is finite and below [10^21] in magnitude is written
    as a fixed-point decimal with that many decimals, which reads back
    within half a unit of the last decimal of the written value. *)
Theorem written_coordinates_read_back (env : Env) (firstUUID : nat)
    (components : list ComponentInfo) (scale : float) (world : Matrix4)
    (p : Vector3) (c : float) (q : Q) :
  valueOf c = Some q -> below1e21 c = true ->
  docVertices (createObjectModelXML env firstUUID components)
  = flat_map (fun comp => map (vertexElement (numberToString env))
                              (ci_vertices comp)) components
  /\ Legacy.vertexLine (numberToString env) scale world p
     = ("          <vertex "
        ++ kv "x" (toFixed (numberToString env) 6
                     (x (applyMatrix4 p world) * scale)%float) ++ " "
        ++ kv "y" (toFixed (numberToString env) 6
                     (y (applyMatrix4 p world) * scale)%float) ++ " "
        ++ kv "z" (toFixed (numberToString env) 6
                     (z (applyMatrix4 p world) * scale)%float) ++ "/>")%string
  /\ (exists n,
        readFixed (toFixed (numberToString env) 7 c) = Some (n, 7)
        /\ (q - halfUnit 7 <= decimal n 7)%Q
        /\ (decimal n 7 <= q + halfUnit 7)%Q)
  /\ (exists n,
        readFixed (toFixed (numberToString env) 6 c) = Some (n, 6)
        /\ (q - halfUnit 6 <= decimal n 6)%Q
        /\ (decimal n 6 <= q + halfUnit 6)%Q).
Proof.
  intros V B. split; [apply docVertices_objectModel|].
  split; [reflexivity|].
  split; apply toFixed_read_back; assumption.
Qed.

Lemma written_coordinates_read_back_witness :
  exists q,
    valueOf 10.5%float = Some q /\ below1e21 10.5%float = true
    /\ docVertices (createObjectModelXML Sample.env 3 [])
       = flat_map (fun comp => map (vertexElement (numberToString Sample.env))
                                   (ci_vertices comp)) []
    /\ Legacy.vertexLine (numberToString Sample.env) 1 identity
                         (mkVector3 1 0 0)
       = ("          <vertex "
          ++ kv "x" (toFixed (numberToString Sample.env) 6
                       (x (applyMatrix4 (mkVector3 1 0 0) identity) * 1)%float)
          ++ " "
          ++ kv "y" (toFixed (numberToString Sample.env) 6
                       (y (applyMatrix4 (mkVector3 1 0 0) identity) * 1)%float)
          ++ " "
          ++ kv "z" (toFixed (numberToString Sample.env) 6
                       (z (applyMatrix4 (mkVector3 1 0 0) identity) * 1)%float)
          ++ "/>")%string
    /\ (exists n,
          readFixed (toFixed (numberToString Sample.env) 7 10.5%float)
          = Some (n, 7)
          /\ (q - halfUnit 7 <= decimal n 7)%Q
          /\ (decimal n 7 <= q + halfUnit 7)%Q)
    /\ (exists n,
          readFixed (toFixed (numberToString Sample.env) 6 10.5%float)
          = Some (n, 6)
          /\ (q - halfUnit 6 <= decimal n 6)%Q
          /\ (decimal n 6 <= q + halfUnit 6)%Q).
Proof.
  eexists. split; [vm_compute; reflexivity|]. split; [reflexivity|].
  apply written_coordinates_read_back; [vm_compute; reflexivity | reflexivity].
Defined.

(** C10, as stated, fails twice.  With [scale] 2 the legacy exporter writes
    the world-space coordinate 1 as 2.000000, which is not within its six
    decimals of 1; and a coordinate that is not a number is written by the
    package as the text NaN, which is no decimal at all. *)
Lemma scaled_and_undefined_coordinates :
  let nts := numberToString Sample.env in
  let vertex := applyMatrix4 (mkVector3 1 0 0) identity in
  match valueOf (x vertex) with
  | Some q => (q == inject_Z 1)%Q
  | None => False
  end
  /\ toFixed nts 6 (x vertex * 2)%float = "2.000000"%string
  /\ readFixed (toFixed nts 6 (x vertex * 2)%float) = Some (2000000%Z, 6)
  /\ ~ (decimal 2000000 6 <= inject_Z 1 + halfUnit 6)%Q
  /\ toFixed nts 7 (0 / 0)%float = "NaN"%string
  /\ readFixed (toFixed nts 7 (0 / 0)%float) = None.
Proof.
  cbv zeta. split; [vm_compute; reflexivity|].
  split; [vm_compute; reflexivity|]. split; [vm_compute; reflexivity|].
  split; [|split; vm_compute; reflexivity].
  unfold Qle, Qplus, decimal, halfUnit, inject_Z. cbn. lia.
Qed.

(* ================================================================= *)
(** ** Further properties of the exporters *)

(* ----------------------------------------------------------------- *)
(** *** Identifiers and colours as text *)

Lemma hexDigit_shape (v : Z) :
  (0 <= v < 16)%Z ->
  exists d, hexDigit v = String d EmptyString /\ isHexDigit d = true.
Proof.
  intro H.
  assert (C : (v = 0 \/ v = 1 \/ v = 2 \/ v = 3 \/ v = 4 \/ v = 5 \/ v = 6
               \/ v = 7 \/ v = 8 \/ v = 9 \/ v = 10 \/ v = 11 \/ v = 12
               \/ v = 13 \/ v = 14 \/ v = 15)%Z) by lia.
  repeat (destruct C as [->|C]; [eexists; split; reflexivity|]).
  subst v. eexists; split; reflexivity.
Qed.

Lemma variantDigit_shape (v : Z) :
  (0 <= v < 16)%Z ->
  exists d, hexDigit (Z.lor (Z.land v 3) 8) = String d EmptyString
            /\ isVariantDigit d = true.
Proof.
  intro H.
  assert (C : (v = 0 \/ v = 1 \/ v = 2 \/ v = 3 \/ v = 4 \/ v = 5 \/ v = 6
               \/ v = 7 \/ v = 8 \/ v = 9 \/ v = 10 \/ v = 11 \/ v = 12
               \/ v = 13 \/ v = 14 \/ v = 15)%Z) by lia.
  repeat (destruct C as [->|C]; [eexists; split; reflexivity|]).
  subst v. eexists; split; reflexivity.
Qed.

(** Filling a template gives a string of the template's shape. *)
Lemma fillUUID_shape (random : nat -> Z) :
  (forall k, 0 <= random k < 16)%Z ->
  forall template k, hasShape template (fillUUID template random k) = true.
Proof.
  intros R template. induction template as [|c rest IH]; intro k;
    [reflexivity|].
  cbn [fillUUID].
  destruct (Ascii.eqb c "x") eqn:Ex.
  - destruct (hexDigit_shape (R k)) as [d [-> Hd]].
    cbn [append hasShape]. rewrite Ex, Hd. apply IH.
  - destruct (Ascii.eqb c "y") eqn:Ey.
    + destruct (variantDigit_shape (R k)) as [d [-> Hd]].
      cbn [append hasShape]. rewrite Ex, Ey, Hd. apply IH.
    + cbn [hasShape]. rewrite Ex, Ey, Ascii.eqb_refl. apply IH.
Qed.

Lemma hasShape_length (template : string) :
  forall s, hasShape template s = true -> String.length s = String.length template.
Proof.
  induction template as [|p template IH]; intros [|c s] H; try discriminate;
    [reflexivity|].
  cbn [hasShape] in H. apply andb_prop in H. destruct H as [_ H].
  cbn [String.length]. f_equal. now apply IH.
Qed.

(** X1 ([generateUUID]).  Whatever the random source draws (each draw
    being one of 0..15), every identifier has the form of a version-4 UUID:
    36 characters, hyphens after the 8th, 13th, 18th and 23rd, the digit 4
    at the head of the third group, one of 8, 9, a, b at the head of the
    fourth, and lower-case hexadecimal digits elsewhere. *)
Theorem generateUUID_is_version4 (env : Env) (n : nat) :
  (forall k, 0 <= random16 env k < 16)%Z ->
  hasShape "xxxxxxxx-xxxx-4xxx-yxxx-xxxxxxxxxxxx" (generateUUID env n) = true
  /\ String.length (generateUUID env n) = 36.
Proof.
  intro R.
  assert (S : hasShape "xxxxxxxx-xxxx-4xxx-yxxx-xxxxxxxxxxxx"
                       (generateUUID env n) = true)
    by (apply fillUUID_shape; exact R).
  split; [exact S|]. now rewrite (hasShape_length _ _ S).
Qed.

Lemma generateUUID_is_version4_witness :
  (forall k, 0 <= random16 Sample.env k < 16)%Z
  /\ hasShape "xxxxxxxx-xxxx-4xxx-yxxx-xxxxxxxxxxxx"
              (generateUUID Sample.env 2) = true
  /\ String.length (generateUUID Sample.env 2) = 36.
Proof.
  assert (R : forall k, (0 <= random16 Sample.env k < 16)%Z).
  { intro k. cbn [random16 Sample.env].
    pose proof (Nat.mod_upper_bound k 16). lia. }
  split; [exact R|]. apply (@generateUUID_is_version4 Sample.env 2 R).
Defined.

(** The two characters [rgbToHexColor] writes for a channel that rounds
    to [n], checked against their value. *)
Definition byteWritten (n : Z) : bool :=
  match padStart0 2 (toString16 (RInt n)) with
  | String a (String c EmptyString) =>
      match hexValue a, hexValue c with
      | Some h, Some l => isHexDigit a && isHexDigit c
                          && (h =? n / 16)%Z && (l =? n mod 16)%Z
      | _, _ => false
      end
  | _ => false
  end.

Lemma byteWritten_all :
  forallb byteWritten (map Z.of_nat (seq 0 256)) = true.
Proof. vm_compute. reflexivity. Qed.

Lemma byte_in_hex (n : Z) :
  (0 <= n <= 255)%Z ->
  exists a c,
    padStart0 2 (toString16 (RInt n)) = String a (String c EmptyString)
    /\ isHexDigit a = true /\ isHexDigit c = true
    /\ hexValue a = Some (n / 16)%Z /\ hexValue c = Some (n mod 16)%Z.
Proof.
  intro H.
  assert (B : byteWritten n = true).
  { pose proof byteWritten_all as A. rewrite forallb_forall in A. apply A.
    apply in_map_iff. exists (Z.to_nat n). split; [lia|].
    apply in_seq. lia. }
  unfold byteWritten in B.
  destruct (padStart0 2 (toString16 (RInt n))) as [|a [|c [|? ?]]];
    try discriminate.
  destruct (hexValue a) as [h|] eqn:Va; [|discriminate].
  destruct (hexValue c) as [l|] eqn:Vc; [|discriminate].
  apply andb_prop in B. destruct B as [B B4].
  apply andb_prop in B. destruct B as [B B3].
  apply andb_prop in B. destruct B as [B1 B2].
  apply Z.eqb_eq in B3, B4. subst h l.
  exists a, c. split; [reflexivity|]. repeat split; assumption.
Qed.

(** A colour whose channels round into 0..255 is written as # and six
    lower-case hexadecimal digits that read back as the rounded
    channels. *)
Lemma rgbToHexColor_in_range (color : Color) (R G B : Z) :
  Math_round (r color * 255) = RInt R ->
  Math_round (g color * 255) = RInt G ->
  Math_round (b color * 255) = RInt B ->
  (0 <= R <= 255)%Z -> (0 <= G <= 255)%Z -> (0 <= B <= 255)%Z ->
  parseHexColor (rgbToHexColor color) = Some (R, G, B)
  /\ hasShape "#xxxxxx" (rgbToHexColor color) = true.
Proof.
  intros ER EG EB HR HG HB. unfold rgbToHexColor. rewrite ER, EG, EB.
  destruct (byte_in_hex HR) as [r1 [r2 [-> [Hr1 [Hr2 [Vr1 Vr2]]]]]].
  destruct (byte_in_hex HG) as [g1 [g2 [-> [Hg1 [Hg2 [Vg1 Vg2]]]]]].
  destruct (byte_in_hex HB) as [b1 [b2 [-> [Hb1 [Hb2 [Vb1 Vb2]]]]]].
  cbn [append parseHexColor hasShape Ascii.eqb Bool.eqb].
  rewrite Vr1, Vr2, Vg1, Vg2, Vb1, Vb2, Hr1, Hr2, Hg1, Hg2, Hb1, Hb2.
  split; [|reflexivity].
  pose proof (Z.div_mod R 16). pose proof (Z.div_mod G 16).
  pose proof (Z.div_mod B 16). do 2 f_equal; [f_equal|]; lia.
Qed.

Lemma hex_uint_string_length (d : Hexadecimal.uint) :
  String.length (HexadecimalString.NilEmpty.string_of_uint d)
  = Hexadecimal.nb_digits d.
Proof. induction d; cbn; congruence. Qed.

Lemma short_hex_is_byte (d : Hexadecimal.uint) :
  Hexadecimal.nb_digits d <= 2 -> (Pos.of_hex_uint d < 256)%N.
Proof.
  intro L.
  destruct d as [|d|d|d|d|d|d|d|d|d|d|d|d|d|d|d|d]; [reflexivity|..];
    (destruct d as [|d|d|d|d|d|d|d|d|d|d|d|d|d|d|d|d]; [reflexivity|..];
     (destruct d; [reflexivity | cbn in L; lia ..])).
Qed.

Lemma padStart0_long (n : nat) (s : string) :
  n <= String.length s -> padStart0 n s = s.
Proof.
  intro L. unfold padStart0.
  replace (n - String.length s) with 0 by lia. reflexivity.
Qed.

Lemma padStart0_shorter (n : nat) (s : string) :
  String.length s <= String.length (padStart0 n s).
Proof. unfold padStart0. rewrite string_length_app. lia. Qed.

(** Two characters that are hexadecimal digits are written only for a
    channel that rounds into 0..255. *)
Lemma two_hex_digits_byte (rd : rounded) (a c : ascii) :
  padStart0 2 (toString16 rd) = String a (String c EmptyString) ->
  hexValue a <> None ->
  exists n, rd = RInt n /\ (0 <= n <= 255)%Z.
Proof.
  intros E Ha.
  destruct rd as [n| |[|]]; try (vm_compute in E; discriminate).
  exists n. split; [reflexivity|].
  pose proof (padStart0_shorter 2 (toString16 (RInt n))) as L.
  rewrite E in L. cbn [String.length] in L.
  destruct n as [|p|p].
  - lia.
  - unfold toString16 in L.
    cbn [Z.to_hex_int HexadecimalString.NilZero.string_of_int] in L.
    pose proof (HexadecimalPos.Unsigned.to_uint_nonnil p) as NN.
    assert (S : HexadecimalString.NilZero.string_of_uint (Pos.to_hex_uint p)
                = HexadecimalString.NilEmpty.string_of_uint (Pos.to_hex_uint p))
      by (destruct (Pos.to_hex_uint p); [contradiction | reflexivity ..]).
    rewrite S, hex_uint_string_length in L.
    apply short_hex_is_byte in L.
    rewrite HexadecimalPos.Unsigned.of_to in L. lia.
  - exfalso. apply Ha.
    unfold toString16 in E.
    cbn [Z.to_hex_int HexadecimalString.NilZero.string_of_int] in E.
    rewrite padStart0_long in E.
    + injection E as <- _. reflexivity.
    + cbn [String.length].
      destruct (Pos.to_hex_uint p); cbn; lia.
Qed.

Lemma parseHexColor_length (s : string) (v : Z * Z * Z) :
  parseHexColor s = Some v -> String.length s = 7.
Proof.
  destruct s as [|h [|a [|c [|d [|e [|f [|i [|x y]]]]]]]]; try discriminate.
  reflexivity.
Qed.

Lemma two_characters (s : string) :
  String.length s = 2 -> exists a c, s = String a (String c EmptyString).
Proof.
  destruct s as [|a [|c [|x y]]]; try discriminate. eauto.
Qed.

(** X2 ([rgbToHexColor], round trip and range).  The text written for a
    colour reads back as a colour #rrggbb with channels R, G, B exactly
    when the three channels of the colour, scaled by 255 and rounded, are R,
    G and B and lie in 0..255; the digits are then lower-case.  Nothing is
    clamped: a channel that rounds outside 0..255, or is not a number, gives
    a text that is no colour #rrggbb. *)
Theorem rgbToHexColor_reads_back (color : Color) (R G B : Z) :
  (parseHexColor (rgbToHexColor color) = Some (R, G, B)
   <-> Math_round (r color * 255) = RInt R
       /\ Math_round (g color * 255) = RInt G
       /\ Math_round (b color * 255) = RInt B
       /\ (0 <= R <= 255)%Z /\ (0 <= G <= 255)%Z /\ (0 <= B <= 255)%Z)
  /\ (parseHexColor (rgbToHexColor color) <> None ->
      hasShape "#xxxxxx" (rgbToHexColor color) = true).
Proof.
  assert (Back : forall R G B,
            parseHexColor (rgbToHexColor color) = Some (R, G, B) ->
            Math_round (r color * 255) = RInt R
            /\ Math_round (g color * 255) = RInt G
            /\ Math_round (b color * 255) = RInt B
            /\ (0 <= R <= 255)%Z /\ (0 <= G <= 255)%Z /\ (0 <= B <= 255)%Z).
  { clear R G B. intros R G B P.
    pose proof (parseHexColor_length _ P) as L.
    unfold rgbToHexColor in P, L.
    set (p1 := padStart0 2 (toString16 (Math_round (r color * 255)))) in *.
    set (p2 := padStart0 2 (toString16 (Math_round (g color * 255)))) in *.
    set (p3 := padStart0 2 (toString16 (Math_round (b color * 255)))) in *.
    pose proof (padStart0_length 2 (toString16 (Math_round (r color * 255)))) as L1.
    pose proof (padStart0_length 2 (toString16 (Math_round (g color * 255)))) as L2.
    pose proof (padStart0_length 2 (toString16 (Math_round (b color * 255)))) as L3.
    fold p1 in L1. fold p2 in L2. fold p3 in L3.
    cbn [append String.length] in L. rewrite !string_length_app in L.
    destruct (@two_characters p1) as [a1 [c1 E1]]; [lia|].
    destruct (@two_characters p2) as [a2 [c2 E2]]; [lia|].
    destruct (@two_characters p3) as [a3 [c3 E3]]; [lia|].
    rewrite E1, E2, E3 in P. cbn [append parseHexColor Ascii.eqb Bool.eqb] in P.
    destruct (hexValue a1) as [x1|] eqn:V1; [|discriminate].
    destruct (hexValue c1) as [y1|] eqn:W1; [|discriminate].
    destruct (hexValue a2) as [x2|] eqn:V2; [|discriminate].
    destruct (hexValue c2) as [y2|] eqn:W2; [|discriminate].
    destruct (hexValue a3) as [x3|] eqn:V3; [|discriminate].
    destruct (hexValue c3) as [y3|] eqn:W3; [|discriminate].
    destruct (@two_hex_digits_byte _ a1 c1 E1) as [n1 [R1 H1]]; [congruence|].
    destruct (@two_hex_digits_byte _ a2 c2 E2) as [n2 [R2 H2]]; [congruence|].
    destruct (@two_hex_digits_byte _ a3 c3 E3) as [n3 [R3 H3]]; [congruence|].
    pose proof (@rgbToHexColor_in_range color n1 n2 n3 R1 R2 R3 H1 H2 H3) as [F _].
    unfold rgbToHexColor in F. fold p1 p2 p3 in F. rewrite E1, E2, E3 in F.
    cbn [append parseHexColor Ascii.eqb Bool.eqb] in F.
    rewrite V1, W1, V2, W2, V3, W3 in F. rewrite F in P.
    injection P as <- <- <-. tauto. }
  split; [split|].
  - apply Back.
  - intros [ER [EG [EB [HR [HG HB]]]]].
    apply (@rgbToHexColor_in_range color R G B ER EG EB HR HG HB).
  - intro N. destruct (parseHexColor (rgbToHexColor color)) as [[[R' G'] B']|] eqn:P;
      [|contradiction].
    destruct (Back _ _ _ eq_refl) as [ER [EG [EB [HR [HG HB]]]]].
    apply (@rgbToHexColor_in_range color R' G' B' ER EG EB HR HG HB).
Qed.

(** The orange of the sample reads back as 255, 165, 0. *)
Lemma rgbToHexColor_reads_back_witness :
  parseHexColor (rgbToHexColor Sample.orange) = Some (255, 165, 0)%Z
  /\ Math_round (g Sample.orange * 255) = RInt 165.
Proof.
  split; [vm_compute; reflexivity|].
  apply (proj1 (proj1 (@rgbToHexColor_reads_back Sample.orange 255 165 0))).
  vm_compute. reflexivity.
Defined.

(* ----------------------------------------------------------------- *)
(** *** Parts, extruders and filament colours *)

Lemma Math_round_respects_eqb (x y : float) :
  PrimFloat.eqb x y = true ->
  Math_round (x * 255) = Math_round (y * 255).
Proof.
  rewrite FloatAxioms.eqb_spec. unfold Math_round.
  rewrite !FloatAxioms.mul_spec.
  destruct (Prim2SF x) as [sx|sx| |sx mx ex] eqn:Ex,
           (Prim2SF y) as [sy|sy| |sy my ey] eqn:Ey; intro H;
    try (apply SFeqb_finite in H; destruct H as [-> [-> ->]]; reflexivity);
    try (destruct sx; discriminate H); try (destruct sy; discriminate H);
    try discriminate H.
  all: try (destruct sx, sy; try discriminate H; reflexivity).
  all: try (destruct sx; discriminate H).
Qed.

Lemma rgbToHexColor_sameColor (a c : Color) :
  sameColor a c = true -> rgbToHexColor a = rgbToHexColor c.
Proof.
  unfold sameColor. intro H.
  apply andb_prop in H. destruct H as [H Hb].
  apply andb_prop in H. destruct H as [Hr Hg].
  unfold rgbToHexColor.
  now rewrite (Math_round_respects_eqb Hr), (Math_round_respects_eqb Hg),
    (Math_round_respects_eqb Hb).
Qed.

Lemma modelSettings_parts (components : list ComponentInfo) :
  exists pre post,
    createModelSettingsXML components
    = Raw (pre ++ String.concat nl (map partXml components) ++ post)%string.
Proof.
  exists ("<?xml " ++ kv "version" "1.0" ++ " " ++ kv "encoding" "UTF-8" ++ "?>" ++ nl
       ++ "<config>" ++ nl
       ++ "  <object " ++ kv "id" "97" ++ ">" ++ nl
       ++ "    <metadata " ++ kv "key" "name" ++ " "
       ++ kv "value" "Exported3DModel.3mf" ++ "/>" ++ nl
       ++ "    <metadata " ++ kv "key" "extruder" ++ " " ++ kv "value" "1"
       ++ "/>" ++ nl
       ++ "    <metadata " ++ kv "key" "thumbnail_file" ++ " " ++ kv "value" ""
       ++ "/>" ++ nl)%string.
  eexists. unfold createModelSettingsXML, partXml, partExtruder.
  f_equal. cbv [kv quote nl append]. reflexivity.
Qed.

Lemma assigned_ownColour (materials : list MaterialInfo) (leaf : LeafRecord)
    (comp : ComponentInfo) :
  table_numbered materials -> assigned materials leaf comp ->
  ownColour materials leaf comp.
Proof.
  intros Hn A. unfold assigned, ownColour in *.
  destruct (lr_material leaf) as [m|].
  - destruct A as [mi [Ec [Hat Hc]]].
    destruct (Hn _ _ Hat) as [Hid Hex].
    unfold partExtruder. rewrite Ec, Hex. split; [lia|].
    replace (Z.of_nat (Z.to_nat (mi_id mi)) + 1 - 1)%Z
      with (Z.of_nat (Z.to_nat (mi_id mi))) by lia.
    rewrite Nat2Z.id.
    unfold filamentColours. rewrite padColors_fill.
    rewrite nth_error_app1
      by (rewrite length_map; apply nth_error_Some; congruence).
    rewrite nth_error_map, Hat. cbn [option_map]. f_equal.
    destruct Hc as [->|Hc]; [reflexivity|].
    now apply rgbToHexColor_sameColor.
  - unfold partExtruder. now rewrite A.
Qed.

(** X3 (a part is printed in its own colour).  In every package the model
    settings hold one part for each component, and the extruder written for
    the part of a mesh with a material is the 1-based position, in the
    [filament_colour] list of the project settings, of the colour of that
    mesh as [rgbToHexColor] writes it.  The part of a mesh without material
    is given extruder 1. *)
Theorem part_extruder_selects_own_colour (env : Env) (pw : option Matrix4)
    (o : Object3D) :
  match exportTo3MF env pw o with
  | Ok (_, zip) =>
      exists components materials pre post,
        entry "Metadata/model_settings.config" zip
        = Some (Raw (pre ++ String.concat nl (map partXml components) ++ post)%string)
        /\ entry "Metadata/project_settings.config" zip
           = Some (JsonDoc (projectSettings materials))
        /\ jsonField "filament_colour" (projectSettings materials)
           = Some (JArray (map JString (filamentColours materials)))
        /\ Forall2 (ownColour materials) (leafRecords pw o) components
  | Throw _ =>
      exists leaf, In leaf (leafRecords pw o)
                   /\ position (lr_geometry leaf) = None
  | OutOfFuel => False
  end.
Proof.
  pose proof (exportTo3MF_outcome env pw o) as H.
  destruct (exportTo3MF env pw o) as [[o' zip]|e|]; [|exact H|exact H].
  destruct H as [components [materials [Hrun [_ ->]]]].
  destruct (modelSettings_parts components) as [pre [post E]].
  exists components, materials, pre, post.
  split; [cbn; now rewrite E|]. split; [reflexivity|]. split; [reflexivity|].
  apply registry_inv_run in Hrun. destruct Hrun as [Hn [_ Hf]].
  cbn [fst snd] in *.
  eapply Forall2_impl; [|exact Hf].
  intros leaf comp A. now apply assigned_ownColour.
Qed.

(* ----------------------------------------------------------------- *)
(** *** The main model and the object model *)

Lemma toString_inj (n m : Z) : toString n = toString m -> n = m.
Proof.
  unfold toString. intro H.
  apply DecimalZ.to_int_inj.
  assert (N : forall z, Z.to_int z <> Decimal.Pos Decimal.Nil
                        /\ Z.to_int z <> Decimal.Neg Decimal.Nil).
  { intros [|p|p]; cbn; split; try discriminate.
    - intro E. injection E as E. revert E. apply DecimalPos.Unsigned.to_uint_nonnil.
    - intro E. injection E as E. revert E. apply DecimalPos.Unsigned.to_uint_nonnil. }
  destruct (N n) as [A1 A2]. destruct (N m) as [B1 B2].
  pose proof (DecimalString.NilZero.isi _ A1 A2) as I1.
  pose proof (DecimalString.NilZero.isi _ B1 B2) as I2.
  rewrite H in I1. congruence.
Qed.

Lemma elementsNamed_own {A} (t : string) (attrs : A -> list (string * attr))
    (l : list A) :
  flat_map (elementsNamed t) (map (fun a => Element t (attrs a) []) l)
  = map (fun a => Element t (attrs a) []) l.
Proof.
  induction l as [|a l IH]; cbn [map flat_map elementsNamed]; [reflexivity|].
  rewrite String.eqb_refl, IH. reflexivity.
Qed.

Lemma elementsNamed_other {A} (t tag : string)
    (attrs : A -> list (string * attr)) (l : list A) :
  String.eqb tag t = false ->
  flat_map (elementsNamed t) (map (fun a => Element tag (attrs a) []) l) = [].
Proof.
  intro N. induction l as [|a l IH]; cbn [map flat_map elementsNamed];
    [reflexivity|].
  rewrite N, IH. reflexivity.
Qed.

Lemma mainModel_components (env : Env) (components : list ComponentInfo) :
  docElements "component" (createMainModelXML env components)
  = map (fun comp =>
           Element "component"
             [("p:path"%string, AStr "/3D/Objects/object-97.model");
              ("objectid"%string, AStr (toString (ci_id comp)))] [])
        components.
Proof.
  unfold createMainModelXML, docElements.
  cbn [elementsNamed String.eqb Ascii.eqb Bool.eqb flat_map app].
  rewrite elementsNamed_own, !app_nil_r. reflexivity.
Qed.

Lemma snd_combine_seq {A} (l : list A) :
  forall start, map snd (combine (seq start (length l)) l) = l.
Proof.
  induction l as [|a l IH]; intro start; cbn; [reflexivity|].
  now rewrite IH.
Qed.

Lemma objectModel_objects (env : Env) (firstUUID : nat)
    (components : list ComponentInfo) :
  map (attribute "id")
      (docElements "object" (createObjectModelXML env firstUUID components))
  = map (fun comp => Some (AStr (toString (ci_id comp)))) components.
Proof.
  unfold createObjectModelXML, docElements, triangleElement.
  cbn [elementsNamed String.eqb Ascii.eqb Bool.eqb app].
  rewrite map_map.
  rewrite <- (snd_combine_seq components 0) at 3. rewrite (map_map snd).
  induction (combine (seq 0 (length components)) components) as [|[k c] l IH];
    [reflexivity|].
  cbn [map flat_map].
  cbn [elementsNamed String.eqb Ascii.eqb Bool.eqb flat_map app].
  rewrite !elementsNamed_other by reflexivity.
  cbn [app map attribute find fst snd String.eqb Ascii.eqb Bool.eqb option_map].
  f_equal. apply IH.
Qed.

Lemma NoDup_map_inj {A B} (f : A -> B) (l : list A) :
  (forall a c, f a = f c -> a = c) -> NoDup l -> NoDup (map f l).
Proof.
  intros I N. induction N as [|a l Hn N IH]; cbn; constructor; [|exact IH].
  intro H. apply in_map_iff in H. destruct H as [c [E Hc]].
  apply I in E. subst c. contradiction.
Qed.

(** X4 (component references resolve).  In every package the main model
    lists one component for each mesh of the scene, in pre-order; each
    gives the path of the object model and an object id, and the ids are
    100, 101, ... written in decimal, exactly the ids of the objects of the
    object model, in the same order and without repetition. *)
Theorem component_references_resolve (env : Env) (pw : option Matrix4)
    (o : Object3D) :
  match exportTo3MF env pw o with
  | Ok (_, zip) =>
      exists main objects,
        entry "3D/3dmodel.model" zip = Some main
        /\ entry "3D/Objects/object-97.model" zip = Some objects
        /\ map (attribute "objectid") (docElements "component" main)
           = map (fun k => Some (AStr (toString (100 + Z.of_nat k))))
                 (seq 0 (length (leafRecords pw o)))
        /\ map (attribute "id") (docElements "object" objects)
           = map (attribute "objectid") (docElements "component" main)
        /\ NoDup (map (attribute "id") (docElements "object" objects))
        /\ Forall (fun c => attribute "p:path" c
                            = Some (AStr "/3D/Objects/object-97.model"))
                  (docElements "component" main)
  | Throw _ =>
      exists leaf, In leaf (leafRecords pw o)
                   /\ position (lr_geometry leaf) = None
  | OutOfFuel => False
  end.
Proof.
  pose proof (exportTo3MF_outcome env pw o) as H.
  destruct (exportTo3MF env pw o) as [[o' zip]|e|]; [|exact H|exact H].
  destruct H as [components [materials [Hrun [_ ->]]]].
  apply ids_run in Hrun. cbn [fst] in Hrun.
  exists (createMainModelXML env components),
    (createObjectModelXML env 3 components).
  split; [reflexivity|]. split; [reflexivity|].
  rewrite mainModel_components, objectModel_objects, map_map.
  cbn [attribute find fst snd String.eqb Ascii.eqb Bool.eqb option_map].
  assert (E : map (fun comp => Some (AStr (toString (ci_id comp)))) components
              = map (fun k => Some (AStr (toString (100 + Z.of_nat k))))
                    (seq 0 (length (leafRecords pw o)))).
  { rewrite <- (map_map ci_id (fun i => Some (AStr (toString i)))), Hrun.
    now rewrite map_map. }
  split; [exact E|]. split; [reflexivity|]. split.
  - rewrite E. apply NoDup_map_inj; [|apply seq_NoDup].
    intros a c Eq.
    assert (Es : toString (100 + Z.of_nat a) = toString (100 + Z.of_nat c))
      by congruence.
    apply toString_inj in Es. lia.
  - apply Forall_forall. intros c Hc. apply in_map_iff in Hc.
    destruct Hc as [comp [<- _]]. reflexivity.
Qed.

(* ----------------------------------------------------------------- *)
(** *** The project settings *)

(** X5 (per-filament arrays).  The four per-filament arrays of the project
    settings ([filament_colour], [filament_settings_id],
    [filament_diameter], [filament_is_support]) have one and the same
    length, the number of materials and at least two. *)
Theorem filament_arrays_have_one_length (materials : list MaterialInfo) :
  Forall (fun key =>
            option_map arrayLength (jsonField key (projectSettings materials))
            = Some (Some (Nat.max 2 (length materials))))
         ["filament_colour"; "filament_settings_id"; "filament_diameter";
          "filament_is_support"]%string.
Proof.
  assert (L : length (filamentColours materials) = Nat.max 2 (length materials)).
  { unfold filamentColours. rewrite padColors_fill, length_app, length_map,
      repeat_length. lia. }
  repeat constructor;
    cbn [jsonField projectSettings find fst snd String.eqb Ascii.eqb Bool.eqb
         option_map arrayLength];
    rewrite ?length_map, ?repeat_length, L; reflexivity.
Qed.

(* ----------------------------------------------------------------- *)
(** *** The merged exporter against [3mf-exporter.ts] *)

Lemma mergeComponents_snoc (cs : list ComponentInfo) (c : ComponentInfo) :
  forall offset,
    mergeComponents offset (cs ++ [c])
    = mergeComponents offset cs
      ++ map (rebase (offset + len (flat_map ci_vertices cs))
                     (option_map mi_id (ci_material c)))
             (ci_triangles c).
Proof.
  induction cs as [|d cs IH]; intro offset; cbn [app mergeComponents flat_map].
  - rewrite app_nil_r. unfold len. cbn [length]. now rewrite Z.add_0_r.
  - rewrite IH, <- app_assoc. f_equal. f_equal.
    replace (offset + len (ci_vertices d) + len (flat_map ci_vertices cs))%Z
      with (offset + len (ci_vertices d ++ flat_map ci_vertices cs))%Z;
      [reflexivity|].
    unfold len. rewrite length_app. lia.
Qed.

Lemma meshTriangles_rebase (offset : Z) (leaf : LeafRecord) (ps : list Vector3)
    (pid : option Z) :
  Merged.meshTriangles offset (index (lr_geometry leaf)) (length ps) pid
  = map (rebase offset pid)
        match index (lr_geometry leaf) with
        | Some indexAttr => indexedTriangles indexAttr
        | None => sequentialTriangles (length ps)
        end.
Proof.
  unfold Merged.meshTriangles, indexedTriangles, sequentialTriangles.
  destruct (index (lr_geometry leaf)) as [idx|]; rewrite map_map;
    apply map_ext; intro i; unfold rebase; cbn [v1 v2 v3 add];
    [reflexivity|]. f_equal; f_equal; lia.
Qed.

(** Both exporters, leaf by leaf: the merged arrays are the components
    laid end to end. *)
Lemma pairLeaf_merges (pre : list LeafRecord) (leaf : LeafRecord)
    (st st' : State * Merged.State) :
  (merged_agrees pre st
   /\ fst (fst (snd st)) = flat_map ci_vertices (fst (fst st))
   /\ snd (fst (snd st)) = mergeComponents 0 (fst (fst st))) ->
  pairLeaf leaf st = Ok st' ->
  merged_agrees (pre ++ [leaf]) st'
  /\ fst (fst (snd st')) = flat_map ci_vertices (fst (fst st'))
  /\ snd (fst (snd st')) = mergeComponents 0 (fst (fst st')).
Proof.
  intros [HA [HV HT]] Hstep.
  split; [eapply pairLeaf_agrees; eassumption|].
  destruct st as [[comps mats] [[vs ts] ms]]. cbn [fst snd] in *.
  destruct HA as [Hms _]. subst ms vs ts.
  unfold pairLeaf in Hstep. cbn [fst snd] in Hstep.
  destruct (collectLeaf leaf (comps, mats)) as [se| |] eqn:E1; try discriminate.
  cbn [bind] in Hstep.
  destruct (processLeaf leaf _) as [sm| |] eqn:E2; try discriminate.
  cbn [bind] in Hstep. injection Hstep as <-. cbn [fst snd].
  apply collectLeaf_Ok in E1.
  destruct E1 as [c [ps [mats' [-> [P [_ [Hv [Ht [_ Hm]]]]]]]]].
  cbn [fst].
  unfold processLeaf, Merged.processMesh in E2. rewrite P in E2.
  assert (G : sm = (flat_map ci_vertices comps
                    ++ map (fun v => applyMatrix4 v (lr_world leaf)) ps,
                    mergeComponents 0 comps
                    ++ Merged.meshTriangles (len (flat_map ci_vertices comps))
                         (index (lr_geometry leaf)) (length ps)
                         (option_map mi_id (ci_material c)),
                    snd sm)).
  { destruct (lr_material leaf) as [m|].
    - destruct Hm as [mi [R ->]].
      rewrite registerMaterial_merged, R in E2. cbn [fst snd] in E2.
      injection E2 as <-. reflexivity.
    - destruct Hm as [-> ->]. injection E2 as <-. reflexivity. }
  rewrite G. cbn [fst snd]. split.
  - rewrite flat_map_app. cbn [flat_map]. now rewrite app_nil_r, Hv.
  - rewrite mergeComponents_snoc, meshTriangles_rebase, Ht. reflexivity.
Qed.

Lemma paired_outcome (leaves : list LeafRecord) :
  match foldM collectLeaf leaves ([], []),
        foldM processLeaf leaves ([], [], []) with
  | Ok se, Ok sm =>
      merged_agrees leaves (se, sm)
      /\ fst (fst sm) = flat_map ci_vertices (fst se)
      /\ snd (fst sm) = mergeComponents 0 (fst se)
  | Throw _, Throw _ => True
  | _, _ => False
  end.
Proof.
  pose proof (paired_run leaves ([], []) ([], [], [])) as H.
  destruct (foldM collectLeaf leaves ([], [])) as [se| |];
    destruct (foldM processLeaf leaves ([], [], [])) as [sm| |]; try exact H.
  change leaves with ([] ++ leaves).
  apply (foldM_invariant pairLeaf
           (fun pre st =>
              merged_agrees pre st
              /\ fst (fst (snd st)) = flat_map ci_vertices (fst (fst st))
              /\ snd (fst (snd st)) = mergeComponents 0 (fst (fst st)))
           pairLeaf_merges leaves [] (([], []), ([], [], [])));
    [|exact H].
  cbn. auto.
Qed.

(** A run of the merged exporter that returns, told by the run of
    [3mf-exporter.ts] over the same leaves. *)
Lemma merged_by_components (leaves : list LeafRecord) (sm : Merged.State) :
  foldM processLeaf leaves ([], [], []) = Ok sm ->
  exists components materials,
    foldM collectLeaf leaves ([], []) = Ok (components, materials)
    /\ sm = (flat_map ci_vertices components, mergeComponents 0 components,
             map withoutExtruder materials).
Proof.
  intro H. pose proof (paired_outcome leaves) as P. rewrite H in P.
  destruct (foldM collectLeaf leaves ([], [])) as [[components materials]| |];
    try contradiction.
  exists components, materials. split; [reflexivity|].
  destruct sm as [[vs ts] ms]. cbn [fst snd] in P.
  destruct P as [[-> _] [-> ->]]. reflexivity.
Qed.

Lemma mergeComponents_pids (components : list ComponentInfo) :
  forall offset t, In t (mergeComponents offset components) ->
    exists c, In c components
              /\ Merged.pid t = option_map mi_id (ci_material c).
Proof.
  induction components as [|c cs IH]; intros offset t H; [contradiction|].
  cbn [mergeComponents] in H. apply in_app_or in H. destruct H as [H|H].
  - apply in_map_iff in H. destruct H as [t0 [<- _]].
    exists c. split; [left|]; reflexivity.
  - apply IH in H. destruct H as [c' [Hc E]]. exists c'. split; [right|]; assumption.
Qed.

Lemma Forall2_In_r {A B} (R : A -> B -> Prop) (l : list A) (l' : list B) (c : B) :
  Forall2 R l l' -> In c l' -> exists a, In a l /\ R a c.
Proof.
  induction 1 as [|a0 c0 l l' H0 H IH]; intro Hc; [contradiction|].
  destruct Hc as [->|Hc].
  - exists a0. split; [left; reflexivity | exact H0].
  - destruct (IH Hc) as [a [Ha Hr]]. exists a. split; [right|]; assumption.
Qed.

(** The material of a component is an entry of the table, at the place
    its id names. *)
Lemma component_material_in_table (leaves : list LeafRecord) (st : State)
    (c : ComponentInfo) (mi : MaterialInfo) :
  registry_inv leaves st -> In c (fst st) -> ci_material c = Some mi ->
  (0 <= mi_id mi < len (snd st))%Z.
Proof.
  intros [Hn [_ Hf]] Hc Hm.
  destruct (@Forall2_In_r _ _ _ _ _ c Hf Hc) as [leaf [_ A]].
  unfold assigned in A. destruct (lr_material leaf) as [m|]; [|congruence].
  destruct A as [mi' [E [Hat _]]]. assert (mi' = mi) by congruence. subst mi'.
  assert (L : Z.to_nat (mi_id mi) < length (snd st))
    by (apply nth_error_Some; congruence).
  destruct (Hn _ _ Hat) as [Hid _]. unfold len. lia.
Qed.

(** The table is empty exactly when no leaf has a material. *)
Lemma table_empty_run (leaves : list LeafRecord) (st' : State) :
  foldM collectLeaf leaves ([], []) = Ok st' ->
  existsb hasMaterial leaves = negb (Nat.eqb (length (snd st')) 0).
Proof.
  intro H. change leaves with ([] ++ leaves).
  eapply (foldM_invariant collectLeaf
            (fun pre st =>
               existsb hasMaterial pre = negb (Nat.eqb (length (snd st)) 0)));
    [| |exact H]; [|reflexivity].
  intros pre leaf [comps mats] st1 HI Hstep. cbn [snd] in *.
  apply collectLeaf_Ok in Hstep.
  destruct Hstep as [c [ps [mats' [-> [_ [_ [_ [_ [_ Hm]]]]]]]]].
  cbn [snd]. rewrite existsb_app. cbn [existsb]. unfold hasMaterial at 2.
  destruct (lr_material leaf) as [m|].
  - destruct Hm as [mi [R _]]. rewrite !orb_true_r.
    unfold registerMaterial in R.
    destruct (find _ mats) as [e|] eqn:F; injection R as _ <-.
    + apply find_some in F. destruct F as [F _].
      destruct mats; [contradiction | reflexivity].
    + rewrite length_app. cbn [length]. rewrite Nat.add_1_r. reflexivity.
  - destruct Hm as [_ ->]. now rewrite !orb_false_r.
Qed.

Lemma elementsNamed_triangleElements (t : string) (ts : list Merged.Triangle) :
  flat_map (elementsNamed t) (map MergedPackage.triangleElement ts)
  = if String.eqb "triangle" t then map MergedPackage.triangleElement ts else [].
Proof.
  induction ts as [|x ts IH]; [now destruct (String.eqb _ _)|].
  cbn [map flat_map]. rewrite IH. unfold MergedPackage.triangleElement at 1.
  cbn [elementsNamed flat_map]. destruct (String.eqb "triangle" t); reflexivity.
Qed.

Lemma elementsNamed_baseElements (radix16 : float -> string) (t : string)
    (ms : list Merged.MaterialInfo) :
  flat_map (elementsNamed t) (map (MergedPackage.baseElement radix16) ms)
  = if String.eqb "base" t then map (MergedPackage.baseElement radix16) ms else [].
Proof.
  induction ms as [|x ms IH]; [now destruct (String.eqb _ _)|].
  cbn [map flat_map]. rewrite IH. unfold MergedPackage.baseElement at 1.
  cbn [elementsNamed flat_map]. destruct (String.eqb "base" t); reflexivity.
Qed.

Lemma elementsNamed_vertexElements (nts : float -> string) (t : string)
    (vs : list Vector3) :
  flat_map (elementsNamed t) (map (vertexElement nts) vs)
  = if String.eqb "vertex" t then map (vertexElement nts) vs else [].
Proof.
  induction vs as [|x vs IH]; [now destruct (String.eqb _ _)|].
  cbn [map flat_map]. rewrite IH. unfold vertexElement at 1.
  cbn [elementsNamed flat_map]. destruct (String.eqb "vertex" t); reflexivity.
Qed.

(** What the merged document holds, tag by tag. *)
Lemma modelDocument_elements (env : Env) (radix16 : float -> string)
    (vs : list Vector3) (ts : list Merged.Triangle)
    (ms : list Merged.MaterialInfo) :
  let doc := MergedPackage.modelDocument env radix16 (vs, ts, ms) in
  docElements "vertex" doc = map (vertexElement (numberToString env)) vs
  /\ docElements "triangle" doc = map MergedPackage.triangleElement ts
  /\ docElements "base" doc = map (MergedPackage.baseElement radix16) ms
  /\ docElements "basematerials" doc
     = match ms with
       | [] => []
       | _ => [Element "basematerials" [("id"%string, AStr "0")]
                 (map (MergedPackage.baseElement radix16) ms)]
       end.
Proof.
  unfold MergedPackage.modelDocument, docElements.
  change (map (fun v => Element "vertex" _ []) vs)
    with (map (vertexElement (numberToString env)) vs).
  destruct ms as [|m ms].
  - cbn [len length Z.of_nat Z.ltb Z.compare app].
    cbn [elementsNamed String.eqb Ascii.eqb Bool.eqb flat_map app].
    rewrite !elementsNamed_triangleElements, !elementsNamed_vertexElements.
    cbn [String.eqb Ascii.eqb Bool.eqb app map]. rewrite !app_nil_r. auto.
  - assert (L : (0 <? len (m :: ms))%Z = true) by (apply Z.ltb_lt; unfold len; cbn [length]; lia).
    rewrite L. set (bs := m :: ms).
    cbn [elementsNamed String.eqb Ascii.eqb Bool.eqb flat_map app].
    rewrite !elementsNamed_triangleElements, !elementsNamed_vertexElements,
      !elementsNamed_baseElements.
    cbn [String.eqb Ascii.eqb Bool.eqb app map]. rewrite !app_nil_r. auto.
Qed.

(** What [createModelXML] returns, in terms of the run over the leaves. *)
Lemma createModelXML_outcome (env : Env) (radix16 : float -> string)
    (pw : option Matrix4) (o : Object3D) :
  match MergedPackage.createModelXML env radix16 pw o with
  | Ok (o', doc) =>
      exists components materials,
        foldM collectLeaf (leafRecords pw o) ([], []) = Ok (components, materials)
        /\ foldM processLeaf (leafRecords pw o) ([], [], [])
           = Ok (flat_map ci_vertices components, mergeComponents 0 components,
                 map withoutExtruder materials)
        /\ o' = updateMatrixWorld pw true o
        /\ doc = MergedPackage.modelDocument env radix16
                   (flat_map ci_vertices components,
                    mergeComponents 0 components,
                    map withoutExtruder materials)
  | Throw _ =>
      exists leaf, In leaf (leafRecords pw o)
                   /\ position (lr_geometry leaf) = None
  | OutOfFuel => False
  end.
Proof.
  unfold MergedPackage.createModelXML.
  pose proof (process_outcome pw o ([], [], [])) as H.
  destruct (Merged.processObject (height o) pw o ([], [], []))
    as [[o' sm]|e|]; cbn [bind]; [|exact H|exact H].
  destruct H as [-> Hrun].
  destruct (merged_by_components _ Hrun) as [components [materials [Hc ->]]].
  exists components, materials. auto.
Qed.

(** X6 (material references of the merged document).  The merged document
    holds a [basematerials] resource, with id 0, exactly when some mesh of
    the scene has a material.  Every triangle either carries neither [pid]
    nor [p1], or carries [pid] 0, the id of that resource, and a [p1] that
    is a position in its list of [base] elements. *)
Theorem merged_material_references_resolve (env : Env)
    (radix16 : float -> string) (pw : option Matrix4) (o : Object3D) :
  match MergedPackage.createModelXML env radix16 pw o with
  | Ok (_, doc) =>
      length (docElements "basematerials" doc)
      = (if existsb hasMaterial (leafRecords pw o) then 1 else 0)
      /\ Forall (fun resource => attribute "id" resource = Some (AStr "0"))
                (docElements "basematerials" doc)
      /\ Forall (materialReference (length (docElements "base" doc)))
                (docElements "triangle" doc)
  | Throw _ =>
      exists leaf, In leaf (leafRecords pw o)
                   /\ position (lr_geometry leaf) = None
  | OutOfFuel => False
  end.
Proof.
  pose proof (createModelXML_outcome env radix16 pw o) as H.
  destruct (MergedPackage.createModelXML env radix16 pw o) as [[o' doc]|e|];
    [|exact H|exact H].
  destruct H as [components [materials [Hc [_ [_ ->]]]]].
  destruct (modelDocument_elements env radix16 (flat_map ci_vertices components)
              (mergeComponents 0 components) (map withoutExtruder materials))
    as [_ [Et [Eb Er]]].
  rewrite Et, Eb, Er. clear Et Eb Er.
  pose proof (table_empty_run _ Hc) as Hempty. cbn [snd] in Hempty.
  pose proof (registry_inv_run _ Hc) as Hinv.
  split; [|split].
  - rewrite Hempty. destruct materials; reflexivity.
  - destruct materials; repeat constructor.
  - rewrite Forall_map. apply Forall_forall. intros t Ht.
    apply mergeComponents_pids in Ht. destruct Ht as [c [Hin Hp]].
    unfold materialReference, MergedPackage.triangleElement, attribute.
    rewrite Hp. destruct (ci_material c) as [mi|] eqn:Em; cbn; [|reflexivity].
    split; [reflexivity|].
    pose proof (@component_material_in_table _ _ c mi Hinv Hin Em) as R.
    cbn [snd] in R. unfold len in R. now rewrite !length_map.
Qed.

(** The names in the table of [3mf-exporter.ts]: that of the mesh that
    brought the colour, with [_material] after it, or [material_] and the
    id. *)
Lemma material_names_run (leaves : list LeafRecord) (st' : State) :
  foldM collectLeaf leaves ([], []) = Ok st' ->
  Forall (fun mi =>
            (exists leaf, In leaf leaves /\ truthy (lr_name leaf) = true
                          /\ mi_name mi = (lr_name leaf ++ "_material")%string)
            \/ mi_name mi = ("material_" ++ toString (mi_id mi))%string)
         (snd st').
Proof.
  intro H. change leaves with ([] ++ leaves).
  eapply (foldM_invariant collectLeaf
            (fun pre st =>
               Forall (fun mi =>
                         (exists leaf, In leaf pre /\ truthy (lr_name leaf) = true
                            /\ mi_name mi = (lr_name leaf ++ "_material")%string)
                         \/ mi_name mi = ("material_" ++ toString (mi_id mi))%string)
                      (snd st)));
    [| |exact H]; [|constructor].
  intros pre leaf [comps mats] st1 HI Hstep. cbn [snd] in *.
  apply collectLeaf_Ok in Hstep.
  destruct Hstep as [c [ps [mats' [-> [_ [_ [_ [_ [_ Hm]]]]]]]]].
  cbn [snd].
  assert (Old : Forall (fun mi =>
            (exists l, In l (pre ++ [leaf]) /\ truthy (lr_name l) = true
                       /\ mi_name mi = (lr_name l ++ "_material")%string)
            \/ mi_name mi = ("material_" ++ toString (mi_id mi))%string) mats).
  { eapply Forall_impl; [|exact HI]. intros mi [[l [Hl R]]|R]; [left|right; exact R].
    exists l. split; [apply in_or_app; left; exact Hl | exact R]. }
  destruct (lr_material leaf) as [m|].
  - destruct Hm as [mi [R _]]. unfold registerMaterial in R.
    destruct (find _ mats) as [e|]; injection R as _ <-; [exact Old|].
    apply Forall_app. split; [exact Old|]. constructor; [|constructor].
    cbn [mi_name mi_id]. destruct (truthy (lr_name leaf)) eqn:T.
    + left. exists leaf. split; [apply in_or_app; right; left; reflexivity|].
      split; [exact T | reflexivity].
    + right. reflexivity.
  - destruct Hm as [_ ->]. exact Old.
Qed.

Lemma truthy_app_l (s t : string) : truthy s = true -> truthy (s ++ t) = true.
Proof. destruct s; [discriminate | reflexivity]. Qed.

(** X7 (names and colours of the base materials).  The [base] elements
    are those of the registered materials, in table order.  The name
    written is always the registered name, never the fallback [color_] and
    the id: a registered name is that of a mesh of the scene followed by
    [_material], or [material_] and the id, and is not empty.  The colour
    written is [rgbToHexColor] of the registered colour. *)
Theorem merged_base_names (env : Env) (radix16 : float -> string)
    (pw : option Matrix4) (o : Object3D) :
  match MergedPackage.createModelXML env radix16 pw o with
  | Ok (_, doc) =>
      exists vertices triangles materials,
        foldM processLeaf (leafRecords pw o) ([], [], [])
        = Ok (vertices, triangles, materials)
        /\ map (attribute "name") (docElements "base" doc)
           = map (fun m => Some (AStr (Merged.mname m))) materials
        /\ map (attribute "displaycolor") (docElements "base" doc)
           = map (fun m => Some (AStr (MergedPackage.rgbToHexColor radix16
                                         (Merged.color m)))) materials
        /\ Forall (fun m =>
                     (exists leaf,
                        In leaf (leafRecords pw o)
                        /\ truthy (lr_name leaf) = true
                        /\ Merged.mname m = (lr_name leaf ++ "_material")%string)
                     \/ Merged.mname m
                        = ("material_" ++ toString (Merged.id m))%string)
                  materials
  | Throw _ =>
      exists leaf, In leaf (leafRecords pw o)
                   /\ position (lr_geometry leaf) = None
  | OutOfFuel => False
  end.
Proof.
  pose proof (createModelXML_outcome env radix16 pw o) as H.
  destruct (MergedPackage.createModelXML env radix16 pw o) as [[o' doc]|e|];
    [|exact H|exact H].
  destruct H as [components [materials [Hc [Hp [_ ->]]]]].
  eexists; eexists; eexists. split; [exact Hp|].
  destruct (modelDocument_elements env radix16 (flat_map ci_vertices components)
              (mergeComponents 0 components) (map withoutExtruder materials))
    as [_ [_ [Eb _]]].
  rewrite Eb. clear Eb.
  pose proof (material_names_run _ Hc) as N. cbn [snd] in N.
  assert (F : Forall (fun m =>
                (exists leaf,
                   In leaf (leafRecords pw o) /\ truthy (lr_name leaf) = true
                   /\ Merged.mname m = (lr_name leaf ++ "_material")%string)
                \/ Merged.mname m = ("material_" ++ toString (Merged.id m))%string)
              (map withoutExtruder materials)).
  { rewrite Forall_map. eapply Forall_impl; [|exact N].
    intros mi R. exact R. }
  split; [|split; [|exact F]].
  - rewrite map_map. apply map_ext_in. intros m Hm.
    rewrite Forall_forall in F. specialize (F m Hm).
    unfold MergedPackage.baseElement, attribute.
    cbn [find fst snd String.eqb Ascii.eqb Bool.eqb option_map].
    replace (truthy (Merged.mname m)) with true; [reflexivity|].
    symmetry. destruct F as [[leaf [_ [T ->]]]| ->];
      [now apply truthy_app_l | reflexivity].
  - rewrite map_map. apply map_ext. intro m. reflexivity.
Qed.

Lemma mergeComponents_length (components : list ComponentInfo) :
  forall offset,
    length (mergeComponents offset components)
    = list_sum (map (fun c => length (ci_triangles c)) components).
Proof.
  induction components as [|c cs IH]; intro offset; [reflexivity|].
  cbn [mergeComponents map list_sum fold_right].
  rewrite length_app, length_map, IH. reflexivity.
Qed.

Lemma sampled_triangle_count (leaves : list LeafRecord)
    (components : list ComponentInfo) :
  Forall2 sampled leaves components ->
  list_sum (map (fun c => length (ci_triangles c)) components)
  = list_sum (map (fun leaf => (streamLength (lr_geometry leaf) + 2) / 3) leaves).
Proof.
  induction 1 as [|leaf c ls cs [ps [P [_ [T _]]]] S IH]; [reflexivity|].
  unfold list_sum in *. cbn [map fold_right]. rewrite IH. f_equal.
  rewrite T. unfold streamLength, indexedTriangles, sequentialTriangles.
  rewrite P. destruct (index (lr_geometry leaf));
    now rewrite length_map, steps3_length.
Qed.

(** X8 (archive of the merged exporter).  A call of the merged
    [exportTo3MF] that returns gives three files, the content types, the
    relationships and the model, in this order.  The model is one object
    with one build item; it declares one vertex for every vertex of every
    mesh and one triangle for every started group of three entries of the
    stream of every mesh, hence none for a scene without meshes.  A call
    throws only when a mesh has no position attribute. *)
Theorem merged_archive (env : Env) (radix16 : float -> string)
    (pw : option Matrix4) (o : Object3D) :
  match MergedPackage.exportTo3MF env radix16 pw o with
  | Ok (o', zip) =>
      exists doc,
        MergedPackage.createModelXML env radix16 pw o = Ok (o', doc)
        /\ zip = [("[Content_Types].xml", MergedPackage.contentTypesXML);
                  ("_rels/.rels", MergedPackage.relationshipsXML);
                  ("3D/3dmodel.model", doc)]%string
        /\ length (docElements "vertex" doc)
           = list_sum (map vertexCount (leafRecords pw o))
        /\ length (docElements "triangle" doc)
           = list_sum (map (fun leaf => (streamLength (lr_geometry leaf) + 2) / 3)
                           (leafRecords pw o))
        /\ length (docElements "object" doc) = 1
        /\ length (docElements "item" doc) = 1
  | Throw _ =>
      exists leaf, In leaf (leafRecords pw o)
                   /\ position (lr_geometry leaf) = None
  | OutOfFuel => False
  end.
Proof.
  unfold MergedPackage.exportTo3MF.
  pose proof (createModelXML_outcome env radix16 pw o) as H.
  destruct (MergedPackage.createModelXML env radix16 pw o) as [[o' doc]|e|];
    cbn [bind]; [|exact H|exact H].
  destruct H as [components [materials [Hc [Hp [_ ->]]]]].
  eexists. split; [reflexivity|]. split; [reflexivity|].
  destruct (modelDocument_elements env radix16 (flat_map ci_vertices components)
              (mergeComponents 0 components) (map withoutExtruder materials))
    as [Ev [Et _]].
  rewrite Ev, Et, !length_map.
  pose proof (merged_run _ Hp) as [_ [Hv _]]. cbn [fst] in Hv.
  split; [exact Hv|]. split.
  - rewrite mergeComponents_length.
    pose proof (sampled_run _ Hc) as S. cbn [fst] in S.
    now apply sampled_triangle_count.
  - unfold MergedPackage.modelDocument, docElements.
    destruct materials as [|m ms].
    + cbn [map len length Z.of_nat Z.ltb Z.compare app].
      cbn [elementsNamed String.eqb Ascii.eqb Bool.eqb flat_map app].
      change (map (fun v => Element "vertex" _ []) ?vs)
        with (map (vertexElement (numberToString env)) vs).
      rewrite !elementsNamed_triangleElements.
      rewrite !(elementsNamed_vertexElements (numberToString env)).
      split; reflexivity.
    + cbn [map].
      set (bs := withoutExtruder m :: map withoutExtruder ms).
      assert (L : (0 <? len bs)%Z = true)
        by (apply Z.ltb_lt; unfold len, bs; cbn [length]; lia).
      rewrite L.
      cbn [elementsNamed String.eqb Ascii.eqb Bool.eqb flat_map app].
      rewrite !elementsNamed_triangleElements, !elementsNamed_baseElements.
      rewrite !(elementsNamed_vertexElements (numberToString env)).
      split; reflexivity.
Qed.

(** X9 (the merged mesh is the components laid end to end).  On one scene
    the two exporters return together or throw together.  When they
    return, the merged vertex array is the concatenation of the vertex
    lists of the components of [3mf-exporter.ts], and the merged triangles
    are the triangles of the components, each index shifted by the number
    of vertices of the components before and each triangle tagged with the
    id of the material of its component. *)
Theorem merged_is_components_end_to_end (pw : option Matrix4) (o : Object3D) :
  match collectComponents (height o) pw o ([], []),
        Merged.processObject (height o) pw o ([], [], []) with
  | Ok (_, (components, _)), Ok (_, (vertices, triangles, _)) =>
      vertices = flat_map ci_vertices components
      /\ triangles = mergeComponents 0 components
  | Throw _, Throw _ => True
  | _, _ => False
  end.
Proof.
  rewrite collectComponents_leaves, processObject_leaves by apply Nat.le_refl.
  pose proof (paired_outcome (leafRecords pw o)) as H.
  destruct (foldM collectLeaf (leafRecords pw o) ([], []))
    as [[components materials]| |];
    destruct (foldM processLeaf (leafRecords pw o) ([], [], []))
      as [[[vertices triangles] ms]| |];
    cbn [bind]; try exact H.
  cbn [fst snd] in H. tauto.
Qed.

(* ----------------------------------------------------------------- *)
(** *** The legacy exporter *)

Lemma updateAncestors_world (ps : list LegacyExport.Placement) :
  forall pw,
    snd (LegacyExport.updateAncestors pw ps)
    = fold_left (fun w p => Some (LegacyExport.worldUnder w p)) ps pw.
Proof.
  induction ps as [|p ps IH]; intro pw; [reflexivity|].
  cbn [LegacyExport.updateAncestors fold_left].
  specialize (IH (Some (LegacyExport.p_matrixWorld
                          (LegacyExport.updatePlacement pw p)))).
  destruct (LegacyExport.updateAncestors _ ps) as [rest w].
  cbn [snd] in *. exact IH.
Qed.

(** The [matrixWorld] that [updateWorldMatrix] leaves in the mesh is the
    world transform composed from the root down. *)
Lemma matrixWorld_updateWorldMatrix (mesh : LegacyExport.Mesh) :
  LegacyExport.p_matrixWorld
    (LegacyExport.placement (LegacyExport.updateWorldMatrix mesh))
  = legacyWorld mesh.
Proof.
  unfold LegacyExport.updateWorldMatrix, legacyWorld.
  rewrite <- updateAncestors_world.
  destruct (LegacyExport.updateAncestors None (LegacyExport.ancestors mesh))
    as [rest w].
  reflexivity.
Qed.

Lemma withoutCaches_updatePlacement (pw : option Matrix4)
    (p : LegacyExport.Placement) :
  withoutCaches (LegacyExport.updatePlacement pw p) = withoutCaches p.
Proof.
  unfold withoutCaches, LegacyExport.updatePlacement.
  cbn [LegacyExport.p_auto LegacyExport.p_local LegacyExport.p_matrix].
  destruct (LegacyExport.p_auto p); reflexivity.
Qed.

Lemma withoutCaches_updateAncestors (ps : list LegacyExport.Placement) :
  forall pw,
    map withoutCaches (fst (LegacyExport.updateAncestors pw ps))
    = map withoutCaches ps.
Proof.
  induction ps as [|p ps IH]; intro pw; [reflexivity|].
  cbn [LegacyExport.updateAncestors].
  specialize (IH (Some (LegacyExport.p_matrixWorld
                          (LegacyExport.updatePlacement pw p)))).
  destruct (LegacyExport.updateAncestors _ ps) as [rest w].
  cbn [fst map] in *. now rewrite IH, withoutCaches_updatePlacement.
Qed.

(** [updateWorldMatrix] writes caches only. *)
Lemma legacyDropCaches_updateWorldMatrix (mesh : LegacyExport.Mesh) :
  legacyDropCaches (LegacyExport.updateWorldMatrix mesh) = legacyDropCaches mesh.
Proof.
  unfold LegacyExport.updateWorldMatrix, legacyDropCaches.
  pose proof (withoutCaches_updateAncestors (LegacyExport.ancestors mesh) None)
    as A.
  destruct (LegacyExport.updateAncestors None (LegacyExport.ancestors mesh))
    as [rest w].
  cbn [fst] in A.
  cbn [LegacyExport.uid LegacyExport.geometry LegacyExport.material
       LegacyExport.ancestors LegacyExport.placement].
  now rewrite A, withoutCaches_updatePlacement.
Qed.

(** The loop over the meshes: the lines and the counter are those of a
    run of [pushedLines], and every mesh is left as [updateWorldMatrix]
    leaves it. *)
Lemma forEach_pushMesh (nts : float -> string) (scale : float)
    (ids : list (nat * Z)) (meshes : list LegacyExport.Mesh) :
  forall st,
    forEach (LegacyExport.pushMesh nts scale ids) meshes st
    = (st' <- foldM (pushedLines nts scale ids) meshes st ;;
       Ok (map LegacyExport.updateWorldMatrix meshes, st')).
Proof.
  induction meshes as [|mesh meshes IH]; intro st; [reflexivity|].
  cbn [forEach foldM map]. unfold pushedLines at 1.
  destruct st as [xmlBuilder objectId].
  unfold LegacyExport.pushMesh.
  destruct (Legacy.vertexLines nts scale _ _) as [vertices|e|];
    cbn [bind]; try reflexivity.
  rewrite IH.
  match goal with
  | |- context [foldM ?f meshes ?s] => destruct (foldM f meshes s) as [st'|e|]
  end; reflexivity.
Qed.

Lemma mapGet_mapSet_same {V} (key : nat) (v : V) (m : list (nat * V)) :
  LegacyExport.mapGet Nat.eqb key (LegacyExport.mapSet Nat.eqb key v m) = Some v.
Proof.
  unfold LegacyExport.mapGet. induction m as [|[k w] m IH]; cbn [LegacyExport.mapSet find fst].
  - now rewrite Nat.eqb_refl.
  - destruct (Nat.eqb k key) eqn:E; cbn [find fst]; rewrite E; [reflexivity|].
    exact IH.
Qed.

Lemma mapGet_mapSet_other {V} (key key' : nat) (v : V) (m : list (nat * V)) :
  key' <> key ->
  LegacyExport.mapGet Nat.eqb key' (LegacyExport.mapSet Nat.eqb key v m)
  = LegacyExport.mapGet Nat.eqb key' m.
Proof.
  intro N. unfold LegacyExport.mapGet.
  induction m as [|[k w] m IH]; cbn [LegacyExport.mapSet find fst].
  - destruct (Nat.eqb_spec key key'); [congruence | reflexivity].
  - destruct (Nat.eqb k key) eqn:E; cbn [find fst].
    + apply Nat.eqb_eq in E. subst k.
      destruct (Nat.eqb_spec key key'); [congruence | reflexivity].
    + destruct (Nat.eqb k key'); [reflexivity | exact IH].
Qed.

Lemma keysCount_nth (materialMap : list (Z * Color)) (i : nat) (e : Z * Color) :
  keysCount materialMap -> nth_error materialMap i = Some e ->
  fst e = (1 + Z.of_nat i)%Z.
Proof.
  intros K H. assert (L : i < length materialMap)
    by (apply nth_error_Some; congruence).
  apply (f_equal (fun l => nth_error l i)) in K.
  rewrite !nth_error_map, H, nth_error_seq in K.
  destruct (Nat.ltb_spec i (length materialMap)); [|lia].
  cbn in K. now injection K.
Qed.

Lemma mapSet_absent (key : Z) (c : Color) (m : list (Z * Color)) :
  Forall (fun e => fst e <> key) m ->
  LegacyExport.mapSet Z.eqb key c m = m ++ [(key, c)].
Proof.
  induction 1 as [|[k w] m Hk F IH]; cbn [LegacyExport.mapSet app]; [reflexivity|].
  cbn [fst] in Hk. destruct (Z.eqb_spec k key); [contradiction|].
  now rewrite IH.
Qed.

Lemma mapSet_fresh (materialMap : list (Z * Color)) (c : Color) :
  keysCount materialMap ->
  LegacyExport.mapSet Z.eqb (len materialMap + 1)%Z c materialMap
  = materialMap ++ [((len materialMap + 1)%Z, c)].
Proof.
  intro K. apply mapSet_absent.
  apply Forall_forall. intros e He. apply In_nth_error in He.
  destruct He as [i Hi]. rewrite (@keysCount_nth _ i e K Hi).
  assert (i < length materialMap) by (apply nth_error_Some; congruence).
  unfold len. lia.
Qed.

Lemma keysCount_snoc (mm : list (Z * Color)) (c : Color) :
  keysCount mm -> keysCount (mm ++ [((len mm + 1)%Z, c)]).
Proof.
  unfold keysCount. intro K.
  rewrite length_app. cbn [length]. rewrite Nat.add_1_r, seq_S, !map_app, K.
  cbn [map fst]. unfold len. do 2 f_equal. lia.
Qed.

Lemma find_key_place (gh : Color -> string) (mm : list (Z * Color)) (c : Color)
    (id : Z) (c0 : Color) :
  keysCount mm ->
  find (fun e => LegacyExport.colorsEqual gh (snd e) c) mm = Some (id, c0) ->
  (1 <= id)%Z /\ nth_error mm (Z.to_nat (id - 1)) = Some (id, c0)
  /\ gh c0 = gh c.
Proof.
  intros K F. apply find_some in F. destruct F as [Hin Heq].
  unfold LegacyExport.colorsEqual in Heq. cbn [snd] in Heq. apply String.eqb_eq in Heq.
  apply In_nth_error in Hin. destruct Hin as [i Hi].
  pose proof (@keysCount_nth _ i (id, c0) K Hi) as E. cbn [fst] in E.
  subst id. split; [lia|]. split; [|exact Heq].
  replace (Z.to_nat (1 + Z.of_nat i - 1)) with i by lia. exact Hi.
Qed.

Lemma registered_other_uid (gh : Color -> string) (mm : list (Z * Color))
    (ext : list (Z * Color)) (ids : list (nat * Z)) (u : nat) (v : Z)
    (m : LegacyExport.Mesh) :
  LegacyExport.uid m <> u -> registered gh mm ids m ->
  registered gh (mm ++ ext) (LegacyExport.mapSet Nat.eqb u v ids) m.
Proof.
  intros N R. unfold registered, LegacyExport.materialIdOf in *. cbv zeta in *.
  rewrite mapGet_mapSet_other by exact N.
  destruct (LegacyExport.material m) as [c|]; [|exact R].
  destruct R as [H1 [color [Hat Hc]]]. split; [exact H1|].
  exists color. split; [|exact Hc].
  rewrite nth_error_app1; [exact Hat|]. apply nth_error_Some. congruence.
Qed.

Lemma registerMesh_inv (gh : Color -> string) (pre : list LegacyExport.Mesh)
    (mesh : LegacyExport.Mesh) (maps : LegacyExport.MaterialMaps) :
  uidsIdentify (pre ++ [mesh]) -> legacy_inv gh pre maps ->
  legacy_inv gh (pre ++ [mesh]) (LegacyExport.registerMesh gh maps mesh).
Proof.
  intros W [K [D [R [U S]]]]. destruct maps as [mm ids]. cbn [fst snd] in *.
  assert (Same : forall m, In m pre -> LegacyExport.uid m = LegacyExport.uid mesh -> m = mesh).
  { intros m Hm E. apply W; [apply in_or_app; left; exact Hm| |exact E].
    apply in_or_app. right. left. reflexivity. }
  assert (S' : forall l : list (Z * Color),
             Forall (fun e => exists m, In m pre
                       /\ LegacyExport.material m = LegacyExport.MeshPhongMaterial (snd e)) l ->
             Forall (fun e => exists m, In m (pre ++ [mesh])
                       /\ LegacyExport.material m = LegacyExport.MeshPhongMaterial (snd e)) l).
  { intros l. apply Forall_impl. intros e [m [Hm E]]. exists m.
    split; [apply in_or_app; left; exact Hm | exact E]. }
  assert (U' : forall (ids' : list (nat * Z)),
             (forall u id, LegacyExport.mapGet Nat.eqb u ids' = Some id ->
                u = LegacyExport.uid mesh \/ LegacyExport.mapGet Nat.eqb u ids = Some id) ->
             forall c, LegacyExport.material mesh = LegacyExport.MeshPhongMaterial c ->
             forall u id, LegacyExport.mapGet Nat.eqb u ids' = Some id ->
               exists m c', In m (pre ++ [mesh]) /\ LegacyExport.uid m = u
                            /\ LegacyExport.material m = LegacyExport.MeshPhongMaterial c').
  { intros ids' H c Mc u id G. destruct (H u id G) as [->|Old].
    - exists mesh, c. split; [apply in_or_app; right; left; reflexivity|].
      split; [reflexivity | exact Mc].
    - destruct (U u id Old) as [m [c' [Hm [E1 E2]]]]. exists m, c'.
      split; [apply in_or_app; left; exact Hm|]. split; assumption. }
  unfold LegacyExport.registerMesh.
  destruct (LegacyExport.material mesh) as [c|] eqn:Mc.
  - destruct (find (fun e => LegacyExport.colorsEqual gh (snd e) c) mm) as [[id c0]|] eqn:F.
    + (* the colour is known *)
      destruct (@find_key_place gh mm c id c0 K F) as [H1 [Hat Hc]].
      assert (Rm : registered gh mm (LegacyExport.mapSet Nat.eqb (LegacyExport.uid mesh) id ids) mesh).
      { unfold registered, LegacyExport.materialIdOf. rewrite mapGet_mapSet_same, Mc.
        split; [exact H1|]. exists c0. split; assumption. }
      split; [exact K|]. split; [exact D|]. cbn [fst snd]. split; [|split].
      * apply Forall_app. split; [|constructor; [exact Rm|constructor]].
        apply Forall_forall. intros m Hm. rewrite Forall_forall in R.
        destruct (Nat.eq_dec (LegacyExport.uid m) (LegacyExport.uid mesh)) as [E|N].
        -- rewrite (Same m Hm E). exact Rm.
        -- rewrite <- (app_nil_r mm).
           apply registered_other_uid; [exact N | apply R; exact Hm].
      * apply (U' _) with (c := c); [|reflexivity].
        intros u i G. destruct (Nat.eq_dec u (LegacyExport.uid mesh)) as [E|N];
          [left; exact E|right].
        now rewrite mapGet_mapSet_other in G.
      * apply S'. exact S.
    + (* a new colour *)
      rewrite mapSet_fresh by exact K.
      set (newId := (len mm + 1)%Z).
      assert (Hat : nth_error (mm ++ [(newId, c)]) (Z.to_nat (newId - 1))
                    = Some (newId, c)).
      { unfold newId, len.
        replace (Z.to_nat (Z.of_nat (length mm) + 1 - 1)) with (length mm) by lia.
        rewrite nth_error_app2 by apply Nat.le_refl.
        now rewrite Nat.sub_diag. }
      assert (Rm : registered gh (mm ++ [(newId, c)])
                     (LegacyExport.mapSet Nat.eqb (LegacyExport.uid mesh) newId ids) mesh).
      { unfold registered, LegacyExport.materialIdOf. rewrite mapGet_mapSet_same, Mc.
        split; [unfold newId, len; lia|]. exists c. split; [exact Hat|reflexivity]. }
      unfold legacy_inv. cbn [fst snd]. split; [apply keysCount_snoc; exact K|].
      split; [|split; [|split]].
      * rewrite map_app. cbn [map snd].
        apply NoDup_app; [exact D | repeat constructor; intros [] |].
        intros h Hh [<-|[]]. apply in_map_iff in Hh.
        destruct Hh as [e [He Hin]].
        pose proof (find_none _ _ F e Hin) as Ne. cbn beta in Ne.
        unfold LegacyExport.colorsEqual in Ne. apply String.eqb_neq in Ne. congruence.
      * apply Forall_app. split; [|constructor; [exact Rm|constructor]].
        apply Forall_forall. intros m Hm. rewrite Forall_forall in R.
        destruct (Nat.eq_dec (LegacyExport.uid m) (LegacyExport.uid mesh)) as [E|N].
        -- rewrite (Same m Hm E). exact Rm.
        -- apply registered_other_uid; [exact N | apply R; exact Hm].
      * apply (U' _) with (c := c); [|reflexivity].
        intros u i G. destruct (Nat.eq_dec u (LegacyExport.uid mesh)) as [E|N];
          [left; exact E|right].
        now rewrite mapGet_mapSet_other in G.
      * apply Forall_app. split; [apply S'; exact S|].
        constructor; [|constructor]. exists mesh.
        split; [apply in_or_app; right; left; reflexivity | exact Mc].
  - (* no MeshPhongMaterial: nothing is registered *)
    unfold legacy_inv. cbn [fst snd]. split; [exact K|]. split; [exact D|].
    split; [|split].
    + apply Forall_app. split; [exact R|]. constructor; [|constructor].
      unfold registered, LegacyExport.materialIdOf. rewrite Mc.
      destruct (LegacyExport.mapGet Nat.eqb (LegacyExport.uid mesh) ids) as [id|] eqn:G;
        [|reflexivity].
      destruct (U _ _ G) as [m [c [Hm [E1 E2]]]].
      rewrite (Same m Hm E1) in E2. congruence.
    + intros u id G. destruct (U _ _ G) as [m [c [Hm [E1 E2]]]].
      exists m, c. split; [apply in_or_app; left; exact Hm|]. split; assumption.
    + apply S'. exact S.
Qed.

Lemma legacy_registry_run (gh : Color -> string) (l : list LegacyExport.Mesh) :
  forall pre maps,
    uidsIdentify (pre ++ l) -> legacy_inv gh pre maps ->
    legacy_inv gh (pre ++ l) (fold_left (LegacyExport.registerMesh gh) l maps).
Proof.
  induction l as [|mesh l IH]; intros pre maps W I.
  - now rewrite app_nil_r.
  - cbn [fold_left].
    replace (pre ++ mesh :: l) with ((pre ++ [mesh]) ++ l) in *
      by (rewrite <- app_assoc; reflexivity).
    apply IH; [exact W|]. apply registerMesh_inv; [|exact I].
    intros m1 m2 H1 H2. apply W; apply in_or_app; left; assumption.
Qed.

Lemma legacy_inv_start (gh : Color -> string) : legacy_inv gh [] ([], []).
Proof.
  unfold legacy_inv. cbn. repeat split; try constructor.
  intros u id H. discriminate.
Qed.

Lemma NoDup_map_nth_error {A B} (f : A -> B) (l : list A) (i j : nat) (a c : A) :
  NoDup (map f l) -> nth_error l i = Some a -> nth_error l j = Some c ->
  f a = f c -> i = j.
Proof.
  intros N Hi Hj E.
  assert (Li : i < length (map f l))
    by (rewrite length_map; apply nth_error_Some; congruence).
  rewrite NoDup_nth_error in N. apply N; [exact Li|].
  rewrite !nth_error_map, Hi, Hj. cbn [option_map]. now rewrite E.
Qed.

(** X10 (material table of the legacy exporter).  For an array of meshes
    in which a [uid] names one object: the keys of [materialMap] are 1, 2,
    ... in insertion order; no two entries have the same hex string; every
    entry holds the colour of a mesh of the array with a
    [MeshPhongMaterial]; the material id of such a mesh names the entry
    with the hex string of its colour, the id of any other mesh is 0; and
    two meshes with [MeshPhongMaterial] have the same material id exactly
    when their colours have the same hex string. *)
Theorem legacy_material_table (getHexString : Color -> string)
    (meshes : list LegacyExport.Mesh) :
  uidsIdentify meshes ->
  let '(materialMap, meshMaterialIds) :=
    fold_left (LegacyExport.registerMesh getHexString) meshes ([], []) in
  keysCount materialMap
  /\ NoDup (map (fun e => getHexString (snd e)) materialMap)
  /\ Forall (fun e => exists mesh,
                        In mesh meshes
                        /\ LegacyExport.material mesh
                           = LegacyExport.MeshPhongMaterial (snd e))
            materialMap
  /\ Forall (registered getHexString materialMap meshMaterialIds) meshes
  /\ forall m1 m2 c1 c2,
       In m1 meshes -> In m2 meshes ->
       LegacyExport.material m1 = LegacyExport.MeshPhongMaterial c1 ->
       LegacyExport.material m2 = LegacyExport.MeshPhongMaterial c2 ->
       (LegacyExport.materialIdOf meshMaterialIds m1
        = LegacyExport.materialIdOf meshMaterialIds m2
        <-> getHexString c1 = getHexString c2).
Proof.
  intro W.
  pose proof (@legacy_registry_run getHexString meshes [] ([], []) W
                (legacy_inv_start getHexString)) as I.
  cbn [app] in I.
  destruct (fold_left (LegacyExport.registerMesh getHexString) meshes ([], []))
    as [materialMap meshMaterialIds].
  destruct I as [K [D [R [_ S]]]]. cbn [fst snd] in *.
  split; [exact K|]. split; [exact D|]. split; [exact S|]. split; [exact R|].
  intros m1 m2 c1 c2 H1 H2 M1 M2. rewrite Forall_forall in R.
  pose proof (R m1 H1) as R1. pose proof (R m2 H2) as R2.
  unfold registered in R1, R2. cbv zeta in R1, R2. rewrite M1 in R1.
  rewrite M2 in R2.
  destruct R1 as [P1 [k1 [A1 E1]]]. destruct R2 as [P2 [k2 [A2 E2]]].
  split.
  - intro E. rewrite E in A1. rewrite A1 in A2. injection A2 as <-. congruence.
  - intro E.
    assert (X : Z.to_nat (LegacyExport.materialIdOf meshMaterialIds m1 - 1)
                = Z.to_nat (LegacyExport.materialIdOf meshMaterialIds m2 - 1)).
    { apply (@NoDup_map_nth_error _ _ (fun e => getHexString (snd e))
               materialMap _ _ _ _ D A1 A2).
      cbn [snd]. congruence. }
    lia.
Qed.

Lemma legacy_sample_uids : uidsIdentify LegacySample.meshes.
Proof.
  intros m1 m2 H1 H2 E. unfold LegacySample.meshes in *.
  cbn [In] in H1, H2.
  repeat (destruct H1 as [<-|H1]); try contradiction;
    repeat (destruct H2 as [<-|H2]); try contradiction;
    try reflexivity; cbn in E; discriminate.
Qed.

Lemma legacy_material_table_witness :
  uidsIdentify LegacySample.meshes
  /\ let '(materialMap, meshMaterialIds) :=
       fold_left (LegacyExport.registerMesh LegacySample.getHexString)
                 LegacySample.meshes ([], []) in
     keysCount materialMap
     /\ NoDup (map (fun e => LegacySample.getHexString (snd e)) materialMap)
     /\ Forall (fun e => exists mesh,
                           In mesh LegacySample.meshes
                           /\ LegacyExport.material mesh
                              = LegacyExport.MeshPhongMaterial (snd e))
               materialMap
     /\ Forall (registered LegacySample.getHexString materialMap meshMaterialIds)
               LegacySample.meshes
     /\ forall m1 m2 c1 c2,
          In m1 LegacySample.meshes -> In m2 LegacySample.meshes ->
          LegacyExport.material m1 = LegacyExport.MeshPhongMaterial c1 ->
          LegacyExport.material m2 = LegacyExport.MeshPhongMaterial c2 ->
          (LegacyExport.materialIdOf meshMaterialIds m1
           = LegacyExport.materialIdOf meshMaterialIds m2
           <-> LegacySample.getHexString c1 = LegacySample.getHexString c2).
Proof.
  split; [exact legacy_sample_uids|].
  apply (@legacy_material_table LegacySample.getHexString LegacySample.meshes
           legacy_sample_uids).
Defined.

Lemma filter_map_none {A B} (f : B -> bool) (g : A -> B) (l : list A) :
  (forall a, f (g a) = false) -> filter f (map g l) = [].
Proof.
  intro H. induction l as [|a l IH]; cbn [map filter]; [reflexivity|].
  now rewrite H.
Qed.

Lemma filter_map_all {A B} (f : B -> bool) (g : A -> B) (l : list A) :
  (forall a, f (g a) = true) -> filter f (map g l) = map g l.
Proof.
  intro H. induction l as [|a l IH]; cbn [map filter]; [reflexivity|].
  now rewrite H, IH.
Qed.

(** The lines of one mesh: its [object] line and nothing else that
    begins like an [object], a [base] or an [item] line. *)
Lemma meshBlock_lines (nts : float -> string) (scale : float)
    (world : Matrix4) (ps : list Vector3) (indices : option (list Z))
    (objectId materialId : Z) :
  let block :=
    [LegacyExport.objectLine objectId materialId]
    ++ (["        <vertices>"%string]
        ++ map (Legacy.vertexLine nts scale world) ps
        ++ ["        </vertices>"%string])
    ++ ["        <triangles>"%string]
    ++ LegacyExport.triangleLines indices (length ps)
    ++ ["        </triangles>"; "      </mesh>"; "    </object>"]%string in
  filter (startsWith "    <object ") block
  = [LegacyExport.objectLine objectId materialId]
  /\ filter (startsWith "      <base ") block = []
  /\ filter (startsWith "    <item ") block = [].
Proof.
  cbv zeta.
  assert (V : forall p, In p ["    <object "; "      <base "; "    <item "]%string ->
              filter (startsWith p) (map (Legacy.vertexLine nts scale world) ps) = []).
  { intros p Hp. apply filter_map_none. intro v.
    cbn [In] in Hp. destruct Hp as [<-|[<-|[<-|[]]]]; reflexivity. }
  assert (T : forall p, In p ["    <object "; "      <base "; "    <item "]%string ->
              filter (startsWith p)
                     (LegacyExport.triangleLines indices (length ps)) = []).
  { intros p Hp. unfold LegacyExport.triangleLines.
    cbn [In] in Hp.
    destruct indices; apply filter_map_none; intro i;
      destruct Hp as [<-|[<-|[<-|[]]]]; reflexivity. }
  rewrite !filter_app, !V, !T by (cbn [In]; auto).
  split; [|split]; reflexivity.
Qed.

Lemma pushMesh_run (nts : float -> string) (scale : float)
    (ids : list (nat * Z)) (meshes : list LegacyExport.Mesh) :
  forall xmlBuilder objectId,
    match foldM (pushedLines nts scale ids) meshes (xmlBuilder, objectId) with
    | Ok (xmlBuilder', objectId') =>
        Forall (fun mesh => position (LegacyExport.geometry mesh) <> None) meshes
        /\ objectId' = (objectId + len meshes)%Z
        /\ exists blocks,
             xmlBuilder' = xmlBuilder ++ blocks
             /\ filter (startsWith "    <object ") blocks
                = objectLinesFrom ids objectId meshes
             /\ filter (startsWith "      <base ") blocks = []
             /\ filter (startsWith "    <item ") blocks = []
    | Throw _ =>
        exists mesh, In mesh meshes
                     /\ position (LegacyExport.geometry mesh) = None
    | OutOfFuel => False
    end.
Proof.
  induction meshes as [|mesh meshes IH]; intros xmlBuilder objectId.
  - cbn [foldM]. split; [constructor|]. split; [unfold len; cbn; lia|].
    exists []. rewrite app_nil_r. repeat split; reflexivity.
  - cbn [foldM]. unfold pushedLines at 1, LegacyExport.pushMesh.
    destruct (position (LegacyExport.geometry mesh)) as [ps|] eqn:P.
    + cbn [Legacy.vertexLines bind].
      match goal with
      | |- context [foldM _ meshes (xmlBuilder ++ ?b, _)] => set (block := b)
      end.
      specialize (IH (xmlBuilder ++ block) (objectId + 1)%Z).
      destruct (foldM (pushedLines nts scale ids) meshes
                      (xmlBuilder ++ block, (objectId + 1)%Z))
        as [[xmlBuilder' objectId']|e|]; [| |exact IH].
      * destruct IH as [F [E [blocks [Eb [Ho [Hb Hi]]]]]].
        split; [constructor; [congruence | exact F]|].
        split; [rewrite E; unfold len; cbn [length]; lia|].
        exists (block ++ blocks).
        split; [rewrite Eb, app_assoc; reflexivity|].
        destruct (meshBlock_lines nts scale
                    (LegacyExport.p_matrixWorld
                       (LegacyExport.placement
                          (LegacyExport.updateWorldMatrix mesh)))
                    ps (index (LegacyExport.geometry mesh)) objectId
                    (LegacyExport.materialIdOf ids mesh)) as [B1 [B2 B3]].
        fold block in B1, B2, B3.
        rewrite !filter_app, B1, B2, B3, Ho, Hb, Hi. repeat split; reflexivity.
      * destruct IH as [m [Hm Pm]]. exists m. split; [right|]; assumption.
    + cbn [Legacy.vertexLines bind]. exists mesh.
      split; [left; reflexivity | exact P].
Qed.

(** What [xmlBuilder] holds in the end, by the kind of line. *)
Lemma modelLines_outcome (gh : Color -> string) (nts : float -> string)
    (meshes : list LegacyExport.Mesh) (scale : float) :
  match LegacyExport.modelLines gh nts meshes scale with
  | Ok (meshes1, xmlBuilder) =>
      let maps := fold_left (LegacyExport.registerMesh gh) meshes ([], []) in
      meshes1 = map LegacyExport.updateWorldMatrix meshes
      /\ Forall (fun mesh => position (LegacyExport.geometry mesh) <> None) meshes
      /\ filter (startsWith "      <base ") xmlBuilder
         = map (LegacyExport.baseLine gh) (fst maps)
      /\ filter (startsWith "    <object ") xmlBuilder
         = objectLinesFrom (snd maps) 2 meshes
      /\ filter (startsWith "    <item ") xmlBuilder
         = map (fun k => LegacyExport.itemLine (2 + Z.of_nat k))
               (seq 0 (length meshes))
  | Throw _ =>
      exists mesh, In mesh meshes
                   /\ position (LegacyExport.geometry mesh) = None
  | OutOfFuel => False
  end.
Proof.
  unfold LegacyExport.modelLines.
  destruct (fold_left (LegacyExport.registerMesh gh) meshes ([], []))
    as [mm ids]. cbn [fst snd]. rewrite forEach_pushMesh.
  match goal with
  | |- context [foldM _ meshes (?b, _)] => set (start := b)
  end.
  pose proof (pushMesh_run nts scale ids meshes start 2) as H.
  destruct (foldM (pushedLines nts scale ids) meshes (start, 2%Z))
    as [[xmlBuilder objectId]|e|]; cbn [bind]; [|exact H|exact H].
  destruct H as [F [E [blocks [-> [Ho [Hb Hi]]]]]].
  split; [reflexivity|]. split; [exact F|].
  assert (N : Z.to_nat (objectId - 2) = length meshes)
    by (rewrite E; unfold len; lia).
  unfold LegacyExport.itemIds. rewrite N, map_map. unfold start.
  rewrite !filter_app, Ho, Hb, Hi.
  rewrite (filter_map_all (startsWith "      <base ") (LegacyExport.baseLine gh))
    by (intro a; reflexivity).
  rewrite (filter_map_none (startsWith "    <object ") (LegacyExport.baseLine gh))
    by (intro a; reflexivity).
  rewrite (filter_map_none (startsWith "    <item ") (LegacyExport.baseLine gh))
    by (intro a; reflexivity).
  rewrite (filter_map_all (startsWith "    <item ")
             (fun k => LegacyExport.itemLine (2 + Z.of_nat k)))
    by (intro a; reflexivity).
  rewrite (filter_map_none (startsWith "      <base ")
             (fun k => LegacyExport.itemLine (2 + Z.of_nat k)))
    by (intro a; reflexivity).
  rewrite (filter_map_none (startsWith "    <object ")
             (fun k => LegacyExport.itemLine (2 + Z.of_nat k)))
    by (intro a; reflexivity).
  cbn. rewrite !app_nil_r. repeat split; reflexivity.
Qed.

Lemma objectLinesFrom_nth (ids : list (nat * Z)) (meshes : list LegacyExport.Mesh) :
  forall start k,
    nth_error (objectLinesFrom ids start meshes) k
    = option_map (fun mesh =>
                    LegacyExport.objectLine (start + Z.of_nat k)
                      (LegacyExport.materialIdOf ids mesh))
                 (nth_error meshes k).
Proof.
  induction meshes as [|mesh meshes IH]; intros start k.
  - destruct k; reflexivity.
  - destruct k as [|k]; cbn [objectLinesFrom nth_error option_map].
    + now rewrite Z.add_0_r.
    + rewrite IH. destruct (nth_error meshes k); cbn [option_map];
        [|reflexivity]. do 2 f_equal. lia.
Qed.

Lemma objectLinesFrom_length (ids : list (nat * Z))
    (meshes : list LegacyExport.Mesh) :
  forall start, length (objectLinesFrom ids start meshes) = length meshes.
Proof.
  induction meshes as [|mesh meshes IH]; intro start; cbn; [reflexivity|].
  now rewrite IH.
Qed.

(** X11 (objects and build items of the legacy exporter).  A call of the
    legacy [exportTo3MF], on one mesh or on an array, returns exactly when
    every mesh has a position attribute, and throws otherwise.  The archive
    holds the model, the content types and the relationships, in this
    order.  The model holds one [object] line for each mesh, in array
    order, with the ids 2, 3, ..., and one build [item] for each mesh with
    the same ids in the same order; for an empty array it holds neither. *)
Theorem legacy_objects_and_items (getHexString : Color -> string)
    (numberToString : float -> string) (input : LegacyExport.Meshes)
    (scale : option float) :
  let meshes := match input with
                | LegacyExport.One mesh => [mesh]
                | LegacyExport.Many meshes => meshes
                end in
  match LegacyExport.exportTo3MF getHexString numberToString input scale with
  | Ok (_, zip) =>
      Forall (fun mesh => position (LegacyExport.geometry mesh) <> None) meshes
      /\ exists xmlBuilder,
           zip = [("3D/3dmodel.model", Raw (String.concat nl xmlBuilder));
                  ("[Content_Types].xml", LegacyExport.contentTypes);
                  ("_rels/.rels", LegacyExport.relationships)]%string
           /\ let objects := filter (startsWith "    <object ") xmlBuilder in
              let items := filter (startsWith "    <item ") xmlBuilder in
              length objects = length meshes
              /\ length items = length meshes
              /\ forall k mesh,
                   nth_error meshes k = Some mesh ->
                   (exists materialId,
                      nth_error objects k
                      = Some (LegacyExport.objectLine (2 + Z.of_nat k) materialId))
                   /\ nth_error items k
                      = Some (LegacyExport.itemLine (2 + Z.of_nat k))
  | Throw _ =>
      exists mesh, In mesh meshes
                   /\ position (LegacyExport.geometry mesh) = None
  | OutOfFuel => False
  end.
Proof.
  cbv zeta. unfold LegacyExport.exportTo3MF.
  set (meshes := match input with
                 | LegacyExport.One mesh => [mesh]
                 | LegacyExport.Many meshes => meshes
                 end).
  set (s := match scale with Some s => s | None => 1%float end).
  pose proof (modelLines_outcome getHexString numberToString meshes s) as H.
  destruct (LegacyExport.modelLines getHexString numberToString meshes s)
    as [[meshes1 xmlBuilder]|e|]; cbn [bind]; [|exact H|exact H].
  cbv zeta in H. destruct H as [_ [F [_ [Ho Hi]]]].
  split; [exact F|]. exists xmlBuilder. split; [reflexivity|].
  rewrite Ho, Hi, objectLinesFrom_length, length_map, length_seq.
  split; [reflexivity|]. split; [reflexivity|].
  intros k mesh Hk. rewrite objectLinesFrom_nth, Hk. cbn [option_map].
  split; [eexists; reflexivity|].
  assert (L : k < length meshes) by (apply nth_error_Some; congruence).
  rewrite nth_error_map, nth_error_seq.
  destruct (Nat.ltb_spec k (length meshes)); [reflexivity | lia].
Qed.

Lemma objectLinesFrom_refer (gh : Color -> string) (mm : list (Z * Color))
    (ids : list (nat * Z)) (meshes : list LegacyExport.Mesh) :
  Forall (registered gh mm ids) meshes ->
  forall start,
    Forall2 (refersToOwnBase gh (map (LegacyExport.baseLine gh) mm))
            meshes (objectLinesFrom ids start meshes).
Proof.
  induction 1 as [|mesh meshes R F IH]; intro start; cbn [objectLinesFrom];
    constructor; [|apply IH].
  unfold refersToOwnBase. eexists; eexists. split; [reflexivity|].
  unfold registered in R. cbv zeta in R.
  destruct (LegacyExport.material mesh) as [c|]; [|exact R].
  destruct R as [H1 [color [Hat Hc]]]. split; [exact H1|].
  exists color. split.
  - now rewrite nth_error_map, Hat.
  - unfold LegacyExport.colorToHex. now rewrite Hc.
Qed.

(** X12 (an object of the legacy model refers to its own colour).  For an
    array in which a [uid] names one object, in the model of an export
    that returns, the [object] line of a mesh with a [MeshPhongMaterial]
    gives a material id whose [base] line, at place id - 1 of the [base]
    lines (the [pindex] written), shows the hex colour of that mesh; the
    line of a mesh with any other material gives id 0, so that the
    [pindex] written is -1 and names no [base] line. *)
Theorem legacy_object_refers_to_own_base (getHexString : Color -> string)
    (numberToString : float -> string) (meshes : list LegacyExport.Mesh)
    (scale : float) :
  uidsIdentify meshes ->
  match LegacyExport.modelLines getHexString numberToString meshes scale with
  | Ok (_, xmlBuilder) =>
      Forall2 (refersToOwnBase getHexString
                 (filter (startsWith "      <base ") xmlBuilder))
              meshes (filter (startsWith "    <object ") xmlBuilder)
  | Throw _ =>
      exists mesh, In mesh meshes
                   /\ position (LegacyExport.geometry mesh) = None
  | OutOfFuel => False
  end.
Proof.
  intro W.
  pose proof (modelLines_outcome getHexString numberToString meshes scale) as H.
  destruct (LegacyExport.modelLines getHexString numberToString meshes scale)
    as [[meshes1 xmlBuilder]|e|]; [|exact H|exact H].
  cbv zeta in H. destruct H as [_ [_ [Hb [Ho _]]]]. rewrite Hb, Ho.
  pose proof (@legacy_registry_run getHexString meshes [] ([], []) W
                (legacy_inv_start getHexString)) as I.
  cbn [app] in I. destruct I as [_ [_ [R _]]].
  now apply objectLinesFrom_refer.
Qed.

Lemma legacy_object_refers_to_own_base_witness :
  uidsIdentify LegacySample.meshes
  /\ match LegacyExport.modelLines LegacySample.getHexString
             (numberToString Sample.env) LegacySample.meshes 1 with
     | Ok (_, xmlBuilder) =>
         Forall2 (refersToOwnBase LegacySample.getHexString
                    (filter (startsWith "      <base ") xmlBuilder))
                 LegacySample.meshes
                 (filter (startsWith "    <object ") xmlBuilder)
     | Throw _ =>
         exists mesh, In mesh LegacySample.meshes
                      /\ position (LegacyExport.geometry mesh) = None
     | OutOfFuel => False
     end.
Proof.
  split; [exact legacy_sample_uids|].
  apply (@legacy_object_refers_to_own_base LegacySample.getHexString
           (numberToString Sample.env) LegacySample.meshes 1
           legacy_sample_uids).
Defined.

(** The sample: four objects, the second without [MeshPhongMaterial] and
    with [pindex] -1, the first and the last with the same [pindex]. *)
Example legacy_sample_lines :
  exists meshes1 xmlBuilder,
    LegacyExport.modelLines LegacySample.getHexString
      (numberToString Sample.env) LegacySample.meshes 1
    = Ok (meshes1, xmlBuilder)
    /\ filter (startsWith "      <base ") xmlBuilder
       = [LegacyExport.baseLine LegacySample.getHexString (1%Z, Sample.orange);
          LegacyExport.baseLine LegacySample.getHexString (2%Z, defaultGray)]
    /\ filter (startsWith "    <object ") xmlBuilder
       = [LegacyExport.objectLine 2 1; LegacyExport.objectLine 3 0;
          LegacyExport.objectLine 4 2; LegacyExport.objectLine 5 1].
Proof.
  eexists; eexists. split; [vm_compute; reflexivity|].
  split; vm_compute; reflexivity.
Qed.

(* ----------------------------------------------------------------- *)
(** *** The object model and the relationships *)

Lemma validIndex_add0 (total : nat) (v : value) :
  validIndex total (add 0 v) <-> validIndex total v.
Proof. destruct v; cbn; tauto. Qed.

Lemma sampled_valid (leaf : LeafRecord) (c : ComponentInfo) :
  sampled leaf c -> leafValid leaf ->
  Forall (validComponentTriangle (vertexCount leaf)) (ci_triangles c).
Proof.
  intros [ps [P [Ev [Et _]]]] V.
  unfold leafValid, leafTriangles, vertexCount in *. rewrite P in *.
  rewrite Et.
  unfold Merged.meshTriangles, indexedTriangles, sequentialTriangles in *.
  destruct (index (lr_geometry leaf)) as [idx|];
    rewrite Forall_map in *; (eapply Forall_impl; [|exact V]);
    intros i [H1 [H2 H3]]; unfold validComponentTriangle;
    cbn [Merged.v1 Merged.v2 Merged.v3 v1 v2 v3] in *.
  - rewrite validIndex_add0 in H1, H2, H3. auto.
  - cbn [validIndex] in *. lia.
Qed.

Lemma elementsNamed_componentTriangles (t : string) (ts : list Triangle) :
  flat_map (elementsNamed t)
    (map triangleElement ts)
  = if String.eqb "triangle" t
    then map triangleElement ts
    else [].
Proof.
  induction ts as [|x ts IH]; [now destruct (String.eqb _ _)|].
  cbn [map flat_map]. rewrite IH. unfold triangleElement at 1.
  cbn [elementsNamed flat_map]. destruct (String.eqb "triangle" t); reflexivity.
Qed.

(** The objects of the object model, one for each component: its vertex
    and triangle elements are those of the component. *)
Lemma objectModel_geometry (env : Env) (firstUUID : nat)
    (components : list ComponentInfo) :
  Forall2 (fun c object =>
             elementsNamed "vertex" object
             = map (vertexElement (numberToString env)) (ci_vertices c)
             /\ elementsNamed "triangle" object
                = map triangleElement
                      (ci_triangles c))
          components
          (docElements "object" (createObjectModelXML env firstUUID components)).
Proof.
  unfold createObjectModelXML, docElements.
  cbn [elementsNamed String.eqb Ascii.eqb Bool.eqb app].
  rewrite map_map.
  rewrite <- (snd_combine_seq components 0) at 1.
  induction (combine (seq 0 (length components)) components) as [|[k c] l IH];
    [constructor|].
  cbn [map flat_map snd].
  cbn [elementsNamed String.eqb Ascii.eqb Bool.eqb flat_map app].
  change (map (fun v => Element "vertex" _ []) (ci_vertices c))
    with (map (vertexElement (numberToString env)) (ci_vertices c)).
  rewrite !elementsNamed_componentTriangles.
  rewrite !(elementsNamed_vertexElements (numberToString env)).
  cbn [String.eqb Ascii.eqb Bool.eqb app].
  constructor; [|exact IH].
  cbn [elementsNamed String.eqb Ascii.eqb Bool.eqb flat_map app].
  rewrite !elementsNamed_componentTriangles.
  rewrite !(elementsNamed_vertexElements (numberToString env)).
  cbn [String.eqb Ascii.eqb Bool.eqb app]. rewrite !app_nil_r. split; reflexivity.
Qed.

Lemma Forall2_compose {A B C} (R : A -> B -> Prop) (Q : B -> C -> Prop)
    (l : list A) (l' : list B) (l'' : list C) :
  Forall2 R l l' -> Forall2 Q l' l'' ->
  Forall2 (fun a c => exists b, R a b /\ Q b c) l l''.
Proof.
  intro H. revert l''. induction H as [|a b l l' Hab H IH]; intros l'' H';
    inversion H'; subst; constructor; eauto.
Qed.

(** X13 (each object of the object model is self-contained).  In every
    package the object model holds one object for each mesh of the scene,
    in pre-order, with as many [vertex] elements as the mesh has vertices
    and one [triangle] element for each started group of three entries of
    its stream (of its vertices, without index stream).  When every index
    of every triangle read off the mesh is valid for the mesh, the [v1],
    [v2] and [v3] of each of these elements are numbers below the number of
    vertices of the same object: the indices are not shifted. *)
Theorem objects_index_their_own_vertices (env : Env) (pw : option Matrix4)
    (o : Object3D) :
  match exportTo3MF env pw o with
  | Ok (_, zip) =>
      exists objects,
        entry "3D/Objects/object-97.model" zip = Some objects
        /\ Forall2 holdsLeaf (leafRecords pw o) (docElements "object" objects)
  | Throw _ =>
      exists leaf, In leaf (leafRecords pw o)
                   /\ position (lr_geometry leaf) = None
  | OutOfFuel => False
  end.
Proof.
  pose proof (exportTo3MF_outcome env pw o) as H.
  destruct (exportTo3MF env pw o) as [[o' zip]|e|]; [|exact H|exact H].
  destruct H as [components [materials [Hrun [_ ->]]]].
  exists (createObjectModelXML env 3 components). split; [reflexivity|].
  pose proof (sampled_run _ Hrun) as S. cbn [fst] in S.
  pose proof (Forall2_compose S (objectModel_geometry env 3 components)) as F.
  eapply Forall2_impl; [|exact F]. clear F.
  intros leaf object [c [Sc [Ev Et]]]. unfold holdsLeaf.
  rewrite Ev, Et, !length_map.
  pose proof Sc as [ps [P [Ecv [Ect _]]]].
  split; [|split].
  - unfold vertexCount. rewrite P, Ecv, length_map. reflexivity.
  - rewrite Ect. unfold streamLength, indexedTriangles, sequentialTriangles.
    rewrite P. destruct (index (lr_geometry leaf));
      now rewrite length_map, steps3_length.
  - intro V. pose proof (sampled_valid Sc V) as T.
    rewrite Forall_map. eapply Forall_impl; [|exact T].
    intros t [H1 [H2 H3]].
    unfold indexesWithin, validIndex, triangleElement, writtenAttributes in *.
    destruct (v1 t) as [i1| |]; try contradiction.
    destruct (v2 t) as [i2| |]; try contradiction.
    destruct (v3 t) as [i3| |]; try contradiction.
    cbn [filter snd].
    repeat constructor;
      cbn [attribute find fst snd String.eqb Ascii.eqb Bool.eqb option_map];
      eauto.
Qed.

(** X14 (relationship targets resolve).  In the package of
    [3mf-exporter.ts] every relationship names, as its [Target], a file of
    the archive (a slash and the path of an entry): the root relationships
    name the main model, the relationships of the main model name the
    object model, and the [p:path] of every component of the main model is
    the part name of the object model too, the entry that holds one
    object for each component. *)
Theorem relationship_targets_resolve (env : Env) (pw : option Matrix4)
    (o : Object3D) :
  match exportTo3MF env pw o with
  | Ok (_, zip) =>
      (exists c, entry "_rels/.rels" zip = Some c
                 /\ relationshipTargets c = ["/3D/3dmodel.model"%string]
                 /\ Forall (namesEntry zip) (relationshipTargets c))
      /\ (exists c, entry "3D/_rels/3dmodel.model.rels" zip = Some c
                    /\ relationshipTargets c
                       = ["/3D/Objects/object-97.model"%string]
                    /\ Forall (namesEntry zip) (relationshipTargets c))
      /\ (exists main objects,
            entry "3D/3dmodel.model" zip = Some main
            /\ entry "3D/Objects/object-97.model" zip = Some objects
            /\ namesEntry zip "/3D/Objects/object-97.model"
            /\ Forall (fun component =>
                         attribute "p:path" component
                         = Some (AStr "/3D/Objects/object-97.model"))
                      (docElements "component" main)
            /\ length (docElements "component" main)
               = length (docElements "object" objects))
  | Throw _ =>
      exists leaf, In leaf (leafRecords pw o)
                   /\ position (lr_geometry leaf) = None
  | OutOfFuel => False
  end.
Proof.
  pose proof (exportTo3MF_outcome env pw o) as H.
  destruct (exportTo3MF env pw o) as [[o' zip]|e|]; [|exact H|exact H].
  destruct H as [components [materials [_ [_ ->]]]].
  assert (T1 : relationshipTargets relationshipsXML
               = ["/3D/3dmodel.model"%string]) by (vm_compute; reflexivity).
  assert (T2 : relationshipTargets objectRelationshipsXML
               = ["/3D/Objects/object-97.model"%string])
    by (vm_compute; reflexivity).
  split; [|split].
  - exists relationshipsXML. split; [reflexivity|]. split; [exact T1|].
    rewrite T1. constructor; [|constructor].
    exists "3D/3dmodel.model"%string. split; [reflexivity|]. discriminate.
  - exists objectRelationshipsXML. split; [reflexivity|]. split; [exact T2|].
    rewrite T2. constructor; [|constructor].
    exists "3D/Objects/object-97.model"%string. split; [reflexivity|].
    discriminate.
  - exists (createMainModelXML env components),
           (createObjectModelXML env 3 components).
    split; [reflexivity|]. split; [reflexivity|]. split.
    { exists "3D/Objects/object-97.model"%string. split; [reflexivity|].
      discriminate. }
    rewrite mainModel_components. split.
    + apply Forall_forall. intros c Hc.
      apply in_map_iff in Hc. destruct Hc as [comp [<- _]]. reflexivity.
    + pose proof (objectModel_objects env 3 components) as L.
      apply (f_equal (@length (option attr))) in L.
      rewrite !length_map in L. rewrite length_map. symmetry. exact L.
Qed.

Lemma meshBlock_geometry (nts : float -> string) (scale : float)
    (world : Matrix4) (ps : list Vector3) (indices : option (list Z))
    (objectId materialId : Z) :
  let block :=
    [LegacyExport.objectLine objectId materialId]
    ++ (["        <vertices>"%string]
        ++ map (Legacy.vertexLine nts scale world) ps
        ++ ["        </vertices>"%string])
    ++ ["        <triangles>"%string]
    ++ LegacyExport.triangleLines indices (length ps)
    ++ ["        </triangles>"; "      </mesh>"; "    </object>"]%string in
  filter (startsWith "          <vertex ") block
  = map (Legacy.vertexLine nts scale world) ps
  /\ filter (startsWith "          <triangle ") block
     = LegacyExport.triangleLines indices (length ps).
Proof.
  cbv zeta.
  assert (V1 : filter (startsWith "          <vertex ")
                 (map (Legacy.vertexLine nts scale world) ps)
               = map (Legacy.vertexLine nts scale world) ps)
    by (apply filter_map_all; intro v; reflexivity).
  assert (V2 : filter (startsWith "          <triangle ")
                 (map (Legacy.vertexLine nts scale world) ps) = [])
    by (apply filter_map_none; intro v; reflexivity).
  assert (T1 : filter (startsWith "          <vertex ")
                 (LegacyExport.triangleLines indices (length ps)) = [])
    by (unfold LegacyExport.triangleLines; destruct indices;
        apply filter_map_none; intro i; reflexivity).
  assert (T2 : filter (startsWith "          <triangle ")
                 (LegacyExport.triangleLines indices (length ps))
               = LegacyExport.triangleLines indices (length ps))
    by (unfold LegacyExport.triangleLines; destruct indices;
        apply filter_map_all; intro i; reflexivity).
  rewrite !filter_app, V1, V2, T1, T2.
  split; cbn; now rewrite ?app_nil_r.
Qed.

Lemma pushMesh_geometry (nts : float -> string) (scale : float)
    (ids : list (nat * Z)) (meshes : list LegacyExport.Mesh) :
  forall xmlBuilder objectId xmlBuilder' objectId',
    foldM (pushedLines nts scale ids) meshes (xmlBuilder, objectId)
    = Ok (xmlBuilder', objectId') ->
    filter (startsWith "          <vertex ") xmlBuilder'
    = filter (startsWith "          <vertex ") xmlBuilder
      ++ flat_map (legacyVertexLines nts scale) meshes
    /\ filter (startsWith "          <triangle ") xmlBuilder'
       = filter (startsWith "          <triangle ") xmlBuilder
         ++ flat_map legacyTriangleLines meshes.
Proof.
  induction meshes as [|mesh meshes IH];
    intros xmlBuilder objectId xmlBuilder' objectId' H.
  - cbn in H. injection H as <- <-. cbn [flat_map]. now rewrite !app_nil_r.
  - cbn [foldM] in H. unfold pushedLines at 1, LegacyExport.pushMesh in H.
    rewrite matrixWorld_updateWorldMatrix in H.
    unfold legacyVertexLines at 1, legacyTriangleLines at 1. cbn [flat_map].
    destruct (position (LegacyExport.geometry mesh)) as [ps|];
      [|discriminate].
    cbn [Legacy.vertexLines bind] in H.
    apply IH in H. destruct H as [Hv Ht].
    destruct (meshBlock_geometry nts scale (legacyWorld mesh)
                ps (index (LegacyExport.geometry mesh)) objectId
                (LegacyExport.materialIdOf ids mesh)) as [B1 B2].
    rewrite Hv, Ht, !filter_app.
    rewrite !filter_app in B1, B2. rewrite B1, B2.
    now rewrite <- !app_assoc.
Qed.

(** X15 (legacy exporter, the geometry written).  The legacy exporter
    returns exactly when every mesh has a position attribute, and throws
    otherwise.  In an archive it returns, the [vertex] lines of the model
    are, in the order of the array of meshes, the vertices of each mesh in
    the order of its [position] attribute, each moved by the world
    transform of its mesh (composed from the root down), multiplied by
    [scale] (1 when it is left out) and written with six decimals; the
    [triangle] lines are, in the same order, the triangles of each mesh:
    from its index when it has one, from the running vertex numbers
    otherwise.  No vertex and no triangle is dropped, merged or reordered,
    and vertices shared by two meshes are written once per mesh. *)
Theorem legacy_geometry_lines (getHexString : Color -> string)
    (numberToString : float -> string) (input : LegacyExport.Meshes)
    (scale : option float) :
  let meshes := match input with
                | LegacyExport.One mesh => [mesh]
                | LegacyExport.Many meshes => meshes
                end in
  let s := match scale with Some s => s | None => 1%float end in
  match LegacyExport.exportTo3MF getHexString numberToString input scale with
  | Ok (_, zip) =>
      Forall (fun mesh => position (LegacyExport.geometry mesh) <> None) meshes
      /\ exists xmlBuilder,
           entry "3D/3dmodel.model" zip
           = Some (Raw (String.concat nl xmlBuilder))
           /\ filter (startsWith "          <vertex ") xmlBuilder
              = flat_map (legacyVertexLines numberToString s) meshes
           /\ filter (startsWith "          <triangle ") xmlBuilder
              = flat_map legacyTriangleLines meshes
  | Throw _ =>
      exists mesh, In mesh meshes
                   /\ position (LegacyExport.geometry mesh) = None
  | OutOfFuel => False
  end.
Proof.
  cbv zeta. unfold LegacyExport.exportTo3MF.
  set (meshes := match input with
                 | LegacyExport.One mesh => [mesh]
                 | LegacyExport.Many meshes => meshes
                 end).
  set (s := match scale with Some s => s | None => 1%float end).
  pose proof (modelLines_outcome getHexString numberToString meshes s) as H.
  destruct (LegacyExport.modelLines getHexString numberToString meshes s)
    as [[meshes1 xmlBuilder]|e|] eqn:E; cbn [bind]; [|exact H|exact H].
  cbv zeta in H. destruct H as [_ [P _]]. split; [exact P|].
  exists xmlBuilder. split; [reflexivity|].
  unfold LegacyExport.modelLines in E.
  destruct (fold_left (LegacyExport.registerMesh getHexString) meshes ([], []))
    as [mm ids].
  rewrite forEach_pushMesh in E.
  match type of E with
  | context [foldM _ meshes (?b, _)] => set (start := b) in E
  end.
  destruct (foldM (pushedLines numberToString s ids) meshes
                  (start, 2%Z)) as [[lines objectId]|e|] eqn:F;
    cbn [bind] in E; try discriminate.
  injection E as _ <-.
  apply pushMesh_geometry in F. destruct F as [Fv Ft].
  rewrite !filter_app, Fv, Ft. unfold start. rewrite !filter_app.
  rewrite !(filter_map_none (startsWith "          <vertex ")
              (LegacyExport.baseLine getHexString)) by (intro a; reflexivity).
  rewrite !(filter_map_none (startsWith "          <triangle ")
              (LegacyExport.baseLine getHexString)) by (intro a; reflexivity).
  rewrite !(filter_map_none (startsWith "          <vertex ")
              LegacyExport.itemLine) by (intro a; reflexivity).
  rewrite !(filter_map_none (startsWith "          <triangle ")
              LegacyExport.itemLine) by (intro a; reflexivity).
  cbn. rewrite !app_nil_r. split; reflexivity.
Qed.

Lemma forBy3_last (fuel : nat) :
  forall i count, count - i <= fuel -> i < count ->
    last (forBy3 fuel i count) 0 = i + 3 * ((count - i - 1) / 3).
Proof.
  induction fuel as [|fuel IH]; intros i count H L; [lia|].
  cbn [forBy3]. destruct (Nat.ltb_spec i count) as [_|]; [|lia].
  destruct (Nat.ltb_spec (i + 3) count) as [L3|L3].
  - pose proof (IH (i + 3) count ltac:(lia) L3) as E.
    destruct (forBy3 fuel (i + 3) count) as [|j l] eqn:F.
    + apply (f_equal (@length nat)) in F.
      rewrite forBy3_length in F by lia. cbn [length] in F.
      pose proof (Nat.div_le_lower_bound (count - (i + 3) + 2) 3 1
                    ltac:(lia) ltac:(lia)).
      lia.
    + change (last (i :: j :: l) 0) with (last (j :: l) 0). rewrite E.
      replace (count - i - 1) with (count - (i + 3) - 1 + 1 * 3) by lia.
      rewrite Nat.div_add by lia. lia.
  - assert (F : forBy3 fuel (i + 3) count = []).
    { destruct fuel; cbn [forBy3]; [reflexivity|].
      destruct (Nat.ltb_spec (i + 3) count); [lia|reflexivity]. }
    rewrite F. cbn [last].
    rewrite Nat.div_small by lia. lia.
Qed.

Lemma steps3_last (count : nat) :
  count mod 3 <> 0 -> last (steps3 count) 0 = 3 * (count / 3).
Proof.
  intro M. unfold steps3.
  assert (0 < count) by (destruct count; [cbn in M; congruence|lia]).
  rewrite forBy3_last by lia. rewrite Nat.add_0_l, Nat.sub_0_r.
  f_equal.
  pose proof (Nat.div_mod_eq count 3).
  pose proof (Nat.mod_upper_bound count 3 ltac:(lia)).
  replace (count - 1) with (count mod 3 - 1 + (count / 3) * 3) by lia.
  rewrite Nat.div_add by lia. rewrite Nat.div_small by lia. lia.
Qed.

Lemma last_map_nonempty {A B} (f : A -> B) (l : list A) (a : A) (b : B) :
  l <> [] -> last (map f l) b = f (last l a).
Proof.
  induction l as [|x l IH]; intro N; [congruence|].
  destruct l as [|y l]; [reflexivity|].
  change (last (map f (y :: l)) b = f (last (y :: l) a)).
  apply IH. discriminate.
Qed.

Lemma steps3_nonempty (count : nat) : count mod 3 <> 0 -> steps3 count <> [].
Proof.
  intros M E. apply (f_equal (@length nat)) in E.
  rewrite steps3_length in E. cbn [length] in E.
  assert (0 < count) by (destruct count; [cbn in M; congruence|lia]).
  pose proof (Nat.div_le_lower_bound (count + 2) 3 1 ltac:(lia) ltac:(lia)).
  lia.
Qed.

(** X16 (legacy exporter, triangles are not checked).  When the number of
    indices of a mesh, or of its vertices when it has no index, is not a
    multiple of three, the last triangle line of the mesh is written all
    the same: for a mesh with an index its [v3] reads [undefined] (and
    [v2] too when one index is left over); for a mesh without index it
    names a vertex number that is not below the number of vertices the
    object holds. *)
Theorem legacy_trailing_triangle (mesh : LegacyExport.Mesh)
    (ps : list Vector3) :
  position (LegacyExport.geometry mesh) = Some ps ->
  let n := match index (LegacyExport.geometry mesh) with
           | Some indices => length indices
           | None => length ps
           end in
  n mod 3 <> 0 ->
  let i := 3 * (n / 3) in
  match index (LegacyExport.geometry mesh) with
  | Some indices =>
      last (legacyTriangleLines mesh) EmptyString
      = LegacyExport.triangleLine (get indices i) (get indices (i + 1))
                                  Undefined
  | None =>
      last (legacyTriangleLines mesh) EmptyString
      = LegacyExport.triangleLine (Num (Z.of_nat i)) (Num (Z.of_nat i + 1))
                                  (Num (Z.of_nat i + 2))
      /\ length ps <= i + 2
  end.
Proof.
  intros P n M i. unfold legacyTriangleLines. rewrite P.
  unfold LegacyExport.triangleLines.
  pose proof (Nat.div_mod_eq n 3) as D.
  pose proof (Nat.mod_upper_bound n 3 ltac:(lia)) as U.
  destruct (index (LegacyExport.geometry mesh)) as [indices|].
  - rewrite (@last_map_nonempty _ _ _ _ 0) by (apply steps3_nonempty; exact M).
    rewrite steps3_last by exact M. fold n. fold i. do 1 f_equal.
    unfold get.
    assert (N : nth_error indices (i + 2) = None)
      by (apply nth_error_None; fold n; unfold i; lia).
    now rewrite N.
  - rewrite (@last_map_nonempty _ _ _ _ 0) by (apply steps3_nonempty; exact M).
    rewrite steps3_last by exact M. fold n. fold i.
    split; [reflexivity|]. subst n. unfold i. lia.
Qed.

Lemma legacy_trailing_triangle_witness :
  last (legacyTriangleLines
          (LegacyExport.mkMesh 1
             (mkGeometry (Some [mkVector3 0 0 0; mkVector3 1 0 0;
                                mkVector3 1 1 0; mkVector3 0 1 0]) None)
             LegacyExport.OtherMaterial [] LegacySample.placed)) EmptyString
  = LegacyExport.triangleLine (Num 3) (Num 4) (Num 5)
  /\ last (legacyTriangleLines
             (LegacyExport.mkMesh 1
                (mkGeometry (Some [mkVector3 0 0 0; mkVector3 1 0 0;
                                   mkVector3 1 1 0; mkVector3 0 1 0])
                            (Some [0; 1; 2; 3]%Z))
                LegacyExport.OtherMaterial [] LegacySample.placed)) EmptyString
     = LegacyExport.triangleLine (Num 3) Undefined Undefined.
Proof.
  split.
  - apply (@legacy_trailing_triangle
             (LegacyExport.mkMesh 1
                (mkGeometry (Some [mkVector3 0 0 0; mkVector3 1 0 0;
                                   mkVector3 1 1 0; mkVector3 0 1 0]) None)
                LegacyExport.OtherMaterial [] LegacySample.placed)
             _ eq_refl). cbn. discriminate.
  - apply (@legacy_trailing_triangle
             (LegacyExport.mkMesh 1
                (mkGeometry (Some [mkVector3 0 0 0; mkVector3 1 0 0;
                                   mkVector3 1 1 0; mkVector3 0 1 0])
                            (Some [0; 1; 2; 3]%Z))
                LegacyExport.OtherMaterial [] LegacySample.placed)
             _ eq_refl). cbn. discriminate.
Defined.

Lemma leafRecords_updateMatrixWorld (pw pw' : option Matrix4) (force : bool)
    (o : Object3D) :
  leafRecords pw (updateMatrixWorld pw' force o) = leafRecords pw o.
Proof.
  rewrite <- leafRecords_dropCaches, dropCaches_updateMatrixWorld.
  apply leafRecords_dropCaches.
Qed.

Lemma collectComponents_refreshed (pw : option Matrix4) (o : Object3D)
    (st : State) :
  collectComponents (height (updateMatrixWorld pw true o)) pw
                    (updateMatrixWorld pw true o) st
  = collectComponents (height o) pw o st.
Proof.
  rewrite !collectComponents_leaves by apply Nat.le_refl.
  now rewrite leafRecords_updateMatrixWorld, updateMatrixWorld_idem.
Qed.

Lemma processObject_refreshed (pw : option Matrix4) (o : Object3D)
    (st : Merged.State) :
  Merged.processObject (height (updateMatrixWorld pw true o)) pw
                       (updateMatrixWorld pw true o) st
  = Merged.processObject (height o) pw o st.
Proof.
  rewrite !processObject_leaves by apply Nat.le_refl.
  now rewrite leafRecords_updateMatrixWorld, updateMatrixWorld_idem.
Qed.

(** X17 (exporting the exported scene).  The scene an export returns is a
    fixed point of the exporters: exporting it again, under the same
    parent, leaves it as it is and, with the same clock and random
    numbers, gives the same archive; with any clock and random numbers it
    gives what a fresh export of the original scene gives.  This holds
    for the packaged and for the merged exporter, and for one after the
    other. *)
Theorem export_of_exported_scene (env env' : Env) (radix16 : float -> string)
    (pw : option Matrix4) (o : Object3D) :
  match exportTo3MF env pw o with
  | Ok (o1, zip) =>
      exportTo3MF env pw o1 = Ok (o1, zip)
      /\ exportTo3MF env' pw o1 = exportTo3MF env' pw o
      /\ MergedPackage.exportTo3MF env' radix16 pw o1
         = MergedPackage.exportTo3MF env' radix16 pw o
  | Throw _ =>
      exists leaf, In leaf (leafRecords pw o)
                   /\ position (lr_geometry leaf) = None
  | OutOfFuel => False
  end
  /\ match MergedPackage.exportTo3MF env radix16 pw o with
     | Ok (o1, zip) =>
         MergedPackage.exportTo3MF env radix16 pw o1 = Ok (o1, zip)
         /\ MergedPackage.exportTo3MF env' radix16 pw o1
            = MergedPackage.exportTo3MF env' radix16 pw o
         /\ exportTo3MF env' pw o1 = exportTo3MF env' pw o
     | Throw _ =>
         exists leaf, In leaf (leafRecords pw o)
                      /\ position (lr_geometry leaf) = None
     | OutOfFuel => False
     end.
Proof.
  assert (P : forall e, exportTo3MF e pw (updateMatrixWorld pw true o)
                        = exportTo3MF e pw o)
    by (intro e; unfold exportTo3MF; now rewrite collectComponents_refreshed).
  assert (M : forall e, MergedPackage.exportTo3MF e radix16 pw
                          (updateMatrixWorld pw true o)
                        = MergedPackage.exportTo3MF e radix16 pw o)
    by (intro e; unfold MergedPackage.exportTo3MF, MergedPackage.createModelXML;
        now rewrite processObject_refreshed).
  split.
  - pose proof (exportTo3MF_outcome env pw o) as H.
    destruct (exportTo3MF env pw o) as [[o1 zip]|e|] eqn:E; [|exact H|exact H].
    destruct H as [components [materials [_ [-> _]]]].
    rewrite !P, M. auto.
  - pose proof (createModelXML_outcome env radix16 pw o) as H.
    unfold MergedPackage.exportTo3MF at 1.
    destruct (MergedPackage.createModelXML env radix16 pw o)
      as [[o1 doc]|e|] eqn:C; cbn [bind]; [|exact H|exact H].
    destruct H as [components [materials [_ [_ [-> _]]]]].
    rewrite !M, P. unfold MergedPackage.exportTo3MF. rewrite C. cbn [bind].
    auto.
Qed.

(* ----------------------------------------------------------------- *)
(** *** The filament colours *)

(** X18 (filament colours of the project settings).  The filament colours
    of the project settings are the colours of the registered materials,
    in table order and as [rgbToHexColor] writes them, followed by as many
    entries #FFFFFF as it takes to reach two.  The project settings of
    every export that returns hold this list for the table of the export;
    for a scene whose meshes all have one colour the list is that colour
    as [rgbToHexColor] writes it, and #FFFFFF. *)
Theorem project_settings_colours (env : Env) (pw : option Matrix4)
    (o : Object3D) :
  (forall materials,
     filamentColours materials
     = map (fun m => rgbToHexColor (mi_color m)) materials
       ++ repeat "#FFFFFF"%string (2 - length materials))
  /\ match exportTo3MF env pw o with
     | Ok (_, zip) =>
         exists components materials,
           foldM collectLeaf (leafRecords pw o) ([], [])
           = Ok (components, materials)
           /\ entry "Metadata/project_settings.config" zip
              = Some (JsonDoc (projectSettings materials))
           /\ jsonField "filament_colour" (projectSettings materials)
              = Some (JArray (map JString (filamentColours materials)))
           /\ (forall c,
                 sameColor c c = true ->
                 leafRecords pw o <> [] ->
                 Forall (fun leaf => lr_material leaf = Some (WithColor c))
                        (leafRecords pw o) ->
                 filamentColours materials
                 = [rgbToHexColor c; "#FFFFFF"%string])
     | Throw _ =>
         exists leaf, In leaf (leafRecords pw o)
                      /\ position (lr_geometry leaf) = None
     | OutOfFuel => False
     end.
Proof.
  split.
  - intro materials. unfold filamentColours.
    now rewrite padColors_fill, length_map.
  - pose proof (exportTo3MF_outcome env pw o) as H.
    destruct (exportTo3MF env pw o) as [[o' zip]|e|]; [|exact H|exact H].
    destruct H as [components [materials [Hrun [_ ->]]]].
    exists components, materials.
    split; [exact Hrun|]. split; [reflexivity|]. split; [reflexivity|].
    intros c Hc Hne Hall.
    destruct (single_colour_run Hc Hall Hne Hrun) as [m [Hm Hcm]].
    cbn [snd] in Hm. subst materials.
    unfold filamentColours. cbn [map]. rewrite Hcm. reflexivity.
Qed.

(* ================================================================= *)
(** ** The empty scene and the scene after an export *)

Lemma occurrences_positive (p s : string) (n : nat) :
  occurrences p s = S n -> 0 < occurrences p s.
Proof. intros ->. apply Nat.lt_0_succ. Qed.

(** An entry whose name does not end in [.rels] is no relationships
    part. *)
Ltac noRelationships :=
  let X := fresh "X" in
  cbn [fst snd]; intro X; vm_compute in X; discriminate X.

(** The package of [3mf-exporter.ts], whatever the components and the
    materials: a valid container. *)
Lemma package_valid (env : Env) (components : list ComponentInfo)
    (materials : list MaterialInfo) :
  validContainer
    [("[Content_Types].xml", contentTypesXML);
     ("_rels/.rels", relationshipsXML);
     ("3D/3dmodel.model", createMainModelXML env components);
     ("3D/_rels/3dmodel.model.rels", objectRelationshipsXML);
     ("3D/Objects/object-97.model", createObjectModelXML env 3 components);
     ("Metadata/model_settings.config", createModelSettingsXML components);
     ("Metadata/project_settings.config",
      createProjectSettingsConfig materials)]%string.
Proof.
  assert (T1 : relationshipTargets relationshipsXML
               = ["/3D/3dmodel.model"%string]) by (vm_compute; reflexivity).
  assert (T2 : relationshipTargets objectRelationshipsXML
               = ["/3D/Objects/object-97.model"%string])
    by (vm_compute; reflexivity).
  split; [|split].
  - eexists. split; [reflexivity|].
    split; eapply occurrences_positive; vm_compute; reflexivity.
  - exists relationshipsXML, "3D/3dmodel.model"%string,
           (createMainModelXML env components).
    split; [reflexivity|]. split; [exact T1|]. split; [reflexivity|].
    split; [reflexivity|]. split; [|split].
    + unfold isModelPart, createMainModelXML. split; [reflexivity|].
      split; [cbn [In]; auto 10|]. split; [cbn [In]; auto 10|].
      split; eexists; eexists; cbn [In]; auto 10.
    + unfold itemsResolve, createMainModelXML.
      cbn [elementsNamed flat_map app String.eqb Ascii.eqb Bool.eqb].
      rewrite !elementsNamed_other by reflexivity.
      cbn [app].
      constructor; [|constructor].
      eexists. split; [left; reflexivity|]. split; [discriminate|].
      reflexivity.
    + rewrite mainModel_components. apply Forall_forall. intros c Hc.
      apply in_map_iff in Hc. destruct Hc as [comp [<- _]].
      exists "/3D/Objects/object-97.model"%string. split; [reflexivity|].
      exists "3D/Objects/object-97.model"%string. split; [reflexivity|].
      discriminate.
  - constructor; [noRelationships|].
    constructor.
    { cbn [fst snd]. intros _. rewrite T1. constructor; [|constructor].
      exists "3D/3dmodel.model"%string. split; [reflexivity|]. discriminate. }
    constructor; [noRelationships|].
    constructor.
    { cbn [fst snd]. intros _. rewrite T2. constructor; [|constructor].
      exists "3D/Objects/object-97.model"%string.
      split; [reflexivity|]. discriminate. }
    constructor; [noRelationships|].
    constructor; [noRelationships|].
    constructor; [noRelationships|]. constructor.
Qed.


(** The archive of the merged exporter, whatever it collected: a valid
    container. *)
Lemma merged_valid (env : Env) (radix16 : float -> string)
    (st : Merged.State) :
  validContainer
    [("[Content_Types].xml", MergedPackage.contentTypesXML);
     ("_rels/.rels", MergedPackage.relationshipsXML);
     ("3D/3dmodel.model", MergedPackage.modelDocument env radix16 st)]%string.
Proof.
  destruct st as [[vertices triangles] materials].
  assert (T1 : relationshipTargets MergedPackage.relationshipsXML
               = ["/3D/3dmodel.model"%string]) by (vm_compute; reflexivity).
  split; [|split].
  - eexists. split; [reflexivity|].
    split; eapply occurrences_positive; vm_compute; reflexivity.
  - exists MergedPackage.relationshipsXML, "3D/3dmodel.model"%string,
           (MergedPackage.modelDocument env radix16
              (vertices, triangles, materials)).
    split; [reflexivity|]. split; [exact T1|]. split; [reflexivity|].
    split; [reflexivity|]. split; [|split].
    + unfold isModelPart, MergedPackage.modelDocument. split; [reflexivity|].
      split; [cbn [In]; auto 10|]. split; [cbn [In]; auto 10|].
      split; eexists; eexists; cbn [In]; auto 10.
    + unfold itemsResolve, MergedPackage.modelDocument.
      destruct (0 <? len materials)%Z;
        cbn [elementsNamed flat_map app String.eqb Ascii.eqb Bool.eqb];
        unfold MergedPackage.baseElement, MergedPackage.triangleElement;
        rewrite !elementsNamed_other by reflexivity; cbn [app];
        (constructor; [|constructor]); eexists;
        (split; [left; reflexivity|]); (split; [discriminate|reflexivity]).
    + unfold docElements, MergedPackage.modelDocument.
      destruct (0 <? len materials)%Z;
        cbn [elementsNamed flat_map app String.eqb Ascii.eqb Bool.eqb];
        unfold MergedPackage.baseElement, MergedPackage.triangleElement;
        rewrite !elementsNamed_other by reflexivity; constructor.
  - constructor; [noRelationships|].
    constructor.
    { cbn [fst snd]. intros _. rewrite T1. constructor; [|constructor].
      exists "3D/3dmodel.model"%string. split; [reflexivity|]. discriminate. }
    constructor; [noRelationships|]. constructor.
Qed.



(** The predicate has teeth: an archive whose root relationships point
    at a model that is not there is no valid container. *)
Example container_without_model :
  ~ validContainer [("[Content_Types].xml", contentTypesXML);
                    ("_rels/.rels", relationshipsXML)]%string.
Proof.
  intros [_ [[rels [path [model [R [T [_ [M _]]]]]]] _]].
  cbn in R. injection R as <-.
  assert (T1 : relationshipTargets relationshipsXML
               = ["/3D/3dmodel.model"%string]) by (vm_compute; reflexivity).
  rewrite T1 in T. injection T as <-.
  cbn in M. discriminate.
Qed.

(** X19 (the archives are valid containers).  Every archive that the
    exporter of [3mf-exporter.ts] or the merged exporter returns, for any
    scene and whatever the names of its objects, is a valid container: the
    content types declare the extensions [rels] and [model]; the root
    relationships point at one part, the primary model under [3D/], which
    is a model part in millimeters with the core namespace, a [resources]
    block and a [build] block; every build item refers to an object of the
    resources; every component of the primary model names a part of the
    archive; and every target of a relationships part names a part of the
    archive.  An exporter throws only when a mesh has no position
    attribute. *)
Theorem exports_are_valid_containers (env : Env) (radix16 : float -> string)
    (pw : option Matrix4) (o : Object3D) :
  match exportTo3MF env pw o with
  | Ok (_, zip) => validContainer zip
  | Throw _ =>
      exists leaf, In leaf (leafRecords pw o)
                   /\ position (lr_geometry leaf) = None
  | OutOfFuel => False
  end
  /\ match MergedPackage.exportTo3MF env radix16 pw o with
     | Ok (_, zip) => validContainer zip
     | Throw _ =>
         exists leaf, In leaf (leafRecords pw o)
                      /\ position (lr_geometry leaf) = None
     | OutOfFuel => False
     end.
Proof.
  split.
  - pose proof (exportTo3MF_outcome env pw o) as X.
    destruct (exportTo3MF env pw o) as [[o' zip]|e|]; [|exact X|exact X].
    destruct X as [components [materials [_ [_ ->]]]].
    apply package_valid.
  - unfold MergedPackage.exportTo3MF.
    pose proof (createModelXML_outcome env radix16 pw o) as X.
    destruct (MergedPackage.createModelXML env radix16 pw o)
      as [[o' doc]|e|]; cbn [bind]; [|exact X|exact X].
    destruct X as [components [materials [_ [_ [_ ->]]]]].
    apply merged_valid.
Qed.



(** Against the empty scene: the archive of the sample scene does declare
    geometry, eight vertices, four triangles and two components. *)
Example sample_scene_geometry :
  exists o' zip,
    exportTo3MF Sample.env None Sample.scene = Ok (o', zip)
    /\ list_sum (map (fun e => declaredGeometry (snd e)) zip) = 14.
Proof.
  destruct (exportTo3MF Sample.env None Sample.scene) as [[o' zip]|e|] eqn:E;
    try (vm_compute in E; discriminate).
  exists o', zip. split; [reflexivity|].
  vm_compute in E. injection E as _ <-. vm_compute. reflexivity.
Qed.

(** C9 (the scene is left as it was).  An export writes nothing to the
    scene but the caches that section 4.1 of the specification has it
    recompute.  The scene that [collectComponents] and [processObject]
    leave is the one [updateMatrixWorld(true)] produces, and the meshes
    that the legacy exporter leaves are those that
    [updateWorldMatrix(true, false)] produces, which writes to the mesh
    and to its ancestors; without the caches ([matrix] where it is
    recomposed, [matrixWorld], [matrixWorldNeedsUpdate]) the scene is the
    one that was given: names, geometries with their position and index
    streams, materials, local transforms and the hierarchy are
    unchanged.  Every vertex is transformed in a record of its own. *)
Theorem export_rewrites_only_caches (pw : option Matrix4) (o : Object3D)
    (st : State) (sm : Merged.State) (getHexString : Color -> string)
    (numberToString : float -> string) (input : LegacyExport.Meshes)
    (scale : option float) :
  let meshes := match input with
                | LegacyExport.One mesh => [mesh]
                | LegacyExport.Many meshes => meshes
                end in
  match collectComponents (height o) pw o st with
  | Ok (o', _) =>
      o' = updateMatrixWorld pw true o /\ dropCaches o' = dropCaches o
  | Throw _ =>
      exists leaf, In leaf (leafRecords pw o)
                   /\ position (lr_geometry leaf) = None
  | OutOfFuel => False
  end
  /\ match Merged.processObject (height o) pw o sm with
     | Ok (o', _) =>
         o' = updateMatrixWorld pw true o /\ dropCaches o' = dropCaches o
     | Throw _ =>
         exists leaf, In leaf (leafRecords pw o)
                      /\ position (lr_geometry leaf) = None
     | OutOfFuel => False
     end
  /\ match LegacyExport.exportTo3MF getHexString numberToString input scale with
     | Ok (meshes', _) =>
         meshes' = map LegacyExport.updateWorldMatrix meshes
         /\ map legacyDropCaches meshes' = map legacyDropCaches meshes
     | Throw _ =>
         exists mesh, In mesh meshes
                      /\ position (LegacyExport.geometry mesh) = None
     | OutOfFuel => False
     end.
Proof.
  cbv zeta. split; [|split].
  - pose proof (collect_outcome pw o st) as H.
    destruct (collectComponents (height o) pw o st) as [[o' st']|e|] eqn:E;
      [|exact (collect_throws _ _ _ E)|exact H].
    destruct H as [-> _]. split; [reflexivity|].
    apply dropCaches_updateMatrixWorld.
  - pose proof (process_outcome pw o sm) as H.
    destruct (Merged.processObject (height o) pw o sm) as [[o' st']|e|];
      [|exact H|exact H].
    destruct H as [-> _]. split; [reflexivity|].
    apply dropCaches_updateMatrixWorld.
  - unfold LegacyExport.exportTo3MF.
    match goal with
    | |- context [LegacyExport.modelLines ?a ?b ?c ?d] =>
        pose proof (modelLines_outcome a b c d) as H;
        destruct (LegacyExport.modelLines a b c d) as [[meshes1 lines]|e|]
    end; cbn [bind]; [|exact H|exact H].
    cbv zeta in H. destruct H as [-> _]. split; [reflexivity|].
    rewrite map_map. apply map_ext. intro mesh.
    apply legacyDropCaches_updateWorldMatrix.
Qed.
